(** * pyarrow_inspect: the Parquet inspection script, embedded and verified

    A shallow embedding of [scripts/pyarrow_inspect.py]: the report printed by
    [inspect_parquet], the JUnit template built by [generate_junit_template],
    the helpers [python_to_java_type] and [format_value], and the command-line
    entry point.  Python's text is modelled as ASCII [string]s, Python's [int]
    as [Z], Python's [float] as an IEEE-754 binary64 datum ([spec_float] with
    precision 53 and exponent bound 1024), and what the script prints as the
    list of its [print] calls. *)

From Stdlib Require Import ZArith List Bool Lia Ascii String.
From Stdlib Require Import Numbers.DecimalString Numbers.DecimalPos Numbers.DecimalZ.
From Stdlib Require Import Floats.SpecFloat.
Import ListNotations.

Open Scope string_scope.
Open Scope list_scope.

(** ** Python's string operations *)

Module PyStr.

(** The double quote and the line feed, which the templates are full of. *)
Definition dq : string := String "034"%char EmptyString.
Definition nl : string := String "010"%char EmptyString.

(** [c.lower()] and [c.upper()] on one ASCII character. *)
Definition lower_char (c : ascii) : ascii :=
  let n := nat_of_ascii c in
  if andb (Nat.leb 65 n) (Nat.leb n 90) then ascii_of_nat (n + 32) else c.

Definition upper_char (c : ascii) : ascii :=
  let n := nat_of_ascii c in
  if andb (Nat.leb 97 n) (Nat.leb n 122) then ascii_of_nat (n - 32) else c.

(** [s.lower()] *)
Fixpoint lower (s : string) : string :=
  match s with
  | EmptyString => EmptyString
  | String c rest => String (lower_char c) (lower rest)
  end.

(** [s.capitalize()]: the first character upper-cased, the others lower-cased. *)
Definition capitalize (s : string) : string :=
  match s with
  | EmptyString => EmptyString
  | String c rest => String (upper_char c) (lower rest)
  end.

(** [s.startswith(p)] *)
Fixpoint starts_with (p s : string) : bool :=
  match p, s with
  | EmptyString, _ => true
  | String _ _, EmptyString => false
  | String a p', String b s' => andb (Ascii.eqb a b) (starts_with p' s')
  end.

(** [needle in hay] *)
Fixpoint contains (needle hay : string) : bool :=
  orb (starts_with needle hay)
      match hay with
      | EmptyString => false
      | String _ rest => contains needle rest
      end.

(** [sep.join(parts)] *)
Fixpoint join (sep : string) (parts : list string) : string :=
  match parts with
  | [] => EmptyString
  | [p] => p
  | p :: rest => p ++ sep ++ join sep rest
  end.

(** [s.split(sep)] for a separator of one character: the pieces between the
    occurrences of [sep], empty pieces included, so never an empty list. *)
Fixpoint split (sep : ascii) (s : string) : list string :=
  match s with
  | EmptyString => [EmptyString]
  | String c rest =>
      if Ascii.eqb c sep then EmptyString :: split sep rest
      else match split sep rest with
           | [] => [String c EmptyString]
           | piece :: pieces => String c piece :: pieces
           end
  end.

(** [s.replace(old, new)] for a non-empty [old]: occurrences are taken from
    the left and do not overlap.  [skip] counts the characters of a match
    that are still to be dropped. *)
Fixpoint replace_from (old new : string) (skip : nat) (s : string) : string :=
  match s with
  | EmptyString => EmptyString
  | String c rest =>
      match skip with
      | S k => replace_from old new k rest
      | O =>
          if starts_with old s
          then new ++ replace_from old new (String.length old - 1) rest
          else String c (replace_from old new 0 rest)
      end
  end.

(** With an empty [old] Python puts [new] before every character and at the
    end. *)
Fixpoint intersperse (new s : string) : string :=
  match s with
  | EmptyString => new
  | String c rest => new ++ String c (intersperse new rest)
  end.

Definition replace (old new s : string) : string :=
  match old with
  | EmptyString => intersperse new s
  | String _ _ => replace_from old new 0 s
  end.

(** [s * n] *)
Fixpoint repeat (s : string) (n : nat) : string :=
  match n with
  | O => EmptyString
  | S k => s ++ repeat s k
  end.

(** [str(z)] for an [int]. *)
Definition of_Z (z : Z) : string := NilZero.string_of_int (Z.to_int z).

Definition of_nat (n : nat) : string := of_Z (Z.of_nat n).

(** The last element of a list that [split] returned: [parts[-1]]. *)
Definition last_part (parts : list string) : string := List.last parts EmptyString.

End PyStr.

(** ** Python's floats *)

Module PyFloat.

Definition prec : Z := 53.
Definition emax : Z := 1024.

(** An [int] as an exact, not yet rounded, binary datum. *)
Definition exact_of_Z (z : Z) : spec_float :=
  match z with
  | Z0 => S754_zero false
  | Zpos p => S754_finite false p 0
  | Zneg p => S754_finite true p 0
  end.

Definition is_nan (f : spec_float) : bool :=
  match f with S754_nan => true | _ => false end.

Definition is_inf (f : spec_float) : bool :=
  match f with S754_infinity _ => true | _ => false end.

(** [float(z)]: the nearest binary64, ties to even; [None] stands for the
    [OverflowError] of an [int] too large for a float. *)
Definition of_int (z : Z) : option spec_float :=
  let f := binary_normalize prec emax z 0 false in
  if is_inf f then None else Some f.

(** [a / b] on two [int]s with [b] not zero: the binary64 nearest to the
    exact quotient; [None] stands for the [OverflowError]. *)
Definition int_true_div (a b : Z) : option spec_float :=
  let q := SFdiv prec emax (exact_of_Z a) (exact_of_Z b) in
  if is_inf q then None else Some q.

Definition add (x y : spec_float) : spec_float := SFadd prec emax x y.
Definition div (x y : spec_float) : spec_float := SFdiv prec emax x y.
Definition ltb (x y : spec_float) : bool := SFltb x y.
Definition leb (x y : spec_float) : bool := SFleb x y.

(** The integer nearest to [a / b] for [0 < b], ties to the even one. *)
Definition round_half_even (a b : Z) : Z :=
  let q := (a / b)%Z in
  let r := (a mod b)%Z in
  if (2 * r <? b)%Z then q
  else if (b <? 2 * r)%Z then (q + 1)%Z
  else if Z.even q then q else (q + 1)%Z.

(** The hundredths in a finite magnitude [m * 2^e], rounded half to even. *)
Definition hundredths (m : positive) (e : Z) : Z :=
  match e with
  | Zneg k => round_half_even (Zpos m * 100) (2 ^ Zpos k)
  | _ => (Zpos m * 100 * 2 ^ e)%Z
  end.

Definition two_digits (r : Z) : string :=
  if (r <? 10)%Z then "0" ++ PyStr.of_Z r else PyStr.of_Z r.

Definition fixed2 (neg : bool) (h : Z) : string :=
  (if neg then "-" else EmptyString) ++ PyStr.of_Z (h / 100) ++ "." ++ two_digits (h mod 100).

(** [format(f, '.2f')]: the decimal with two places nearest to the exact
    value of [f], ties to even; the sign of a negative zero is kept. *)
Definition fmt_2f (f : spec_float) : string :=
  match f with
  | S754_nan => "nan"
  | S754_infinity s => if s then "-inf" else "inf"
  | S754_zero s => fixed2 s 0
  | S754_finite s m e => fixed2 s (hundredths m e)
  end.

End PyFloat.

(** ** Python values, exceptions and the print log *)

(** The objects [to_pylist] returns.  A float carries, next to its value, the
    text [repr] gives for it, and an object of any other type is known by the
    name of its class and the text [str] gives for it: that is all the script
    observes of them. *)
Inductive PyVal : Type :=
| VNone
| VStr (s : string)
| VBool (b : bool)
| VInt (z : Z)
| VFloat (f : spec_float) (shown : string)
| VOther (cls : string) (shown : string).

(** [str(v)] *)
Definition py_str (v : PyVal) : string :=
  match v with
  | VNone => "None"
  | VStr s => s
  | VBool b => if b then "True" else "False"
  | VInt z => PyStr.of_Z z
  | VFloat _ shown => shown
  | VOther _ shown => shown
  end.

(** [type(v).__name__] *)
Definition class_name (v : PyVal) : string :=
  match v with
  | VNone => "NoneType"
  | VStr _ => "str"
  | VBool _ => "bool"
  | VInt _ => "int"
  | VFloat _ _ => "float"
  | VOther cls _ => cls
  end.

(** [v is None] *)
Definition is_none (v : PyVal) : bool :=
  match v with VNone => true | _ => false end.

(** The two kinds of exception the entry point tells apart; [msg] is
    [str(e)]. *)
Inductive PyExc : Type :=
| FileNotFoundError (msg : string)
| PyException (msg : string).

Inductive Outcome (A : Type) : Type :=
| Returned (a : A)
| Raised (e : PyExc).
Arguments Returned {A} a.
Arguments Raised {A} e.

(** What [print] shows of a data frame, by rows: all its rows, or, of a
    frame too long for the display, its first and its last rows around a
    row of dots, followed by the number of rows it has.  How the columns of
    a row are laid out is not modelled. *)
Inductive FrameView : Type :=
| AllRows (rows : list (list PyVal))
| CutRows (leading trailing : list (list PyVal)) (total : nat).

(** One entry per call of [print] (and of [traceback.print_exc]); an entry
    keeps the objects that the call interpolates into its text, and of a
    frame what is shown of it. *)
Inductive Printed : Type :=
| PLine (text : string)
| PSchema (fields : list (string * string))
| PValue (label : string) (v : PyVal)
| PValues (label : string) (vs : list PyVal)
| PFrame (view : FrameView)
| PTraceback (e : PyExc).

(** A computation that prints and then returns or raises. *)
Definition Run (A : Type) : Type := (list Printed * Outcome A)%type.

Definition ret {A} (a : A) : Run A := ([], Returned a).

Definition bind {A B} (m : Run A) (k : A -> Run B) : Run B :=
  match m with
  | (out, Returned a) => let (out', r) := k a in (out ++ out', r)
  | (out, Raised e) => (out, Raised e)
  end.

Definition print (p : Printed) : Run unit := ([p], Returned tt).
Definition lift {A} (o : Outcome A) : Run A := ([], o).

Declare Scope run_scope.
Delimit Scope run_scope with run.
Notation "x <- m ;; k" := (bind m (fun x => k))
  (at level 61, m at next level, right associativity) : run_scope.
Notation "m ;; k" := (bind m (fun _ => k))
  (at level 61, right associativity) : run_scope.

(** [for i, x in enumerate(xs, start): body(i, x)] *)
Fixpoint for_enumerate {A} (start : nat) (xs : list A) (body : nat -> A -> Run unit)
  : Run unit :=
  match xs with
  | [] => ret tt
  | x :: rest => bind (body start x) (fun _ => for_enumerate (S start) rest body)
  end.

(** The same sequencing for code that prints nothing. *)
Definition and_then {A B} (o : Outcome A) (k : A -> Outcome B) : Outcome B :=
  match o with
  | Returned a => k a
  | Raised e => Raised e
  end.

(** ** Slices *)

(** How a slice bound is brought into [0 .. len]. *)
Definition clamp_index (len i : Z) : Z :=
  if (i <? 0)%Z then Z.max (i + len) 0 else Z.min i len.

(** [l[start:stop]], an absent bound being [None]. *)
Definition py_slice {A} (start stop : option Z) (l : list A) : list A :=
  let len := Z.of_nat (List.length l) in
  let lo := match start with None => 0%Z | Some i => clamp_index len i end in
  let hi := match stop with None => len | Some j => clamp_index len j end in
  firstn (Z.to_nat (hi - lo)) (skipn (Z.to_nat lo) l).

(** ** Numbers: comparison, [min], [max], [sum] and the mean *)

Inductive PyNum : Type :=
| NInt (z : Z)
| NFloat (f : spec_float).

Definition not_supported {A} (op : string) (a b : PyVal) : Outcome A :=
  Raised (PyException ("'" ++ op ++ "' not supported between instances of '"
                       ++ class_name a ++ "' and '" ++ class_name b ++ "'")).

Definition unsupported_operands {A} (op a b : string) : Outcome A :=
  Raised (PyException ("unsupported operand type(s) for " ++ op ++ ": '"
                       ++ a ++ "' and '" ++ b ++ "'")).

(** [a < b].  The cases are the ones a numeric Arrow column asks for, two
    [int]s or two [float]s; on anything else the model raises. *)
Definition py_lt (a b : PyVal) : Outcome bool :=
  match a, b with
  | VInt x, VInt y => Returned (x <? y)%Z
  | VFloat f _, VFloat g _ => Returned (PyFloat.ltb f g)
  | _, _ => not_supported "<" a b
  end.

(** [a > b], which on numbers is [b < a]. *)
Definition py_gt (a b : PyVal) : Outcome bool :=
  match a, b with
  | VInt x, VInt y => Returned (y <? x)%Z
  | VFloat f _, VFloat g _ => Returned (PyFloat.ltb g f)
  | _, _ => not_supported ">" a b
  end.

(** The loop of [min] and [max]: the item kept so far is replaced by every
    later item that beats it. *)
Fixpoint scan (beats : PyVal -> PyVal -> Outcome bool) (kept : PyVal)
  (items : list PyVal) : Outcome PyVal :=
  match items with
  | [] => Returned kept
  | item :: rest =>
      and_then (beats item kept)
        (fun b => scan beats (if b then item else kept) rest)
  end.

Definition empty_sequence {A} (f : string) : Outcome A :=
  Raised (PyException (f ++ "() arg is an empty sequence")).

Definition py_min (l : list PyVal) : Outcome PyVal :=
  match l with
  | [] => empty_sequence "min"
  | first :: rest => scan py_lt first rest
  end.

Definition py_max (l : list PyVal) : Outcome PyVal :=
  match l with
  | [] => empty_sequence "max"
  | first :: rest => scan py_gt first rest
  end.

Definition overflow {A} : Outcome A :=
  Raised (PyException "int too large to convert to float").

Definition float_of_int (z : Z) : Outcome spec_float :=
  match PyFloat.of_int z with
  | Some f => Returned f
  | None => overflow
  end.

(** [acc + v] for the accumulator of [sum]. *)
Definition py_add (acc : PyNum) (v : PyVal) : Outcome PyNum :=
  match acc, v with
  | NInt x, VInt y => Returned (NInt (x + y))
  | NInt x, VFloat g _ =>
      and_then (float_of_int x) (fun f => Returned (NFloat (PyFloat.add f g)))
  | NFloat f, VInt y =>
      and_then (float_of_int y) (fun g => Returned (NFloat (PyFloat.add f g)))
  | NFloat f, VFloat g _ => Returned (NFloat (PyFloat.add f g))
  | NInt _, _ => unsupported_operands "+" "int" (class_name v)
  | NFloat _, _ => unsupported_operands "+" "float" (class_name v)
  end.

(** [sum(l)]: the items are added from the left to the start value [0], floats
    by plain float addition (as CPython does up to version 3.11). *)
Fixpoint sum_from (acc : PyNum) (l : list PyVal) : Outcome PyNum :=
  match l with
  | [] => Returned acc
  | v :: rest => and_then (py_add acc v) (fun acc' => sum_from acc' rest)
  end.

Definition py_sum (l : list PyVal) : Outcome PyNum := sum_from (NInt 0) l.

(** [total / n] for the positive length [n] of a list. *)
Definition py_div_len (total : PyNum) (n : nat) : Outcome spec_float :=
  match total with
  | NInt s =>
      match PyFloat.int_true_div s (Z.of_nat n) with
      | Some q => Returned q
      | None => Raised (PyException "integer division result too large for a float")
      end
  | NFloat f =>
      and_then (float_of_int (Z.of_nat n)) (fun d => Returned (PyFloat.div f d))
  end.

(** ** Tables and files, as the Parquet library hands them over *)

(** A column: [str(col.type)] and [col.to_pylist()]. *)
Record Column : Type := {
  col_type : string;
  col_values : list PyVal
}.

(** A table: its named columns in schema order and [len(table)]. *)
Record Table : Type := {
  tbl_columns : list (string * Column);
  tbl_num_rows : nat
}.

Definition column_names (t : Table) : list string := map fst (tbl_columns t).

(** [len(col)] and [col.null_count] *)
Definition col_length (c : Column) : nat := List.length (col_values c).
Definition col_null_count (c : Column) : nat :=
  List.length (filter is_none (col_values c)).

(** [table.column(name)]: the library looks the name up in the schema and
    raises a [KeyError] unless exactly one field bears it. *)
Definition table_column (t : Table) (name : string) : Outcome Column :=
  match filter (fun f => String.eqb (fst f) name) (tbl_columns t) with
  | [f] => Returned (snd f)
  | [] => Raised (PyException ("'Field " ++ PyStr.dq ++ name ++ PyStr.dq
                               ++ " does not exist in schema'"))
  | many => Raised (PyException ("'Field " ++ PyStr.dq ++ name ++ PyStr.dq
                                 ++ " exists " ++ PyStr.of_nat (List.length many)
                                 ++ " times in schema'"))
  end.

(** [table.schema], as names and type names. *)
Definition table_schema (t : Table) : list (string * string) :=
  map (fun f => (fst f, col_type (snd f))) (tbl_columns t).

(** [table.to_pandas()]: the frame, row by row. *)
Definition DataFrame : Type := list (list PyVal).

Definition to_pandas (t : Table) : DataFrame :=
  map (fun i => map (fun f => nth i (col_values (snd f)) VNone) (tbl_columns t))
      (seq 0 (tbl_num_rows t)).

(** [df.head(n)] is [df.iloc[:n]]; [df.tail(n)] is [df.iloc[-n:]], except
    that [df.tail(0)] is empty. *)
Definition df_head (n : Z) (df : DataFrame) : DataFrame :=
  py_slice None (Some n) df.

Definition df_tail (n : Z) (df : DataFrame) : DataFrame :=
  if (n =? 0)%Z then py_slice (Some 0%Z) (Some 0%Z) df
  else py_slice (Some (- n)%Z) None df.

(** The display options of pandas, which the script leaves at their
    defaults: [display.max_rows] and [display.min_rows]. *)
Definition display_max_rows : nat := 60.
Definition display_min_rows : nat := 10.

(** [repr(df)], by rows: a frame of more than [display.max_rows] rows is cut
    to [display.min_rows] rows, half of them from its head and half from its
    tail. *)
Definition frame_view (df : DataFrame) : FrameView :=
  if Nat.ltb display_max_rows (List.length df) then
    let row_num := Z.of_nat (Nat.min display_min_rows display_max_rows / 2) in
    CutRows (df_head row_num df) (df_tail row_num df) (List.length df)
  else AllRows df.

Record RowGroup : Type := {
  rg_num_rows : Z;
  rg_num_columns : Z;
  rg_total_byte_size : Z
}.

Record FileMetaData : Type := {
  created_by : string;
  format_version : string;
  serialized_size : Z;
  row_groups : list RowGroup
}.

Record ParquetFile : Type := {
  metadata : FileMetaData
}.

Definition num_row_groups (pf : ParquetFile) : nat :=
  List.length (row_groups (metadata pf)).

(** What opening and reading a path gives: the library and the file system
    behind it. *)
Record World : Type := {
  pq_ParquetFile : string -> Outcome ParquetFile;
  pq_read_table : string -> Outcome Table
}.

(** ** The script *)

Import PyStr.
Local Open Scope run_scope.

(** *** [format_value] *)

Definition format_value (val : PyVal) : string :=
  match val with
  | VNone => "null"
  | VStr s => dq ++ s ++ dq
  | VBool b => if b then "true" else "false"
  | VInt z => if (z >? 2147483647)%Z then of_Z z ++ "L" else of_Z z
  | VFloat _ shown => shown
  | VOther _ shown => dq ++ shown ++ dq
  end.

(** *** [python_to_java_type] *)

Definition type_map : list (string * string) :=
  [ ("int32", "Integer");
    ("int64", "Long");
    ("float", "Float");
    ("double", "Double");
    ("string", "String");
    ("binary", "String");
    ("bool", "Boolean") ].

(** The loop over [type_map.items()], which returns at the first hit. *)
Fixpoint first_hit (items : list (string * string)) (pyarrow_type : string) : string :=
  match items with
  | [] => "Object"
  | (key, value) :: rest =>
      if contains key (lower pyarrow_type) then value
      else first_hit rest pyarrow_type
  end.

Definition python_to_java_type (pyarrow_type : string) : string :=
  first_hit type_map pyarrow_type.

(** *** [generate_junit_template] *)

(** A loop over [enumerate(xs)] that builds up a value and may raise. *)
Fixpoint fold_enumerate {A T} (start : nat) (xs : list A)
  (step : T -> nat -> A -> Outcome T) (acc : T) : Outcome T :=
  match xs with
  | [] => Returned acc
  | x :: rest =>
      and_then (step acc start x)
               (fun acc' => fold_enumerate (S start) rest step acc')
  end.

(** A list comprehension whose element expression may raise. *)
Fixpoint collect {A B} (f : A -> Outcome B) (xs : list A) : Outcome (list B) :=
  match xs with
  | [] => Returned []
  | x :: rest =>
      and_then (f x) (fun y => and_then (collect f rest) (fun ys => Returned (y :: ys)))
  end.

(** [l[i]] for [0 <= i]. *)
Definition py_index {A} (l : list A) (i : nat) : Outcome A :=
  match nth_error l i with
  | Some x => Returned x
  | None => Raised (PyException "list index out of range")
  end.

Definition test_name_of (file_name : string) : string :=
  join EmptyString
       (map capitalize (split "_" (replace ".parquet" EmptyString file_name))).

Definition template_head (test_name file_name : string) (rows columns : nat) : string :=
  nl ++
  "@Test" ++ nl ++
  "void test" ++ test_name ++ "() throws IOException {" ++ nl ++
  "    String filePath = TEST_DATA_DIR + " ++ dq ++ file_name ++ dq ++ ";" ++ nl ++
  nl ++
  "    try (ParquetFileReader reader = new ParquetFileReader(filePath)) {" ++ nl ++
  "        RowColumnGroupIterator iterator = reader.rowIterator();" ++ nl ++
  nl ++
  "        // Expected row count" ++ nl ++
  "        assertEquals(" ++ of_nat rows ++ "L, reader.getTotalRowCount());" ++ nl ++
  nl ++
  "        // Expected columns" ++ nl ++
  "        assertEquals(" ++ of_nat columns ++ ", reader.getSchema().getNumColumns());" ++ nl.

Definition column_assertion (i : nat) (col_name : string) : string :=
  "        assertEquals(" ++ dq ++ col_name ++ dq ++ ", reader.getSchema().getColumn("
  ++ of_nat i ++ ").getPathString());" ++ nl.

Definition first_row_head : string :=
  nl ++
  "        // Verify first row values" ++ nl ++
  "        assertTrue(iterator.hasNext());" ++ nl ++
  "        RowColumnGroup firstRow = iterator.next();" ++ nl.

Definition value_assertion (i : nat) (val : PyVal) : string :=
  "        assertEquals(" ++ format_value val ++ ", firstRow.getColumnValue("
  ++ of_nat i ++ "));" ++ nl.

Definition template_foot : string :=
  "    }" ++ nl ++
  "}" ++ nl.

Definition generate_junit_template (file_path : string) (table : Table)
  : Outcome string :=
  let file_name := last_part (split "/" file_path) in
  let test_name := test_name_of file_name in
  let template :=
    template_head test_name file_name (tbl_num_rows table)
                  (List.length (column_names table)) in
  (* Add column assertions *)
  and_then
    (fold_enumerate 0 (column_names table)
       (fun template i col_name =>
          and_then (table_column table col_name) (fun col =>
          let java_type := python_to_java_type (col_type col) in
          Returned (template ++ column_assertion i col_name)%string))
       template)
    (fun template =>
  (* Add sample data verification *)
  and_then
    (collect (fun col_name =>
                and_then (table_column table col_name)
                         (fun col => Returned (col_values col)))
             (column_names table))
    (fun values =>
  and_then
    (if Nat.ltb 0 (tbl_num_rows table) then
       fold_enumerate 0 (column_names table)
         (fun template i col_name =>
            and_then (py_index values i) (fun column =>
            and_then (py_index column 0) (fun val =>
            Returned (template ++ value_assertion i val)%string)))
         (template ++ first_row_head)%string
     else Returned template)
    (fun template =>
  Returned (template ++ template_foot)%string))).

(** *** [inspect_parquet] *)

Definition banner : string := PyStr.repeat "=" 80.

Definition numeric_types : list string := ["int32"; "int64"; "float"; "double"].

(** [x in l] for a list of strings. *)
Definition in_strings (x : string) (l : list string) : bool :=
  existsb (String.eqb x) l.

(** [[v for v in values if v is not None]] *)
Definition non_null (values : list PyVal) : list PyVal :=
  filter (fun v => negb (is_none v)) values.

(** [len(set(str(v) for v in values if v is not None))] *)
Definition unique_count (values : list PyVal) : nat :=
  List.length (nodup string_dec (map py_str (non_null values))).

(** The type-specific statistics of one column. *)
Definition column_stats (c : Column) : Run unit :=
  if in_strings (col_type c) numeric_types then
    let non_null_values := non_null (col_values c) in
    match non_null_values with
    | [] => ret tt
    | _ :: _ =>
        lo <- lift (py_min non_null_values) ;;
        print (PValue "  Min: " lo) ;;
        hi <- lift (py_max non_null_values) ;;
        print (PValue "  Max: " hi) ;;
        if Nat.ltb 1 (List.length non_null_values) then
          total <- lift (py_sum non_null_values) ;;
          avg <- lift (py_div_len total (List.length non_null_values)) ;;
          print (PLine ("  Average: " ++ PyFloat.fmt_2f avg))
        else ret tt
    end
  else ret tt.

(** The body of the loop over the columns. *)
Definition column_details (i : nat) (col_name : string) (c : Column) : Run unit :=
  let values := col_values c in
  print (PLine (nl ++ "Column " ++ of_nat i ++ ": '" ++ col_name ++ "'")) ;;
  print (PLine ("  Type: " ++ col_type c)) ;;
  print (PLine ("  Length: " ++ of_nat (col_length c))) ;;
  print (PLine ("  Null count: " ++ of_nat (col_null_count c))) ;;
  (* Statistics *)
  if Nat.ltb 0 (List.length values) then
    print (PLine ("  Unique values: " ++ of_nat (unique_count values))) ;;
    (* Type-specific stats *)
    column_stats c ;;
    (* Show sample values *)
    print (PValues ("  First " ++ of_nat (Nat.min 5 (List.length values)) ++ " values: ")
                   (py_slice None (Some 5%Z) values)) ;;
    if Nat.ltb 10 (List.length values) then
      print (PValues "  Last 5 values: " (py_slice (Some (-5)%Z) None values))
    else ret tt
  else ret tt.

(** The row-group lines. *)
Definition row_group_details (i : nat) (rg : RowGroup) : Run unit :=
  print (PLine ("  Row Group " ++ of_nat i ++ ":")) ;;
  print (PLine ("    Rows: " ++ of_Z (rg_num_rows rg))) ;;
  print (PLine ("    Columns: " ++ of_Z (rg_num_columns rg))) ;;
  print (PLine ("    Total byte size: " ++ of_Z (rg_total_byte_size rg))).

(** The data preview. *)
Definition data_preview (df : DataFrame) (max_rows : Z) : Run unit :=
  if (Z.of_nat (List.length df) <=? max_rows)%Z then
    print (PFrame (frame_view df))
  else
    print (PLine ("Showing first " ++ of_Z (max_rows / 2) ++ " and last "
                  ++ of_Z (max_rows / 2) ++ " rows:" ++ nl)) ;;
    print (PFrame (frame_view (df_head (max_rows / 2) df))) ;;
    print (PLine "...") ;;
    print (PFrame (frame_view (df_tail (max_rows / 2) df))).

Definition inspect_parquet (w : World) (file_path : string) (max_rows : Z)
  : Run unit :=
  print (PLine banner) ;;
  print (PLine ("PARQUET FILE INSPECTION: " ++ file_path)) ;;
  print (PLine banner) ;;
  (* Open the file *)
  parquet_file <- lift (pq_ParquetFile w file_path) ;;
  table <- lift (pq_read_table w file_path) ;;
  (* Schema *)
  print (PLine (nl ++ "### SCHEMA ###")) ;;
  print (PSchema (table_schema table)) ;;
  (* Metadata *)
  print (PLine (nl ++ "### METADATA ###")) ;;
  print (PLine ("Number of row groups: " ++ of_nat (num_row_groups parquet_file))) ;;
  print (PLine ("Number of rows: " ++ of_nat (tbl_num_rows table))) ;;
  print (PLine ("Number of columns: " ++ of_nat (List.length (column_names table)))) ;;
  (* File metadata *)
  let metadata := metadata parquet_file in
  print (PLine (nl ++ "File metadata:")) ;;
  print (PLine ("  Created by: " ++ created_by metadata)) ;;
  print (PLine ("  Format version: " ++ format_version metadata)) ;;
  print (PLine ("  Serialized size: " ++ of_Z (serialized_size metadata) ++ " bytes")) ;;
  (* Row group details *)
  print (PLine (nl ++ "Row Groups:")) ;;
  for_enumerate 0 (row_groups metadata) row_group_details ;;
  (* Column details *)
  print (PLine (nl ++ "### COLUMN DETAILS ###")) ;;
  for_enumerate 0 (column_names table)
    (fun i col_name =>
       col <- lift (table_column table col_name) ;;
       column_details i col_name col) ;;
  (* Data preview *)
  print (PLine (nl ++ "### DATA PREVIEW ###")) ;;
  let df := to_pandas table in
  data_preview df max_rows ;;
  (* Generate JUnit test template *)
  print (PLine (nl ++ "### JUNIT TEST TEMPLATE ###")) ;;
  template <- lift (generate_junit_template file_path table) ;;
  print (PLine template) ;;
  print (PLine (nl ++ banner)).

(** *** The entry point *)

(** The module's docstring. *)
Definition doc : string :=
  nl ++
  "Quick Parquet file inspector using PyArrow" ++ nl ++
  nl ++
  "Usage:" ++ nl ++
  "    python3 pyarrow_inspect.py <parquet_file>" ++ nl ++
  nl ++
  "Example:" ++ nl ++
  "    python3 pyarrow_inspect.py src/test/data/lz4_raw_compressed.parquet" ++ nl.

(** [repr(s)] of an ASCII text: between single quotes, or between double
    quotes when the text holds a single quote and no double quote; the
    quote, the backslash and the characters that do not print are escaped. *)
Definition hex_digit (n : nat) : ascii :=
  nth n ["0"; "1"; "2"; "3"; "4"; "5"; "6"; "7"; "8"; "9";
         "a"; "b"; "c"; "d"; "e"; "f"]%char "0"%char.

Definition escape_char (quote c : ascii) : string :=
  let n := nat_of_ascii c in
  if orb (Ascii.eqb c quote) (Ascii.eqb c "\") then String "\" (String c EmptyString)
  else if Nat.eqb n 9 then "\t"
  else if Nat.eqb n 10 then "\n"
  else if Nat.eqb n 13 then "\r"
  else if orb (Nat.ltb n 32) (Nat.eqb n 127)
       then "\x" ++ String (hex_digit (n / 16)) (String (hex_digit (n mod 16)) EmptyString)
       else String c EmptyString.

Fixpoint escape (quote : ascii) (s : string) : string :=
  match s with
  | EmptyString => EmptyString
  | String c rest => escape_char quote c ++ escape quote rest
  end.

Definition py_repr (s : string) : string :=
  let quote := if andb (contains "'" s) (negb (contains dq s)) then "034"%char else "'"%char in
  String quote (escape quote s ++ String quote EmptyString).

(** [int(s)] on ASCII text, as the interpreter reads it: blanks, one
    optional sign, digits that single underscores may separate, blanks. *)
Definition is_space (c : ascii) : bool :=
  let n := nat_of_ascii c in
  orb (andb (Nat.leb 9 n) (Nat.leb n 13)) (Nat.eqb n 32).

Fixpoint lstrip (s : string) : string :=
  match s with
  | String c rest => if is_space c then lstrip rest else s
  | EmptyString => EmptyString
  end.

Definition digit_of (c : ascii) : option Z :=
  let n := nat_of_ascii c in
  if andb (Nat.leb 48 n) (Nat.leb n 57) then Some (Z.of_nat (n - 48)) else None.

(** The run of digits and underscores at the head of a text: its value, the
    number of its digits and what follows it.  Two underscores in a row, or
    an underscore at the end of the run, are an error. *)
Fixpoint scan_digits (value : Z) (digits : nat) (after_underscore : bool) (s : string)
  : option (Z * nat * string) :=
  match s with
  | EmptyString => if after_underscore then None else Some (value, digits, EmptyString)
  | String c rest =>
      if Ascii.eqb c "_" then
        if after_underscore then None else scan_digits value digits true rest
      else
        match digit_of c with
        | Some d => scan_digits (10 * value + d) (S digits) false rest
        | None => if after_underscore then None else Some (value, digits, s)
        end
  end.

(** The limit that the interpreter puts on the digits of a decimal text. *)
Definition max_str_digits : nat := 4300.

(** The two [ValueError]s of [int]; the first shows at most 200 characters
    of the text's [repr]. *)
Definition invalid_literal {A} (s : string) : Outcome A :=
  Raised (PyException ("invalid literal for int() with base 10: "
                       ++ substring 0 200 (py_repr s))).

Definition too_many_digits {A} (digits : nat) : Outcome A :=
  Raised (PyException ("Exceeds the limit (" ++ of_nat max_str_digits
                       ++ " digits) for integer string conversion: value has "
                       ++ of_nat digits
                       ++ " digits; use sys.set_int_max_str_digits() to increase the limit")).

(** The sign at the head of a text, and the text after it. *)
Definition split_sign (s : string) : bool * string :=
  match s with
  | String "-" body => (true, body)
  | String "+" body => (false, body)
  | body => (false, body)
  end.

Definition py_int (s : string) : Outcome Z :=
  let signed := split_sign (lstrip s) in
  let negative := fst signed in
  let body := snd signed in
  if starts_with "_" body then invalid_literal s
  else
    match scan_digits 0 0 false body with
    | None => invalid_literal s
    | Some (value, digits, rest) =>
        if Nat.ltb max_str_digits digits then too_many_digits digits
        else if Nat.eqb digits 0 then invalid_literal s
        else
          match lstrip rest with
          | EmptyString => Returned (if negative then (- value)%Z else value)
          | String _ _ => invalid_literal s
          end
    end.

(** [sys.argv[i]]; the calls below are guarded by the length tests. *)
Definition argv_at (argv : list string) (i : nat) : string := nth i argv EmptyString.

(** The [__main__] block: what is printed, and the exit status.  An exception
    nobody catches ends the process with a trace and status 1. *)
Definition main (w : World) (argv : list string) : list Printed * Z :=
  if Nat.ltb (List.length argv) 2 then
    ([PLine doc], 1%Z)
  else
    let file_path := argv_at argv 1 in
    match (if Nat.ltb 2 (List.length argv) then py_int (argv_at argv 2)
           else Returned 20%Z) with
    | Raised e => ([PTraceback e], 1%Z)
    | Returned max_rows =>
        match inspect_parquet w file_path max_rows with
        | (out, Returned _) => (out, 0%Z)
        | (out, Raised (FileNotFoundError _)) =>
            (out ++ [PLine ("Error: File not found: " ++ file_path)], 1%Z)
        | (out, Raised (PyException msg)) =>
            (out ++ [PLine ("Error inspecting file: " ++ msg);
                     PTraceback (PyException msg)], 1%Z)
        end
    end.

(** ** Sample data *)

Module Samples.

Definition int_column (ty : string) (zs : list Z) : Column :=
  {| col_type := ty; col_values := map VInt zs |}.

(** The table of the specification's example: three rows, [id: int64] and
    [name: string], the first row being [(1, "Alice")]. *)
Definition sample_table : Table :=
  {| tbl_columns :=
       [ ("id", int_column "int64" [1; 2; 3]%Z);
         ("name", {| col_type := "string";
                     col_values := [VStr "Alice"; VStr "Bob"; VNone] |}) ];
     tbl_num_rows := 3 |}.

(** The same names, row count and first-row texts under other types. *)
Definition retyped_table : Table :=
  {| tbl_columns :=
       [ ("id", int_column "int32" [1; 7; 9]%Z);
         ("name", {| col_type := "large_string";
                     col_values := [VStr "Alice"; VNone; VStr "Eve"] |}) ];
     tbl_num_rows := 3 |}.

Definition sample_file : ParquetFile :=
  {| metadata :=
       {| created_by := "parquet-cpp-arrow version 14.0.1";
          format_version := "2.6";
          serialized_size := 512;
          row_groups := [ {| rg_num_rows := 3; rg_num_columns := 2;
                             rg_total_byte_size := 140 |} ] |} |}.

(** A world with one good file, one damaged file and nothing else. *)
Definition sample_world : World :=
  {| pq_ParquetFile := fun path =>
       if String.eqb path "sample_data.parquet" then Returned sample_file
       else if String.eqb path "damaged.parquet"
            then Raised (PyException "Parquet magic bytes not found in footer.")
            else Raised (FileNotFoundError path);
     pq_read_table := fun path =>
       if String.eqb path "sample_data.parquet" then Returned sample_table
       else Raised (FileNotFoundError path) |}.

(** Twelve values, so that the column has a tail to show. *)
Definition long_column : Column :=
  int_column "int64" [10; 11; 12; 13; 14; 15; 16; 17; 18; 19; 20; 21]%Z.

Definition empty_column : Column := {| col_type := "int64"; col_values := [] |}.

(** Two values of 2^53 + 1, which no binary64 represents. *)
Definition wide_column : Column :=
  int_column "int64" [9007199254740993; 9007199254740993]%Z.

End Samples.

(** * The vocabulary of the properties *)

(** ** The report *)

(** What [inspect_parquet] prints before it opens the file. *)
Definition report_opening (file_path : string) : list Printed :=
  [PLine banner; PLine ("PARQUET FILE INSPECTION: " ++ file_path); PLine banner].

(** The sections of a complete report on file [pf] with table [t]: the
    opening, schema, metadata and row groups, then the column details [cols],
    the preview [preview] and the test template [template], closed by a
    banner. *)
Definition report_of (file_path : string) (pf : ParquetFile) (t : Table)
  (groups cols preview : list Printed) (template : string) : list Printed :=
  report_opening file_path
  ++ [PLine (nl ++ "### SCHEMA ###");
      PSchema (table_schema t);
      PLine (nl ++ "### METADATA ###");
      PLine ("Number of row groups: " ++ of_nat (num_row_groups pf));
      PLine ("Number of rows: " ++ of_nat (tbl_num_rows t));
      PLine ("Number of columns: " ++ of_nat (List.length (column_names t)));
      PLine (nl ++ "File metadata:");
      PLine ("  Created by: " ++ created_by (metadata pf));
      PLine ("  Format version: " ++ format_version (metadata pf));
      PLine ("  Serialized size: " ++ of_Z (serialized_size (metadata pf)) ++ " bytes");
      PLine (nl ++ "Row Groups:")]
  ++ groups
  ++ [PLine (nl ++ "### COLUMN DETAILS ###")]
  ++ cols
  ++ [PLine (nl ++ "### DATA PREVIEW ###")]
  ++ preview
  ++ [PLine (nl ++ "### JUNIT TEST TEMPLATE ###");
      PLine template;
      PLine (nl ++ banner)].

(** The four lines of every row group, the groups being numbered from
    [start]. *)
Fixpoint row_group_lines (start : nat) (groups : list RowGroup) : list Printed :=
  match groups with
  | [] => []
  | rg :: rest =>
      [PLine ("  Row Group " ++ of_nat start ++ ":");
       PLine ("    Rows: " ++ of_Z (rg_num_rows rg));
       PLine ("    Columns: " ++ of_Z (rg_num_columns rg));
       PLine ("    Total byte size: " ++ of_Z (rg_total_byte_size rg))]
      ++ row_group_lines (S start) rest
  end.

(** What is shown of a frame: all its rows if it has at most 60, and else
    its first five and its last five. *)
Definition shown_rows (df : DataFrame) : FrameView :=
  if Nat.ltb 60 (List.length df)
  then CutRows (firstn 5 df) (skipn (List.length df - 5) df) (List.length df)
  else AllRows df.

(** The rows [head(n)] and [tail(n)] select: the first [n] and the last [n]
    for a count [n], and for a negative [n] all the rows but the last [-n]
    and all but the first [-n]. *)
Definition leading_rows (n : Z) (df : DataFrame) : DataFrame :=
  if (0 <=? n)%Z then firstn (Z.to_nat n) df
  else firstn (List.length df - Z.to_nat (- n)) df.

Definition trailing_rows (n : Z) (df : DataFrame) : DataFrame :=
  if (0 <=? n)%Z then skipn (List.length df - Z.to_nat n) df
  else skipn (Z.to_nat (- n)) df.

(** The preview of a frame under the bound [max_rows]: the frame if it has
    no more rows than the bound, and else a header, the leading rows, the
    ellipsis and the trailing rows, half the bound of each. *)
Definition preview_lines (df : DataFrame) (max_rows : Z) : list Printed :=
  if (Z.of_nat (List.length df) <=? max_rows)%Z then [PFrame (shown_rows df)]
  else
    [PLine ("Showing first " ++ of_Z (max_rows / 2) ++ " and last "
            ++ of_Z (max_rows / 2) ++ " rows:" ++ nl);
     PFrame (shown_rows (leading_rows (max_rows / 2) df));
     PLine "...";
     PFrame (shown_rows (trailing_rows (max_rows / 2) df))].

(** The loop over the columns of [inspect_parquet]. *)
Definition columns_loop (t : Table) : Run unit :=
  for_enumerate 0 (column_names t)
    (fun i col_name =>
       bind (lift (table_column t col_name))
            (fun col => column_details i col_name col)).


(** An outcome that is no [FileNotFoundError]: a value, or an exception of
    another class. *)
Definition plain_failure {A} (o : Outcome A) : Prop :=
  match o with
  | Raised (FileNotFoundError _) => False
  | _ => True
  end.



(** The four lines that open the details of a column. *)
Definition details_head (i : nat) (col_name : string) (c : Column) : list Printed :=
  [PLine (nl ++ "Column " ++ of_nat i ++ ": '" ++ col_name ++ "'");
   PLine ("  Type: " ++ col_type c);
   PLine ("  Length: " ++ of_nat (col_length c));
   PLine ("  Null count: " ++ of_nat (col_null_count c))].

(** The line of the first values and the line of the last five. *)
Definition first_line (values : list PyVal) : Printed :=
  PValues ("  First " ++ of_nat (Nat.min 5 (List.length values)) ++ " values: ")
          (firstn 5 values).

Definition last_line (values : list PyVal) : Printed :=
  PValues "  Last 5 values: " (skipn (List.length values - 5) values).

(** A printed list of sample values. *)
Definition is_sample (p : Printed) : bool :=
  match p with PValues _ _ => true | _ => false end.

(** The label and the values of a sample line. *)
Definition sample_label (p : Printed) : string :=
  match p with PValues label _ => label | _ => EmptyString end.

Definition sample_values (p : Printed) : list PyVal :=
  match p with PValues _ vs => vs | _ => [] end.

(** ** Substrings and the type lookup *)

(** [k] occurs in [s]: some text before it, some after. *)
Definition Occurs (k s : string) : Prop :=
  exists pre post, s = (pre ++ k ++ post)%string.

(** The rule of the lookup, word for word, over the text [hay] the keys are
    sought in: the target of the first entry of [type_map] whose key occurs
    in [hay], and [Object] when no key does. *)
Definition first_match_in (hay result : string) : Prop :=
  (exists before key after,
      type_map = before ++ (key, result) :: after /\
      Occurs key hay /\
      forall e, In e before -> ~ Occurs (fst e) hay)
  \/ ((forall e, In e type_map -> ~ Occurs (fst e) hay) /\ result = "Object").

(** ** The test template *)

(** The literal of the first value of a column, if it has one. *)
Definition first_literal (c : Column) : option string :=
  option_map format_value (nth_error (col_values c) 0).

(** The literals of the first row, column by column. *)
Definition first_row_literals (t : Table) : list (option string) :=
  map (fun f => first_literal (snd f)) (tbl_columns t).

(** Two lookups that agree as far as the template can tell. *)
Definition same_lookup (o1 o2 : Outcome Column) : Prop :=
  match o1, o2 with
  | Returned c1, Returned c2 => first_literal c1 = first_literal c2
  | Raised e1, Raised e2 => e1 = e2
  | _, _ => False
  end.

(** The value lists of two such tables: both comprehensions raise alike, or
    return lists whose heads have the same literals. *)
Definition same_values (o1 o2 : Outcome (list (list PyVal))) : Prop :=
  match o1, o2 with
  | Returned v1, Returned v2 =>
      map (fun l => option_map format_value (nth_error l 0)) v1
      = map (fun l => option_map format_value (nth_error l 0)) v2
  | Raised e1, Raised e2 => e1 = e2
  | _, _ => False
  end.

(** The text the script generates for the sample file. *)
Definition sample_template : string :=
  nl ++
  "@Test" ++ nl ++
  "void testSampleData() throws IOException {" ++ nl ++
  "    String filePath = TEST_DATA_DIR + " ++ dq ++ "sample_data.parquet" ++ dq ++ ";" ++ nl ++
  nl ++
  "    try (ParquetFileReader reader = new ParquetFileReader(filePath)) {" ++ nl ++
  "        RowColumnGroupIterator iterator = reader.rowIterator();" ++ nl ++
  nl ++
  "        // Expected row count" ++ nl ++
  "        assertEquals(3L, reader.getTotalRowCount());" ++ nl ++
  nl ++
  "        // Expected columns" ++ nl ++
  "        assertEquals(2, reader.getSchema().getNumColumns());" ++ nl ++
  "        assertEquals(" ++ dq ++ "id" ++ dq ++ ", reader.getSchema().getColumn(0).getPathString());" ++ nl ++
  "        assertEquals(" ++ dq ++ "name" ++ dq ++ ", reader.getSchema().getColumn(1).getPathString());" ++ nl ++
  nl ++
  "        // Verify first row values" ++ nl ++
  "        assertTrue(iterator.hasNext());" ++ nl ++
  "        RowColumnGroup firstRow = iterator.next();" ++ nl ++
  "        assertEquals(1, firstRow.getColumnValue(0));" ++ nl ++
  "        assertEquals(" ++ dq ++ "Alice" ++ dq ++ ", firstRow.getColumnValue(1));" ++ nl ++
  "    }" ++ nl ++
  "}" ++ nl.

(** ** Numeric columns *)

(** What the library hands over in a column of a numeric type: in an int32
    or int64 column [None]s and [int]s of at most 64 bits, in a float or
    double column [None]s and [float]s; and fewer than 2^63 values. *)
Definition int_or_none (v : PyVal) : bool :=
  match v with
  | VNone => true
  | VInt z => andb (- 2 ^ 63 <=? z)%Z (z <? 2 ^ 63)%Z
  | _ => false
  end.

Definition float_or_none (v : PyVal) : bool :=
  match v with
  | VNone | VFloat _ _ => true
  | _ => false
  end.

Definition arrow_column (c : Column) : bool :=
  andb (Z.of_nat (List.length (col_values c)) <? 2 ^ 63)%Z
       (if in_strings (col_type c) ["int32"; "int64"]
        then forallb int_or_none (col_values c)
        else if in_strings (col_type c) ["float"; "double"]
             then forallb float_or_none (col_values c)
             else true).

(** No value of the column is a NaN. *)
Definition not_nan (v : PyVal) : bool :=
  match v with
  | VFloat f _ => negb (PyFloat.is_nan f)
  | _ => true
  end.

Definition nan_free (c : Column) : bool := forallb not_nan (col_values c).

(** The order of numbers: of two [int]s, and of two [float]s. *)
Definition py_le (a b : PyVal) : Prop :=
  match a, b with
  | VInt x, VInt y => (x <= y)%Z
  | VFloat f _, VFloat g _ => PyFloat.leb f g = true
  | _, _ => False
  end.

(** The minimum and the maximum of a list: a member that no member is
    below, or above. *)
Definition is_minimum (lo : PyVal) (l : list PyVal) : Prop :=
  In lo l /\ forall v, In v l -> py_le lo v.

Definition is_maximum (hi : PyVal) (l : list PyVal) : Prop :=
  In hi l /\ forall v, In v l -> py_le v hi.

(** The exact sum of a list of [int]s. *)
Definition exact_sum (zs : list Z) : Z := fold_right Z.add 0%Z zs.

(** The values [min] and [max] can compare: the [int]s, and the [float]s
    that are no NaN. *)
Definition ordered_int (v : PyVal) : Prop := exists z, v = VInt z.
Definition ordered_float (v : PyVal) : Prop :=
  exists f shown, v = VFloat f shown /\ PyFloat.is_nan f = false.

(** Any [float], a NaN too. *)
Definition any_float (v : PyVal) : Prop := exists f shown, v = VFloat f shown.

(** The value behind the Average line: the quotient, in double precision,
    of the sum by the count.  The sum of [int]s is exact and the quotient
    the binary64 nearest to the exact mean; [float]s are added and divided
    as floats. *)
Definition average_of (nn : list PyVal) (avg : spec_float) : Prop :=
  (exists zs,
      nn = map VInt zs
      /\ PyFloat.int_true_div (exact_sum zs) (Z.of_nat (List.length zs)) = Some avg)
  \/ (exists ps d,
      nn = map (fun p => VFloat (fst p) (snd p)) ps
      /\ PyFloat.of_int (Z.of_nat (List.length ps)) = Some d
      /\ avg = PyFloat.div (fold_left PyFloat.add (map fst ps) (S754_zero false)) d).

(** The mean of [zs] to two decimals: a number of hundredths within half a
    hundredth of the exact mean, whichever way a tie goes, written out. *)
Definition mean_to_two_decimals (zs : list Z) (text : string) : Prop :=
  exists h : Z,
    (2 * Z.abs (100 * exact_sum zs - h * Z.of_nat (List.length zs))
     <= Z.of_nat (List.length zs))%Z
    /\ text = PyFloat.fixed2 (h <? 0)%Z (Z.abs h).

(** ** Well-formed tables *)

(** A table as the library hands it over: the names of its columns differ,
    and each column is well typed and has [len(table)] values. *)
Definition arrow_table (t : Table) : Prop :=
  NoDup (column_names t)
  /\ forall f, In f (tbl_columns t) ->
       arrow_column (snd f) = true
       /\ List.length (col_values (snd f)) = tbl_num_rows t.

(** The details of the columns [cols], numbered from [start]. *)
Fixpoint details_from (start : nat) (cols : list (string * Column)) : list Printed :=
  match cols with
  | [] => []
  | f :: rest =>
      fst (column_details start (fst f) (snd f)) ++ details_from (S start) rest
  end.

(** The assertions on the first row for the columns [cols], numbered from
    [start]. *)
Fixpoint value_assertions_from (start : nat) (cols : list (string * Column)) : string :=
  match cols with
  | [] => EmptyString
  | f :: rest =>
      (value_assertion start (nth 0 (col_values (snd f)) VNone)
       ++ value_assertions_from (S start) rest)%string
  end.

Fixpoint column_assertions_from (start : nat) (names : list string) : string :=
  match names with
  | [] => EmptyString
  | name :: rest =>
      (column_assertion start name ++ column_assertions_from (S start) rest)%string
  end.

(** ** The whole report, spelled out *)

(** The statistics of a column: the results of [min] and [max] and, for
    more than one value, of the mean, when they are computed; nothing for
    a column of another type or without a value that is no null. *)
Definition stats_lines (c : Column) : list Printed :=
  if in_strings (col_type c) numeric_types then
    match non_null (col_values c) with
    | [] => []
    | first :: others =>
        match py_min (first :: others), py_max (first :: others) with
        | Returned lo, Returned hi =>
            [PValue "  Min: " lo; PValue "  Max: " hi]
            ++ (if Nat.ltb 1 (List.length (first :: others)) then
                  match and_then (py_sum (first :: others))
                          (fun total =>
                             py_div_len total (List.length (first :: others))) with
                  | Returned avg => [PLine ("  Average: " ++ PyFloat.fmt_2f avg)]
                  | Raised _ => []
                  end
                else [])
        | _, _ => []
        end
    end
  else [].

(** The details of one column, and of the columns [cols] numbered from
    [start]. *)
Definition column_lines (i : nat) (col_name : string) (c : Column) : list Printed :=
  details_head i col_name c
  ++ (if Nat.ltb 0 (List.length (col_values c))
      then [PLine ("  Unique values: " ++ of_nat (unique_count (col_values c)))]
           ++ stats_lines c
           ++ [first_line (col_values c)]
           ++ (if Nat.ltb 10 (List.length (col_values c))
               then [last_line (col_values c)] else [])
      else []).

Fixpoint column_lines_from (start : nat) (cols : list (string * Column)) : list Printed :=
  match cols with
  | [] => []
  | f :: rest => column_lines start (fst f) (snd f) ++ column_lines_from (S start) rest
  end.

(** The text of the template for the table [t] read from [file_path]. *)
Definition template_text (file_path : string) (t : Table) : string :=
  (template_head (test_name_of (last_part (split "/" file_path)))
                 (last_part (split "/" file_path))
                 (tbl_num_rows t) (List.length (column_names t))
   ++ column_assertions_from 0 (column_names t)
   ++ (if Nat.ltb 0 (tbl_num_rows t)
       then first_row_head ++ value_assertions_from 0 (tbl_columns t)
       else EmptyString)
   ++ template_foot)%string.

(** ** Characters and counts *)

(** The [int]s among the values of a column. *)
Definition int_values (values : list PyVal) : list Z :=
  flat_map (fun v => match v with VInt z => [z] | _ => [] end) values.

(** Every character of [s] passes the test [p]. *)
Fixpoint all_chars (p : ascii -> bool) (s : string) : bool :=
  match s with
  | EmptyString => true
  | String c rest => andb (p c) (all_chars p rest)
  end.

Definition is_digit (c : ascii) : bool :=
  match digit_of c with Some _ => true | None => false end.

Definition not_underscore (c : ascii) : bool := negb (Ascii.eqb c "_").

(** A text of ASCII characters. *)
Definition ascii_text (s : string) : bool :=
  all_chars (fun c => Nat.ltb (nat_of_ascii c) 128) s.

(** The number of digits in a text. *)
Fixpoint digit_count (s : string) : nat :=
  match s with
  | EmptyString => 0
  | String c rest => if is_digit c then S (digit_count rest) else digit_count rest
  end.

(** The characters an integer literal is made of: digits, signs,
    underscores and blanks. *)
Definition numeral_char (c : ascii) : bool :=
  orb (is_digit c)
      (orb (is_space c)
           (orb (Ascii.eqb c "_") (orb (Ascii.eqb c "+") (Ascii.eqb c "-")))).

(** ** Edge cases *)

Module Cases.

(** A table in which the name [id] is borne by two columns. *)
Definition twice_id : Table :=
  {| tbl_columns := [ ("id", Samples.int_column "int64" [1; 2]%Z);
                      ("id", Samples.int_column "int64" [3; 4]%Z) ];
     tbl_num_rows := 2 |}.

(** A table of 61 rows, numbered from 0 in its only column. *)
Definition long_table : Table :=
  {| tbl_columns :=
       [("id", {| col_type := "int64";
                  col_values := map (fun i => VInt (Z.of_nat i)) (seq 0 61) |})];
     tbl_num_rows := 61 |}.


(** A table without rows. *)
Definition no_rows : Table :=
  {| tbl_columns := [("id", Samples.empty_column); ("name", Samples.empty_column)];
     tbl_num_rows := 0 |}.

(** A column of doubles whose first value, after a null, is a NaN; the
    others are 1.0 and -2.0. *)
Definition nan_column : Column :=
  {| col_type := "double";
     col_values := [VNone; VFloat S754_nan "nan";
                    VFloat (S754_finite false 4503599627370496 (-52)) "1.0";
                    VFloat (S754_finite true 4503599627370496 (-51)) "-2.0"] |}.

(** A numeric column of nulls, and a column of strings. *)
Definition null_column : Column :=
  {| col_type := "int64"; col_values := [VNone; VNone; VNone] |}.

Definition text_column : Column :=
  {| col_type := "string"; col_values := [VStr "Alice"; VNone; VStr "Alice"] |}.

End Cases.

(** * Properties *)

(** ** The monad of printing computations *)

(** The monad laws. *)
Lemma bind_ret_l {A B} (a : A) (k : A -> Run B) : bind (ret a) k = k a.
Proof. unfold bind, ret. destruct (k a); reflexivity. Qed.

Lemma bind_ret_r {A} (m : Run A) : bind m ret = m.
Proof.
  destruct m as [out [a | e]]; simpl; [rewrite app_nil_r | ]; reflexivity.
Qed.

Lemma bind_assoc {A B C} (m : Run A) (k : A -> Run B) (h : B -> Run C) :
  bind (bind m k) h = bind m (fun a => bind (k a) h).
Proof.
  destruct m as [out [a | e]]; simpl; [ | reflexivity].
  destruct (k a) as [out' [b | e]]; simpl; [ | reflexivity].
  destruct (h b) as [out'' r]. rewrite app_assoc. reflexivity.
Qed.

(** ** The entry point *)

(** C9: invoked without the file-path argument, the program prints the
    usage documentation and exits with status 1. *)
Theorem main_without_file_argument (w : World) (argv : list string) :
  (List.length argv < 2)%nat ->
  main w argv = ([PLine doc], 1%Z).
Proof.
  intros H. unfold main.
  destruct (Nat.ltb_spec (List.length argv) 2) as [_ | Hge]; [reflexivity | lia].
Qed.

(** The program called with no argument at all. *)
Lemma main_without_file_argument_witness :
  main Samples.sample_world ["pyarrow_inspect.py"] = ([PLine doc], 1%Z).
Proof.
  apply (main_without_file_argument Samples.sample_world ["pyarrow_inspect.py"]).
  simpl. lia.
Defined.


Ltac run_step := cbn [bind print lift ret fst snd].

(** The loop over the row groups prints their lines, four for each. *)
Lemma row_group_details_lines (groups : list RowGroup) (start : nat) :
  for_enumerate start groups row_group_details
  = (row_group_lines start groups, Returned tt).
Proof.
  revert start. induction groups as [ | rg rest IH]; intros start; [reflexivity | ].
  cbn [for_enumerate row_group_lines]. rewrite IH. reflexivity.
Qed.

(** [head] and [tail] select the leading and the trailing rows. *)
Lemma df_head_leading (n : Z) (df : DataFrame) : df_head n df = leading_rows n df.
Proof.
  unfold df_head, leading_rows, py_slice, clamp_index. cbv zeta.
  rewrite Z.sub_0_r. cbn [Z.to_nat skipn].
  destruct (Z.leb_spec 0 n) as [Hn | Hn]; destruct (Z.ltb_spec n 0) as [H | H]; try lia.
  - destruct (Z.le_ge_cases n (Z.of_nat (List.length df))) as [Hle | Hge].
    + rewrite Z.min_l by lia. reflexivity.
    + rewrite Z.min_r by lia. rewrite Nat2Z.id, firstn_all.
      symmetry. apply firstn_all2. lia.
  - f_equal. lia.
Qed.

Lemma df_tail_trailing (n : Z) (df : DataFrame) : df_tail n df = trailing_rows n df.
Proof.
  unfold df_tail, trailing_rows.
  destruct (Z.eqb_spec n 0) as [-> | Hn].
  - unfold py_slice, clamp_index. cbv zeta. cbn [Z.ltb Z.compare Z.leb].
    rewrite Z.sub_diag. change (Z.to_nat 0) with 0%nat.
    rewrite Nat.sub_0_r, skipn_all. reflexivity.
  - unfold py_slice, clamp_index. cbv zeta.
    destruct (Z.leb_spec 0 n) as [Hpos | Hneg];
      destruct (Z.ltb_spec (- n) 0) as [H | H]; try lia.
    + assert (E : Z.to_nat (Z.max (- n + Z.of_nat (List.length df)) 0)
                  = (List.length df - Z.to_nat n)%nat) by lia.
      rewrite E. apply firstn_all2. rewrite length_skipn. lia.
    + destruct (Z.le_ge_cases (- n) (Z.of_nat (List.length df))) as [Hle | Hge].
      * rewrite Z.min_l by lia. apply firstn_all2. rewrite length_skipn. lia.
      * rewrite Z.min_r by lia. rewrite Nat2Z.id, skipn_all.
        rewrite skipn_all2 by lia. destruct (Z.to_nat _); reflexivity.
Qed.

(** What is shown of a frame: all its rows up to 60, the first five and the
    last five of a longer one. *)
Lemma frame_view_rows (df : DataFrame) : frame_view df = shown_rows df.
Proof.
  unfold frame_view, shown_rows, display_max_rows, display_min_rows. cbv zeta.
  destruct (Nat.ltb_spec 60 (List.length df)) as [Hlong | Hshort]; [ | reflexivity].
  change (Z.of_nat (Nat.min 10 60 / 2)) with 5%Z.
  rewrite df_head_leading, df_tail_trailing. reflexivity.
Qed.

(** The preview prints what the bound asks for, and raises nothing. *)
Lemma data_preview_lines (df : DataFrame) (max_rows : Z) :
  data_preview df max_rows = (preview_lines df max_rows, Returned tt).
Proof.
  unfold data_preview, preview_lines.
  rewrite !frame_view_rows, df_head_leading, df_tail_trailing.
  destruct (Z.leb _ max_rows); reflexivity.
Qed.





(** ** Substrings *)

(** [starts_with] and [contains] decide what their names say. *)
Lemma starts_with_iff (p s : string) :
  starts_with p s = true <-> exists post, s = (p ++ post)%string.
Proof.
  revert s. induction p as [ | a p IH]; intros s; simpl.
  - split; [intros _; exists s; reflexivity | reflexivity].
  - destruct s as [ | b s].
    + split; [discriminate | intros [post H]; discriminate H].
    + rewrite andb_true_iff, Ascii.eqb_eq, IH. split.
      * intros [-> [post ->]]. exists post. reflexivity.
      * intros [post H]. injection H as -> ->. split; [reflexivity | eauto].
Qed.

Lemma contains_iff (k s : string) : contains k s = true <-> Occurs k s.
Proof.
  unfold Occurs. induction s as [ | c s IH].
  - simpl. rewrite orb_false_r, starts_with_iff. split.
    + intros [post H]. exists EmptyString, post. exact H.
    + intros [[ | a pre] [post H]]; [eauto | discriminate H].
  - cbn [contains]. rewrite orb_true_iff, starts_with_iff, IH. split.
    + intros [[post H] | [pre [post H]]].
      * exists EmptyString, post. exact H.
      * exists (String c pre), post. simpl. rewrite H. reflexivity.
    + intros [[ | a pre] [post H]].
      * left. exists post. exact H.
      * right. simpl in H. injection H as _ H. eauto.
Qed.

Lemma contains_false_iff (k s : string) : contains k s = false <-> ~ Occurs k s.
Proof.
  rewrite <- contains_iff. destruct (contains k s); split; intros H;
    congruence || (exfalso; apply H; reflexivity) || reflexivity.
Qed.

(** ** [python_to_java_type] *)

(** The loop follows the rule, on the lower-cased type name, for any table
    of entries. *)
Lemma first_hit_rule (items : list (string * string)) (s : string) :
  (exists before key after,
      items = before ++ (key, first_hit items s) :: after /\
      Occurs key (lower s) /\
      forall e, In e before -> ~ Occurs (fst e) (lower s))
  \/ ((forall e, In e items -> ~ Occurs (fst e) (lower s))
      /\ first_hit items s = "Object").
Proof.
  induction items as [ | [key value] rest IH]; simpl.
  - right. split; [intros e [] | reflexivity].
  - destruct (contains key (lower s)) eqn:Hhit.
    + left. exists [], key, rest. split; [reflexivity | ].
      split; [apply contains_iff; exact Hhit | intros e []].
    + apply contains_false_iff in Hhit.
      destruct IH as [(before & k & after & Heq & Hocc & Hnone) | [Hnone Hobj]].
      * left. exists ((key, value) :: before), k, after. split.
        { simpl. rewrite <- Heq. reflexivity. }
        split; [exact Hocc | ].
        intros e [<- | Hin]; [exact Hhit | exact (Hnone e Hin)].
      * right. split; [ | exact Hobj].
        intros e [<- | Hin]; [exact Hhit | exact (Hnone e Hin)].
Qed.

(** C8, as the code has it: the keys are sought in the lower-cased type
    name.  [python_to_java_type] returns the target of the first entry, in
    the order int32, int64, float, double, string, binary, bool, whose key
    occurs in the lower-cased type name, and [Object] when none does. *)
Theorem python_to_java_type_first_match (pyarrow_type : string) :
  first_match_in (lower pyarrow_type) (python_to_java_type pyarrow_type).
Proof.
  exact (first_hit_rule type_map pyarrow_type).
Qed.

(** The rule fixes the result: at most one target fits a given text. *)
Lemma first_match_in_unique (hay r1 r2 : string) :
  first_match_in hay r1 -> first_match_in hay r2 -> r1 = r2.
Proof.
  unfold first_match_in. generalize type_map as items.
  intros items H1 H2.
  destruct H1 as [(b1 & k1 & a1 & E1 & O1 & N1) | [N1 ->]];
  destruct H2 as [(b2 & k2 & a2 & E2 & O2 & N2) | [N2 ->]].
  - revert b2 items E1 E2 N1 N2.
    induction b1 as [ | x b1 IH]; intros [ | y b2] items E1 E2 N1 N2; subst items.
    + injection E2 as _ E _. congruence.
    + injection E2 as E _. exfalso. apply (N2 y); [left; reflexivity | ].
      rewrite <- E. exact O1.
    + injection E2 as E _. exfalso. apply (N1 x); [left; reflexivity | ].
      rewrite E. exact O2.
    + injection E2 as <- E2.
      apply (IH b2 (b1 ++ (k1, r1) :: a1) eq_refl E2).
      * intros e He. apply N1. right. exact He.
      * intros e He. apply N2. right. exact He.
  - exfalso. apply (N2 (k1, r1)); [ | exact O1].
    rewrite E1. apply in_or_app. right. left. reflexivity.
  - exfalso. apply (N1 (k2, r2)); [ | exact O2].
    rewrite E2. apply in_or_app. right. left. reflexivity.
  - reflexivity.
Qed.

(** C8, as stated, fails: no key occurs in the type name
    [struct<Double: int8>] itself, so the stated rule gives [Object], yet the
    function answers [Double], the key [double] occurring once the name is
    lower-cased. *)
Lemma python_to_java_type_not_on_raw_name :
  python_to_java_type "struct<Double: int8>" = "Double"
  /\ first_match_in "struct<Double: int8>" "Object"
  /\ ~ first_match_in "struct<Double: int8>"
                      (python_to_java_type "struct<Double: int8>").
Proof.
  assert (Hobj : first_match_in "struct<Double: int8>" "Object").
  { right. split; [ | reflexivity].
    intros e He. apply contains_false_iff.
    repeat (destruct He as [<- | He]; [reflexivity | ]). destruct He. }
  split; [reflexivity | ]. split; [exact Hobj | ].
  intros H. pose proof (first_match_in_unique _ _ _ H Hobj) as E.
  discriminate E.
Qed.

(** ** [format_value] *)

(** What [format_value] makes of each kind of value. *)
Lemma format_value_literals :
  format_value VNone = "null"
  /\ (forall s, format_value (VStr s) = (dq ++ s ++ dq)%string)
  /\ format_value (VBool true) = "true"
  /\ format_value (VBool false) = "false"
  /\ (forall z, (2147483647 < z)%Z -> format_value (VInt z) = (of_Z z ++ "L")%string)
  /\ (forall z, (z <= 2147483647)%Z -> format_value (VInt z) = of_Z z)
  /\ (forall f shown, format_value (VFloat f shown) = shown)
  /\ (forall cls shown, format_value (VOther cls shown) = (dq ++ shown ++ dq)%string).
Proof.
  repeat split; try reflexivity; intros z Hz; unfold format_value.
  - destruct (Z.gtb_spec z 2147483647) as [_ | H]; [reflexivity | lia].
  - destruct (Z.gtb_spec z 2147483647) as [H | _]; [lia | reflexivity].
Qed.

(** C7 at an [int] below the 32-bit range: -2147483649 does not fit 32 bits,
    and [format_value] writes it without the [L] suffix. *)
Theorem format_value_below_int32 :
  (-2147483649 < - 2 ^ 31)%Z
  /\ format_value (VInt (-2147483649)) = "-2147483649".
Proof.
  split; [reflexivity | reflexivity].
Qed.

(** ** [generate_junit_template] *)

(** Tables with the same names and first-row literals give lookups that
    agree. *)
Lemma filter_by_name_alike (name : string) (cols1 cols2 : list (string * Column)) :
  map fst cols1 = map fst cols2 ->
  map (fun f => first_literal (snd f)) cols1
    = map (fun f => first_literal (snd f)) cols2 ->
  let keep := fun f : string * Column => String.eqb (fst f) name in
  List.length (filter keep cols1) = List.length (filter keep cols2)
  /\ map (fun f => first_literal (snd f)) (filter keep cols1)
     = map (fun f => first_literal (snd f)) (filter keep cols2).
Proof.
  revert cols2. induction cols1 as [ | f1 cols1 IH]; intros [ | f2 cols2] Hn Hl;
    try discriminate; simpl; [split; reflexivity | ].
  simpl in Hn, Hl. injection Hn as Hf Hn. injection Hl as Hx Hl.
  destruct (IH cols2 Hn Hl) as [IHlen IHlit].
  rewrite Hf. destruct (String.eqb (fst f2) name); simpl.
  - split; [f_equal; exact IHlen | f_equal; assumption].
  - split; assumption.
Qed.

Lemma table_column_alike (t1 t2 : Table) (name : string) :
  column_names t1 = column_names t2 ->
  first_row_literals t1 = first_row_literals t2 ->
  same_lookup (table_column t1 name) (table_column t2 name).
Proof.
  intros Hn Hl. unfold table_column.
  destruct (filter_by_name_alike name _ _ Hn Hl) as [Hlen Hlit].
  destruct (filter _ (tbl_columns t1)) as [ | f1 [ | g1 l1]];
    destruct (filter _ (tbl_columns t2)) as [ | f2 [ | g2 l2]];
    try discriminate Hlen; simpl.
  - reflexivity.
  - simpl in Hlit. injection Hlit as H. exact H.
  - simpl in Hlen. rewrite Hlen. reflexivity.
Qed.

(** The loop that adds the column assertions sees the columns only through
    the success of the lookup. *)
Lemma column_assertions_alike (t1 t2 : Table) :
  column_names t1 = column_names t2 ->
  first_row_literals t1 = first_row_literals t2 ->
  forall names start template,
    fold_enumerate start names
      (fun template i col_name =>
         and_then (table_column t1 col_name) (fun col =>
         let java_type := python_to_java_type (col_type col) in
         Returned (template ++ column_assertion i col_name)%string))
      template
    = fold_enumerate start names
      (fun template i col_name =>
         and_then (table_column t2 col_name) (fun col =>
         let java_type := python_to_java_type (col_type col) in
         Returned (template ++ column_assertion i col_name)%string))
      template.
Proof.
  intros Hn Hl names. induction names as [ | name names IH]; intros start template.
  - reflexivity.
  - simpl. pose proof (table_column_alike t1 t2 name Hn Hl) as H.
    destruct (table_column t1 name) as [c1 | e1];
      destruct (table_column t2 name) as [c2 | e2]; simpl in H; try contradiction.
    + simpl. apply IH.
    + simpl. rewrite H. reflexivity.
Qed.

(** So do the value lists and the assertions built from them. *)
Lemma values_alike (t1 t2 : Table) :
  column_names t1 = column_names t2 ->
  first_row_literals t1 = first_row_literals t2 ->
  forall names,
    same_values
      (collect (fun col_name =>
                  and_then (table_column t1 col_name)
                           (fun col => Returned (col_values col))) names)
      (collect (fun col_name =>
                  and_then (table_column t2 col_name)
                           (fun col => Returned (col_values col))) names).
Proof.
  intros Hn Hl names. induction names as [ | name names IH].
  - reflexivity.
  - simpl. pose proof (table_column_alike t1 t2 name Hn Hl) as H.
    destruct (table_column t1 name) as [c1 | e1];
      destruct (table_column t2 name) as [c2 | e2]; simpl in H; try contradiction.
    + simpl.
      destruct (collect _ names) as [v1 | x1];
        destruct (collect _ names) as [v2 | x2]; simpl in IH; try contradiction;
        cbn [and_then same_values map].
      * f_equal; [exact H | exact IH].
      * exact IH.
    + simpl. exact H.
Qed.

Lemma value_assertions_alike (v1 v2 : list (list PyVal)) :
  map (fun l => option_map format_value (nth_error l 0)) v1
  = map (fun l => option_map format_value (nth_error l 0)) v2 ->
  forall (names : list string) start template,
    fold_enumerate start names
      (fun template i col_name =>
         and_then (py_index v1 i) (fun column =>
         and_then (py_index column 0) (fun val =>
         Returned (template ++ value_assertion i val)%string)))
      template
    = fold_enumerate start names
      (fun template i (col_name : string) =>
         and_then (py_index v2 i) (fun column =>
         and_then (py_index column 0) (fun val =>
         Returned (template ++ value_assertion i val)%string)))
      template.
Proof.
  intros Hv names. induction names as [ | name names IH]; intros start template.
  - reflexivity.
  - simpl.
    assert (Hi : nth_error (map (fun l => option_map format_value (nth_error l 0)) v1) start
                 = nth_error (map (fun l => option_map format_value (nth_error l 0)) v2) start)
      by (rewrite Hv; reflexivity).
    rewrite !nth_error_map in Hi. unfold py_index.
    destruct (nth_error v1 start) as [c1 | ]; destruct (nth_error v2 start) as [c2 | ];
      simpl in Hi; try discriminate; simpl; [ | reflexivity].
    injection Hi as Hi.
    destruct c1 as [ | x1 r1]; destruct c2 as [ | x2 r2];
      simpl in Hi; try discriminate; simpl; [reflexivity | ].
    injection Hi as Hi. unfold value_assertion. rewrite Hi. apply IH.
Qed.

(** C10: the template does not depend on what [python_to_java_type]
    computes.  Two tables with the same column names, the same row count and
    the same literals for the first row, whatever their column types, get the
    same template. *)
Theorem template_ignores_column_types (file_path : string) (t1 t2 : Table) :
  column_names t1 = column_names t2 ->
  tbl_num_rows t1 = tbl_num_rows t2 ->
  first_row_literals t1 = first_row_literals t2 ->
  generate_junit_template file_path t1 = generate_junit_template file_path t2.
Proof.
  intros Hn Hr Hl. unfold generate_junit_template. cbv zeta.
  rewrite <- Hn, <- Hr.
  rewrite (column_assertions_alike t1 t2 Hn Hl).
  destruct (fold_enumerate 0 (column_names t1) _ _) as [template | e];
    [ | reflexivity].
  cbn [and_then].
  pose proof (values_alike t1 t2 Hn Hl (column_names t1)) as Hv.
  destruct (collect _ (column_names t1)) as [v1 | e1];
    destruct (collect _ (column_names t1)) as [v2 | e2];
    simpl in Hv; try contradiction; cbn [and_then].
  - rewrite (value_assertions_alike v1 v2 Hv). reflexivity.
  - rewrite Hv. reflexivity.
Qed.

(** The sample table and the same table under other column types. *)
Lemma template_ignores_column_types_witness :
  generate_junit_template "sample_data.parquet" Samples.sample_table
  = generate_junit_template "sample_data.parquet" Samples.retyped_table
  /\ map (fun f => python_to_java_type (col_type (snd f)))
         (tbl_columns Samples.sample_table) = ["Long"; "String"]
  /\ map (fun f => python_to_java_type (col_type (snd f)))
         (tbl_columns Samples.retyped_table) = ["Integer"; "String"].
Proof.
  split; [ | split; reflexivity].
  apply (template_ignores_column_types "sample_data.parquet"
           Samples.sample_table Samples.retyped_table); reflexivity.
Defined.

(** *** The template of the sample file *)

(** [split] on a path: the pieces before and after a separator. *)
Lemma split_nonempty (sep : ascii) (s : string) : split sep s <> [].
Proof.
  destruct s as [ | c s]; simpl; [discriminate | ].
  destruct (Ascii.eqb c sep); [discriminate | ].
  destruct (split sep s); discriminate.
Qed.

Lemma split_app_sep (sep : ascii) (d n : string) :
  split sep (d ++ String sep n) = split sep d ++ split sep n.
Proof.
  induction d as [ | c d IH]; simpl.
  - rewrite Ascii.eqb_refl. reflexivity.
  - destruct (Ascii.eqb c sep).
    + rewrite IH. reflexivity.
    + rewrite IH. pose proof (split_nonempty sep d) as Hne.
      destruct (split sep d) as [ | piece pieces]; [contradiction | reflexivity].
Qed.

Lemma split_without_sep (sep : ascii) (n : string) :
  contains (String sep EmptyString) n = false -> split sep n = [n].
Proof.
  induction n as [ | c n IH]; simpl; [reflexivity | ].
  rewrite Ascii.eqb_sym.
  destruct (Ascii.eqb c sep); simpl.
  - destruct n; discriminate.
  - intros H. rewrite (IH H). reflexivity.
Qed.

(** The file name is what follows the last slash of the path. *)
Lemma file_name_of_path (dir name : string) :
  contains "/" name = false ->
  last_part (split "/" (dir ++ "/" ++ name)) = name.
Proof.
  intros H. unfold last_part. simpl append.
  rewrite split_app_sep, (split_without_sep _ _ H).
  apply last_last.
Qed.

(** C3, as the code has it: for a file named [sample_data.parquet] with 3
    rows and the columns [id: int64] and [name: string] whose first row is
    [(1, "Alice")], the method is named [testSampleData] and the template
    asserts [3L] rows, [2] columns, the path strings ["id"] and ["name"] at
    indices 0 and 1, and for the first row the plain literal [1], the value
    being within the 32-bit range, and ["Alice"]. *)
Theorem junit_template_of_sample (file_path : string) (t : Table)
  (more_ids more_names : list PyVal) :
  last_part (split "/" file_path) = "sample_data.parquet" ->
  tbl_num_rows t = 3%nat ->
  tbl_columns t
  = [ ("id", {| col_type := "int64"; col_values := VInt 1 :: more_ids |});
      ("name", {| col_type := "string"; col_values := VStr "Alice" :: more_names |}) ] ->
  test_name_of "sample_data.parquet" = "SampleData"
  /\ generate_junit_template file_path t = Returned sample_template
  /\ Occurs "void testSampleData()" sample_template
  /\ Occurs "assertEquals(3L, reader.getTotalRowCount());" sample_template
  /\ Occurs "assertEquals(2, reader.getSchema().getNumColumns());" sample_template
  /\ Occurs ("assertEquals(" ++ dq ++ "id" ++ dq
             ++ ", reader.getSchema().getColumn(0).getPathString());") sample_template
  /\ Occurs ("assertEquals(" ++ dq ++ "name" ++ dq
             ++ ", reader.getSchema().getColumn(1).getPathString());") sample_template
  /\ Occurs "assertEquals(1, firstRow.getColumnValue(0));" sample_template
  /\ Occurs ("assertEquals(" ++ dq ++ "Alice" ++ dq
             ++ ", firstRow.getColumnValue(1));") sample_template.
Proof.
  intros Hname Hrows Hcols.
  split; [reflexivity | ]. split.
  - unfold generate_junit_template, column_names, table_column. cbv zeta.
    rewrite Hname, Hrows, Hcols. reflexivity.
  - repeat split; apply contains_iff; reflexivity.
Qed.

(** The sample file in a directory of test data. *)
Lemma junit_template_of_sample_witness :
  generate_junit_template "src/test/data/sample_data.parquet" Samples.sample_table
  = Returned sample_template.
Proof.
  apply (junit_template_of_sample "src/test/data/sample_data.parquet"
           Samples.sample_table [VInt 2; VInt 3] [VStr "Bob"; VNone]);
    reflexivity.
Defined.

(** C3, as stated, fails: the first-row assertion on [id] carries the plain
    literal [1]; the long literal [1L] is nowhere in the template. *)
Lemma junit_template_of_sample_has_no_1L :
  generate_junit_template "sample_data.parquet" Samples.sample_table
  = Returned sample_template
  /\ ~ Occurs "assertEquals(1L, firstRow.getColumnValue(0));" sample_template
  /\ ~ Occurs "1L" sample_template.
Proof.
  split; [reflexivity | ].
  split; apply contains_false_iff; reflexivity.
Qed.

(** ** Floats: no overflow on bounded operands, and the order *)

Section FloatFacts.
Local Open Scope Z_scope.

(** The number of binary digits of a number, and its size. *)
Lemma digits_pos_bounds (p : positive) :
  2 ^ (Zpos (digits2_pos p) - 1) <= Zpos p < 2 ^ Zpos (digits2_pos p).
Proof.
  induction p as [p IH | p IH | ]; cbn [digits2_pos].
  - rewrite Pos2Z.inj_succ.
    replace (Z.succ (Zpos (digits2_pos p)) - 1) with (Z.succ (Zpos (digits2_pos p) - 1)) by lia.
    rewrite !Z.pow_succ_r by lia. lia.
  - rewrite Pos2Z.inj_succ.
    replace (Z.succ (Zpos (digits2_pos p)) - 1) with (Z.succ (Zpos (digits2_pos p) - 1)) by lia.
    rewrite !Z.pow_succ_r by lia. lia.
  - simpl. lia.
Qed.

Lemma digits_nonneg (m : Z) : 0 <= Zdigits2 m.
Proof. destruct m; simpl; lia. Qed.

Lemma digits_le (m k : Z) : 0 <= m < 2 ^ k -> 0 <= k -> Zdigits2 m <= k.
Proof.
  intros [H0 Hm] Hk. destruct m as [ | p | p]; simpl; try lia.
  pose proof (digits_pos_bounds p) as [Hlo _].
  assert (H : 2 ^ (Zpos (digits2_pos p) - 1) < 2 ^ k) by lia.
  apply Z.pow_lt_mono_r_iff in H; lia.
Qed.

Lemma digits_lt_pow (m : Z) : 0 <= m -> m < 2 ^ Zdigits2 m.
Proof.
  intros H. destruct m as [ | p | p]; simpl; try lia.
  apply digits_pos_bounds.
Qed.

Lemma digits_ge_pow (m : Z) : 0 < m -> 2 ^ (Zdigits2 m - 1) <= m.
Proof.
  intros H. destruct m as [ | p | p]; simpl; try lia.
  apply digits_pos_bounds.
Qed.

(** A shift to the right takes one digit away. *)
Lemma digits_shr_1 (r : shr_record) :
  0 <= shr_m r ->
  0 <= shr_m (shr_1 r) /\ Zdigits2 (shr_m (shr_1 r)) = Z.max 0 (Zdigits2 (shr_m r) - 1).
Proof.
  destruct r as [m r s]. cbn [shr_m]. intros H.
  destruct m as [ | [p | p | ] | p];
    cbn [shr_1 shr_m Zdigits2 digits2_pos]; rewrite ?Pos2Z.inj_succ; lia.
Qed.

Lemma digits_iter_shr_1 (p : positive) (r : shr_record) :
  0 <= shr_m r ->
  0 <= shr_m (iter_pos shr_1 p r)
  /\ Zdigits2 (shr_m (iter_pos shr_1 p r)) = Z.max 0 (Zdigits2 (shr_m r) - Zpos p).
Proof.
  revert r. induction p as [p IH | p IH | ]; intros r H; cbn [iter_pos].
  - destruct (digits_shr_1 r H) as [H1 E1].
    destruct (IH _ H1) as [H2 E2]. destruct (IH _ H2) as [H3 E3].
    split; [exact H3 | ]. rewrite E3, E2, E1. lia.
  - destruct (IH _ H) as [H2 E2]. destruct (IH _ H2) as [H3 E3].
    split; [exact H3 | ]. rewrite E3, E2. lia.
  - apply digits_shr_1. exact H.
Qed.

Lemma shr_m_of_loc (m : Z) (l : location) : shr_m (shr_record_of_loc m l) = m.
Proof. destruct l as [ | []]; reflexivity. Qed.

(** What [shr_fexp] does to the exponent and to the number of digits. *)
Lemma shr_fexp_bounds (m e : Z) (l : location) :
  0 <= m ->
  let r := shr_fexp PyFloat.prec PyFloat.emax m e l in
  0 <= shr_m (fst r)
  /\ snd r = Z.max e (fexp PyFloat.prec PyFloat.emax (Zdigits2 m + e))
  /\ Zdigits2 (shr_m (fst r)) + snd r <= Z.max (Zdigits2 m + e) (snd r).
Proof.
  intros Hm. unfold shr_fexp, shr.
  set (n := fexp PyFloat.prec PyFloat.emax (Zdigits2 m + e) - e).
  assert (Hn : fexp PyFloat.prec PyFloat.emax (Zdigits2 m + e) = e + n) by (unfold n; lia).
  rewrite Hn. clearbody n.
  destruct n as [ | p | p]; cbn [fst snd]; rewrite ?shr_m_of_loc.
  - repeat split; lia.
  - destruct (digits_iter_shr_1 p (shr_record_of_loc m l)) as [H0 E].
    { rewrite shr_m_of_loc. exact Hm. }
    rewrite shr_m_of_loc in E. rewrite E. repeat split; lia.
  - repeat split; lia.
Qed.

(** Rounding adds one at most, and so one digit at most. *)
Lemma round_nearest_even_bounds (m : Z) (l : location) :
  m <= round_nearest_even m l <= m + 1.
Proof.
  unfold round_nearest_even. destruct l as [ | []]; try lia.
  destruct (Z.even m); lia.
Qed.

Lemma digits_succ (m m' : Z) : 0 <= m -> m <= m' <= m + 1 -> Zdigits2 m' <= Zdigits2 m + 1.
Proof.
  intros Hm Hm'. apply digits_le; [ | pose proof (digits_nonneg m); lia].
  pose proof (digits_lt_pow m Hm) as H.
  replace (Zdigits2 m + 1) with (Z.succ (Zdigits2 m)) by lia.
  rewrite Z.pow_succ_r by apply digits_nonneg. lia.
Qed.

(** Rounding stays finite as long as the value is below 2^1024 and the
    exponent it starts from is not above the largest one. *)
Lemma binary_round_aux_finite (s : bool) (m e : Z) (l : location) :
  0 <= m -> e <= 971 -> Zdigits2 m + e <= 1023 ->
  PyFloat.is_inf (binary_round_aux PyFloat.prec PyFloat.emax s m e l) = false.
Proof.
  intros Hm He Hd. unfold binary_round_aux.
  pose proof (shr_fexp_bounds m e l Hm) as H1. cbv zeta in H1.
  destruct (shr_fexp PyFloat.prec PyFloat.emax m e l) as [r1 e1].
  cbn [fst snd] in H1. destruct H1 as (H1m & H1e & H1d).
  set (m2 := round_nearest_even (shr_m r1) (loc_of_shr_record r1)).
  pose proof (round_nearest_even_bounds (shr_m r1) (loc_of_shr_record r1)) as Hr.
  fold m2 in Hr.
  assert (Hm2 : 0 <= m2) by lia.
  pose proof (digits_succ (shr_m r1) m2 H1m Hr) as Hd2.
  pose proof (shr_fexp_bounds m2 e1 loc_Exact Hm2) as H2. cbv zeta in H2.
  destruct (shr_fexp PyFloat.prec PyFloat.emax m2 e1 loc_Exact) as [r2 e2].
  cbn [fst snd] in H2. destruct H2 as (H2m & H2e & H2d).
  destruct (shr_m r2) as [ | p | p]; try reflexivity.
  assert (He2 : e2 <= 971).
  { unfold fexp, emin, PyFloat.prec, PyFloat.emax in *. lia. }
  unfold PyFloat.emax, PyFloat.prec.
  destruct (Z.leb_spec e2 (1024 - 53)); [reflexivity | lia].
Qed.

(** The digits of a quotient that was scaled by a power of two. *)
Lemma quotient_digits (a n s : Z) :
  0 < a -> 0 < n -> 0 <= s ->
  0 <= a * 2 ^ s / n
  /\ Zdigits2 (a * 2 ^ s / n) <= Z.max 0 (Zdigits2 a + s - Zdigits2 n + 1).
Proof.
  intros Ha Hn Hs.
  set (q := a * 2 ^ s / n).
  assert (H2s : 0 < 2 ^ s) by (apply Z.pow_pos_nonneg; lia).
  assert (Hq0 : 0 <= q) by (apply Z.div_pos; nia).
  split; [exact Hq0 | ].
  assert (Hqn : q * n <= a * 2 ^ s).
  { unfold q. rewrite Z.mul_comm. apply Z.mul_div_le. exact Hn. }
  pose proof (digits_lt_pow a ltac:(lia)) as Ha2.
  pose proof (digits_ge_pow n Hn) as Hn2.
  pose proof (digits_nonneg a) as Hda.
  assert (Hdn : 1 <= Zdigits2 n) by (destruct n; simpl in *; lia).
  set (d1 := Zdigits2 a) in *. set (d2 := Zdigits2 n) in *.
  assert (HA : 0 < 2 ^ (d2 - 1)) by (apply Z.pow_pos_nonneg; lia).
  assert (Hlt : q * 2 ^ (d2 - 1) < 2 ^ (d1 + s)).
  { rewrite Z.pow_add_r by lia. nia. }
  apply digits_le; [ | lia]. split; [exact Hq0 | ].
  destruct (Z_le_gt_dec 0 (d1 + s - d2 + 1)) as [Hk | Hk].
  - rewrite Z.max_r by lia.
    replace (d1 + s) with ((d1 + s - d2 + 1) + (d2 - 1)) in Hlt by lia.
    rewrite Z.pow_add_r in Hlt by lia. nia.
  - rewrite Z.max_l by lia. simpl.
    assert (H : 2 ^ (d1 + s) < 2 ^ (d2 - 1)) by (apply Z.pow_lt_mono_r; lia).
    nia.
Qed.

(** The quotient of two positive [int]s, rounded, is finite while it is at
    most 2^1000. *)
Lemma positive_quotient_finite (s : bool) (pa pn : positive) :
  Zpos pa <= 2 ^ 1000 * Zpos pn ->
  PyFloat.is_inf
    (SFdiv PyFloat.prec PyFloat.emax (S754_finite s pa 0) (S754_finite false pn 0))
  = false.
Proof.
  intros Ha. cbn [SFdiv]. unfold SFdiv_core_binary.
  set (d1 := Zdigits2 (Zpos pa)). set (d2 := Zdigits2 (Zpos pn)).
  rewrite !Z.add_0_r, Z.sub_0_r.
  set (e' := Z.min (fexp PyFloat.prec PyFloat.emax (d1 - d2)) 0).
  assert (He' : e' <= 0) by (unfold e'; lia).
  assert (Hshift : match 0 - e' with
                   | Z0 => Zpos pa
                   | Zpos _ => Z.shiftl (Zpos pa) (0 - e')
                   | Zneg _ => 0
                   end = Zpos pa * 2 ^ (0 - e')).
  { destruct (0 - e') as [ | k | k] eqn:Hs; [simpl; lia | | lia].
    rewrite Z.shiftl_mul_pow2 by lia. reflexivity. }
  rewrite Hshift.
  destruct (quotient_digits (Zpos pa) (Zpos pn) (0 - e')) as [Hq Hd]; try lia.
  fold d1 d2 in Hd. unfold Z.div in Hq, Hd.
  destruct (Z.div_eucl (Zpos pa * 2 ^ (0 - e')) (Zpos pn)) as [q r].
  cbn [fst] in Hq, Hd.
  assert (Hd2 : 0 <= d2) by apply digits_nonneg.
  assert (Hd1 : d1 <= 1000 + d2).
  { apply digits_le; [ | lia]. split; [lia | ].
    pose proof (digits_lt_pow (Zpos pn) ltac:(lia)) as Hlt. fold d2 in Hlt.
    rewrite Z.pow_add_r by lia.
    assert (0 < 2 ^ 1000) by (apply Z.pow_pos_nonneg; lia). nia. }
  apply binary_round_aux_finite; [exact Hq | lia | lia].
Qed.

(** [a / n] does not overflow while the exact quotient is at most 2^1000. *)
Lemma int_true_div_finite (a n : Z) :
  0 < n -> Z.abs a <= 2 ^ 1000 * n ->
  exists q, PyFloat.int_true_div a n = Some q.
Proof.
  intros Hn Ha. unfold PyFloat.int_true_div. cbv zeta.
  match goal with |- context [PyFloat.is_inf ?x] =>
    assert (H : PyFloat.is_inf x = false); [ | rewrite H; eauto] end.
  destruct n as [ | pn | pn]; try lia.
  destruct a as [ | pa | pa]; [reflexivity | | ];
    apply positive_quotient_finite; simpl Z.abs in Ha; exact Ha.
Qed.

(** A shift to the left adds as many digits. *)
Lemma digits_iter_xO (m d : positive) :
  Zpos (digits2_pos (Pos.iter xO m d)) = Zpos (digits2_pos m) + Zpos d.
Proof.
  induction d as [ | d IH] using Pos.peano_ind.
  - simpl. lia.
  - rewrite Pos.iter_succ. cbn [digits2_pos]. lia.
Qed.

(** [float(z)] does not overflow below 2^1000. *)
Lemma of_int_finite (z : Z) :
  Z.abs z < 2 ^ 1000 -> exists f, PyFloat.of_int z = Some f.
Proof.
  intros Hz. unfold PyFloat.of_int. cbv zeta.
  match goal with |- context [PyFloat.is_inf ?x] =>
    assert (H : PyFloat.is_inf x = false); [ | rewrite H; eauto] end.
  assert (Hround : forall s p, Zpos p < 2 ^ 1000 ->
            PyFloat.is_inf (binary_round PyFloat.prec PyFloat.emax s p 0) = false).
  { intros s p Hp. unfold binary_round, shl_align.
    assert (Hd : Zpos (digits2_pos p) <= 1000).
    { apply (digits_le (Zpos p)); lia. }
    set (x := fexp PyFloat.prec PyFloat.emax (Zpos (digits2_pos p) + 0)).
    assert (Hx : x <= 947) by (unfold x, fexp, emin, PyFloat.prec, PyFloat.emax; lia).
    destruct (x - 0) as [ | k | k] eqn:Hk.
    - apply binary_round_aux_finite; simpl; lia.
    - apply binary_round_aux_finite; simpl; lia.
    - apply binary_round_aux_finite; [lia | lia | ].
      cbn [Zdigits2]. rewrite digits_iter_xO. lia. }
  destruct z as [ | p | p]; [reflexivity | | ]; apply Hround; simpl in Hz; lia.
Qed.

Ltac compare_cases :=
  repeat match goal with
         | |- context [Z.compare ?a ?b] => destruct (Z.compare_spec a b)
         | |- context [Pos.compare_cont Eq ?a ?b] =>
             change (Pos.compare_cont Eq a b) with (Pos.compare a b);
             destruct (Pos.compare_spec a b)
         | H : context [Z.compare ?a ?b] |- _ => destruct (Z.compare_spec a b)
         | H : context [Pos.compare_cont Eq ?a ?b] |- _ =>
             change (Pos.compare_cont Eq a b) with (Pos.compare a b) in H;
             destruct (Pos.compare_spec a b)
         end.

(** The order of the floats that are no NaN is total, reflexive and
    transitive. *)
Lemma SFleb_refl (f : spec_float) : PyFloat.is_nan f = false -> SFleb f f = true.
Proof.
  unfold SFleb. destruct f as [[] | [] | | [] m e]; simpl; try discriminate; try reflexivity;
    intros _; rewrite Z.compare_refl;
    change (Pos.compare_cont Eq m m) with (Pos.compare m m);
    rewrite Pos.compare_refl; reflexivity.
Qed.

Lemma SFltb_leb (f g : spec_float) : SFltb f g = true -> SFleb f g = true.
Proof.
  unfold SFltb, SFleb. destruct (SFcompare f g) as [[] | ]; congruence.
Qed.

Lemma SFltb_false_leb (f g : spec_float) :
  PyFloat.is_nan f = false -> PyFloat.is_nan g = false ->
  SFltb f g = false -> SFleb g f = true.
Proof.
  unfold SFltb, SFleb.
  destruct f as [[] | [] | | [] m1 e1]; destruct g as [[] | [] | | [] m2 e2];
    simpl; try discriminate; try reflexivity; intros _ _;
    compare_cases; simpl; try discriminate; try reflexivity; try lia.
Qed.

Lemma SFleb_trans (f g h : spec_float) :
  SFleb f g = true -> SFleb g h = true -> SFleb f h = true.
Proof.
  unfold SFleb.
  destruct f as [[] | [] | | [] m1 e1]; destruct g as [[] | [] | | [] m2 e2];
    simpl; try discriminate; destruct h as [[] | [] | | [] m3 e3];
    simpl; try discriminate; try reflexivity;
    compare_cases; simpl; try discriminate; try reflexivity; try lia.
Qed.

End FloatFacts.

(** ** Numeric columns *)

Section Scan.

Variable beats : PyVal -> PyVal -> Outcome bool.
Variable le : PyVal -> PyVal -> Prop.
Variable ok : PyVal -> Prop.

Hypothesis beats_decides :
  forall a b, ok a -> ok b ->
    exists r, beats a b = Returned r /\ if r then le a b else le b a.
Hypothesis le_refl : forall a, ok a -> le a a.
Hypothesis le_trans : forall a b c, le a b -> le b c -> le a c.

(** The item that [scan] keeps is a member and is [le] every member. *)
Lemma scan_extreme (items : list PyVal) :
  forall kept, ok kept -> (forall v, In v items -> ok v) ->
  exists r, scan beats kept items = Returned r
            /\ In r (kept :: items)
            /\ forall v, In v (kept :: items) -> le r v.
Proof.
  induction items as [ | item rest IH]; intros kept Hkept Hitems.
  - exists kept. simpl. split; [reflexivity | ]. split; [left; reflexivity | ].
    intros v [<- | []]. apply le_refl. exact Hkept.
  - assert (Hitem : ok item) by (apply Hitems; left; reflexivity).
    destruct (beats_decides item kept Hitem Hkept) as [b [Hb Hle]].
    cbn [scan]. rewrite Hb. cbn [and_then].
    set (kept' := if b then item else kept).
    assert (Hok' : ok kept') by (unfold kept'; destruct b; assumption).
    destruct (IH kept' Hok' (fun v Hv => Hitems v (or_intror Hv)))
      as [r [Hr [Hin Hall]]].
    exists r. split; [exact Hr | ].
    assert (Hk : le kept' kept /\ le kept' item).
    { unfold kept'. destruct b; split; auto. }
    split.
    + destruct Hin as [<- | Hin].
      * unfold kept'. destruct b; simpl; auto.
      * right. right. exact Hin.
    + intros v [<- | [<- | Hv]].
      * apply (le_trans r kept'); [apply Hall; left; reflexivity | apply Hk].
      * apply (le_trans r kept'); [apply Hall; left; reflexivity | apply Hk].
      * apply Hall. right. exact Hv.
Qed.

End Scan.

(** The order of Python numbers, and how [<] and [>] decide it. *)
Lemma py_le_trans (a b c : PyVal) : py_le a b -> py_le b c -> py_le a c.
Proof.
  destruct a, b; simpl; try contradiction; destruct c; simpl; try contradiction.
  - lia.
  - apply SFleb_trans.
Qed.

Lemma py_lt_decides_int (a b : PyVal) :
  ordered_int a -> ordered_int b ->
  exists r, py_lt a b = Returned r /\ if r then py_le a b else py_le b a.
Proof.
  intros [x ->] [y ->]. simpl. exists (x <? y)%Z. split; [reflexivity | ].
  destruct (Z.ltb_spec x y); lia.
Qed.

Lemma py_gt_decides_int (a b : PyVal) :
  ordered_int a -> ordered_int b ->
  exists r, py_gt a b = Returned r /\ if r then py_le b a else py_le a b.
Proof.
  intros [x ->] [y ->]. simpl. exists (y <? x)%Z. split; [reflexivity | ].
  destruct (Z.ltb_spec y x); lia.
Qed.

Lemma py_lt_decides_float (a b : PyVal) :
  ordered_float a -> ordered_float b ->
  exists r, py_lt a b = Returned r /\ if r then py_le a b else py_le b a.
Proof.
  intros (f & s & -> & Hf) (g & t & -> & Hg). simpl.
  exists (PyFloat.ltb f g). split; [reflexivity | ].
  unfold PyFloat.ltb, PyFloat.leb. destruct (SFltb f g) eqn:E.
  - apply SFltb_leb. exact E.
  - apply SFltb_false_leb; assumption.
Qed.

Lemma py_gt_decides_float (a b : PyVal) :
  ordered_float a -> ordered_float b ->
  exists r, py_gt a b = Returned r /\ if r then py_le b a else py_le a b.
Proof.
  intros (f & s & -> & Hf) (g & t & -> & Hg). simpl.
  exists (PyFloat.ltb g f). split; [reflexivity | ].
  unfold PyFloat.ltb, PyFloat.leb. destruct (SFltb g f) eqn:E.
  - apply SFltb_leb. exact E.
  - apply SFltb_false_leb; assumption.
Qed.

Lemma py_le_refl_int (a : PyVal) : ordered_int a -> py_le a a.
Proof. intros [x ->]. simpl. lia. Qed.

Lemma py_le_refl_float (a : PyVal) : ordered_float a -> py_le a a.
Proof. intros (f & s & -> & Hf). simpl. apply SFleb_refl. exact Hf. Qed.

(** [min] and [max] of a non-empty list of values that can be compared. *)
Lemma py_min_max_correct (l : list PyVal) :
  l <> [] ->
  (forall v, In v l -> ordered_int v) \/ (forall v, In v l -> ordered_float v) ->
  exists lo hi, py_min l = Returned lo /\ py_max l = Returned hi
                /\ is_minimum lo l /\ is_maximum hi l.
Proof.
  intros Hne Hkind. destruct l as [ | first rest]; [contradiction | ].
  unfold py_min, py_max, is_minimum, is_maximum.
  destruct Hkind as [Hk | Hk].
  - destruct (scan_extreme py_lt py_le ordered_int py_lt_decides_int
                py_le_refl_int py_le_trans rest first)
      as [lo [Hlo Hmin]]; [apply Hk; left; reflexivity | intros v Hv; apply Hk; right; exact Hv | ].
    destruct (scan_extreme py_gt (fun a b => py_le b a) ordered_int py_gt_decides_int
                py_le_refl_int (fun a b c H1 H2 => py_le_trans c b a H2 H1) rest first)
      as [hi [Hhi Hmax]]; [apply Hk; left; reflexivity | intros v Hv; apply Hk; right; exact Hv | ].
    exists lo, hi. auto.
  - destruct (scan_extreme py_lt py_le ordered_float py_lt_decides_float
                py_le_refl_float py_le_trans rest first)
      as [lo [Hlo Hmin]]; [apply Hk; left; reflexivity | intros v Hv; apply Hk; right; exact Hv | ].
    destruct (scan_extreme py_gt (fun a b => py_le b a) ordered_float py_gt_decides_float
                py_le_refl_float (fun a b c H1 H2 => py_le_trans c b a H2 H1) rest first)
      as [hi [Hhi Hmax]]; [apply Hk; left; reflexivity | intros v Hv; apply Hk; right; exact Hv | ].
    exists lo, hi. auto.
Qed.

(** *** Typed columns *)

(** The non-null values are the values that are not [None]. *)
Lemma non_null_In (v : PyVal) (l : list PyVal) :
  In v (non_null l) <-> In v l /\ v <> VNone.
Proof.
  unfold non_null. rewrite filter_In. split; intros [H1 H2]; split; auto.
  - intros ->. discriminate H2.
  - destruct v; try reflexivity. contradiction.
Qed.

(** A numeric type is an integer type or a floating-point type. *)
Lemma numeric_type_kinds (ty : string) :
  in_strings ty numeric_types = true ->
  in_strings ty ["int32"; "int64"] = true
  \/ (in_strings ty ["int32"; "int64"] = false
      /\ in_strings ty ["float"; "double"] = true).
Proof.
  unfold in_strings, numeric_types. cbn [existsb].
  destruct (String.eqb ty "int32"), (String.eqb ty "int64"); simpl; auto.
Qed.

(** The non-null values of a list of bounded [int]s and [None]s. *)
Lemma non_null_ints (l : list PyVal) :
  forallb int_or_none l = true ->
  exists zs, non_null l = map VInt zs
             /\ Forall (fun z => - 2 ^ 63 <= z < 2 ^ 63)%Z zs.
Proof.
  induction l as [ | v l IH]; intros H.
  - exists []. split; [reflexivity | constructor].
  - cbn [forallb] in H. apply andb_true_iff in H. destruct H as [Hv Hl].
    destruct (IH Hl) as [zs [E F]].
    destruct v; try discriminate Hv.
    + exists zs. split; [exact E | exact F].
    + exists (z :: zs). split; [simpl; rewrite <- E; reflexivity | ].
      constructor; [ | exact F].
      cbn [int_or_none] in Hv. apply andb_true_iff in Hv. lia.
Qed.

(** The non-null values of a list of [float]s and [None]s. *)
Lemma non_null_floats (l : list PyVal) :
  forallb float_or_none l = true ->
  exists ps, non_null l = map (fun p => VFloat (fst p) (snd p)) ps.
Proof.
  induction l as [ | v l IH]; intros H.
  - exists []. reflexivity.
  - cbn [forallb] in H. apply andb_true_iff in H. destruct H as [Hv Hl].
    destruct (IH Hl) as [ps E].
    destruct v; try discriminate Hv.
    + exists ps. exact E.
    + exists ((f, shown) :: ps). simpl. rewrite <- E. reflexivity.
Qed.

(** There are no more non-null values than values. *)
Lemma non_null_length (l : list PyVal) :
  (List.length (non_null l) <= List.length l)%nat.
Proof. unfold non_null. apply filter_length_le. Qed.

(** *** [sum] and the mean *)

(** [sum] over [int]s is the exact sum; over [float]s it adds from the left. *)
Lemma sum_from_ints (zs : list Z) (acc : Z) :
  sum_from (NInt acc) (map VInt zs) = Returned (NInt (acc + exact_sum zs)).
Proof.
  revert acc. induction zs as [ | z zs IH]; intros acc; simpl.
  - rewrite Z.add_0_r. reflexivity.
  - rewrite IH. rewrite Z.add_assoc. reflexivity.
Qed.

Lemma sum_from_floats (ps : list (spec_float * string)) (acc : spec_float) :
  sum_from (NFloat acc) (map (fun p => VFloat (fst p) (snd p)) ps)
  = Returned (NFloat (fold_left PyFloat.add (map fst ps) acc)).
Proof.
  revert acc. induction ps as [ | p ps IH]; intros acc; simpl.
  - reflexivity.
  - apply IH.
Qed.

Lemma py_sum_floats (ps : list (spec_float * string)) :
  ps <> [] ->
  py_sum (map (fun p => VFloat (fst p) (snd p)) ps)
  = Returned (NFloat (fold_left PyFloat.add (map fst ps) (S754_zero false))).
Proof.
  destruct ps as [ | p ps]; [contradiction | intros _].
  unfold py_sum. cbn [map sum_from py_add].
  change (float_of_int 0) with (Returned (S754_zero false)).
  cbn [and_then]. rewrite sum_from_floats. reflexivity.
Qed.

(** The sum of [n] values of 64 bits is at most [n] times 2^63. *)
Lemma exact_sum_bound (zs : list Z) :
  Forall (fun z => - 2 ^ 63 <= z < 2 ^ 63)%Z zs ->
  (Z.abs (exact_sum zs) <= 2 ^ 63 * Z.of_nat (List.length zs))%Z.
Proof.
  induction 1 as [ | z zs Hz _ IH]; [simpl; lia | ].
  cbn [exact_sum fold_right List.length]. fold (exact_sum zs).
  rewrite Nat2Z.inj_succ. lia.
Qed.

(** The sum and the quotient of a well-typed column are computed without an
    exception. *)
Lemma mean_of_typed (c : Column) :
  in_strings (col_type c) numeric_types = true ->
  arrow_column c = true ->
  non_null (col_values c) <> [] ->
  exists total avg,
    py_sum (non_null (col_values c)) = Returned total
    /\ py_div_len total (List.length (non_null (col_values c))) = Returned avg
    /\ average_of (non_null (col_values c)) avg.
Proof.
  intros Hty Harrow Hne. unfold arrow_column in Harrow.
  apply andb_true_iff in Harrow. destruct Harrow as [Hlen Hvals].
  apply Z.ltb_lt in Hlen.
  pose proof (non_null_length (col_values c)) as Hnn.
  destruct (numeric_type_kinds _ Hty) as [Hint | [Hint Hfloat]]; rewrite Hint in Hvals.
  - destruct (non_null_ints _ Hvals) as [zs [E F]].
    rewrite E in *. rewrite length_map in *.
    assert (Hn : (0 < Z.of_nat (List.length zs))%Z).
    { destruct zs; [contradiction Hne; reflexivity | simpl; lia]. }
    destruct (int_true_div_finite (exact_sum zs) (Z.of_nat (List.length zs)) Hn)
      as [q Hq].
    { pose proof (exact_sum_bound zs F) as Hb.
      assert (2 ^ 63 <= 2 ^ 1000)%Z by (apply Z.pow_le_mono_r; lia). nia. }
    exists (NInt (exact_sum zs)), q. split; [ | split].
    + unfold py_sum. rewrite sum_from_ints. reflexivity.
    + cbn [py_div_len]. rewrite Hq. reflexivity.
    + left. exists zs. split; [reflexivity | exact Hq].
  - rewrite Hfloat in Hvals.
    destruct (non_null_floats _ Hvals) as [ps E].
    rewrite E in *. rewrite length_map in *.
    destruct (of_int_finite (Z.of_nat (List.length ps))) as [d Hd].
    { assert (2 ^ 63 <= 2 ^ 1000)%Z by (apply Z.pow_le_mono_r; lia). lia. }
    exists (NFloat (fold_left PyFloat.add (map fst ps) (S754_zero false))),
           (PyFloat.div (fold_left PyFloat.add (map fst ps) (S754_zero false)) d).
    split; [ | split].
    + apply py_sum_floats. intros ->. apply Hne. reflexivity.
    + cbn [py_div_len]. unfold float_of_int. rewrite Hd. reflexivity.
    + right. exists ps, d. auto.
Qed.

(** The non-null values of a well-typed column without NaN can be compared. *)
Lemma non_null_ordered (c : Column) :
  in_strings (col_type c) numeric_types = true ->
  arrow_column c = true ->
  nan_free c = true ->
  (forall v, In v (non_null (col_values c)) -> ordered_int v)
  \/ (forall v, In v (non_null (col_values c)) -> ordered_float v).
Proof.
  intros Hty Harrow Hnan. unfold arrow_column in Harrow.
  apply andb_true_iff in Harrow. destruct Harrow as [_ Hvals].
  unfold nan_free in Hnan. rewrite forallb_forall in Hnan.
  destruct (numeric_type_kinds _ Hty) as [Hint | [Hint Hfloat]]; rewrite Hint in Hvals.
  - left. intros v Hv. apply non_null_In in Hv. destruct Hv as [Hin Hnone].
    rewrite forallb_forall in Hvals. specialize (Hvals v Hin).
    destruct v; try discriminate Hvals; [contradiction | ]. exists z. reflexivity.
  - right. rewrite Hfloat in Hvals. intros v Hv.
    apply non_null_In in Hv. destruct Hv as [Hin Hnone].
    rewrite forallb_forall in Hvals. specialize (Hvals v Hin). specialize (Hnan v Hin).
    destruct v; try discriminate Hvals; [contradiction | ].
    exists f, shown. split; [reflexivity | ].
    cbn [not_nan] in Hnan. destruct (PyFloat.is_nan f); [discriminate Hnan | reflexivity].
Qed.

(** C2, as the code has it: for a column whose declared type is one of
    int32, int64, float, double, with at least one non-null value and no
    NaN, the printed Min and Max are the minimum and the maximum of the
    non-null values; an Average line is printed if and only if there is
    more than one non-null value, and it shows, to two decimals, the
    double-precision quotient of the sum by the count. *)
Theorem numeric_column_statistics (c : Column) :
  in_strings (col_type c) numeric_types = true ->
  arrow_column c = true ->
  nan_free c = true ->
  non_null (col_values c) <> [] ->
  exists lo hi,
    is_minimum lo (non_null (col_values c))
    /\ is_maximum hi (non_null (col_values c))
    /\ (((List.length (non_null (col_values c)) <= 1)%nat
         /\ column_stats c
            = ([PValue "  Min: " lo; PValue "  Max: " hi], Returned tt))
        \/ ((1 < List.length (non_null (col_values c)))%nat
            /\ exists avg,
                average_of (non_null (col_values c)) avg
                /\ column_stats c
                   = ([PValue "  Min: " lo; PValue "  Max: " hi;
                       PLine ("  Average: " ++ PyFloat.fmt_2f avg)], Returned tt))).
Proof.
  intros Hty Harrow Hnan Hne.
  destruct (py_min_max_correct _ Hne (non_null_ordered c Hty Harrow Hnan))
    as (lo & hi & Hlo & Hhi & Hmin & Hmax).
  destruct (mean_of_typed c Hty Harrow Hne) as (total & avg & Hsum & Hdiv & Havg).
  exists lo, hi. split; [exact Hmin | ]. split; [exact Hmax | ].
  unfold column_stats. rewrite Hty. cbv zeta.
  destruct (non_null (col_values c)) as [ | v nn] eqn:E; [contradiction | ].
  rewrite Hlo, Hhi. cbn [lift bind print].
  destruct (Nat.ltb_spec 1 (List.length (v :: nn))) as [Hmany | Hfew].
  - right. split; [exact Hmany | ]. exists avg. split; [exact Havg | ].
    rewrite Hsum, Hdiv. reflexivity.
  - left. split; [exact Hfew | reflexivity].
Qed.

(** A column of twelve [int]s. *)
Lemma numeric_column_statistics_witness :
  exists lo hi,
    is_minimum lo (non_null (col_values Samples.long_column))
    /\ is_maximum hi (non_null (col_values Samples.long_column))
    /\ (((List.length (non_null (col_values Samples.long_column)) <= 1)%nat
         /\ column_stats Samples.long_column
            = ([PValue "  Min: " lo; PValue "  Max: " hi], Returned tt))
        \/ ((1 < List.length (non_null (col_values Samples.long_column)))%nat
            /\ exists avg,
                average_of (non_null (col_values Samples.long_column)) avg
                /\ column_stats Samples.long_column
                   = ([PValue "  Min: " lo; PValue "  Max: " hi;
                       PLine ("  Average: " ++ PyFloat.fmt_2f avg)], Returned tt))).
Proof.
  apply (numeric_column_statistics Samples.long_column);
    try reflexivity. discriminate.
Defined.

(** C2, as stated, fails on the Average: for an int64 column holding twice
    the value 2^53 + 1 the mean is 9007199254740993, and the line shows
    9007199254740992.00, the mean having gone through a float. *)
Lemma average_is_not_the_exact_mean :
  column_stats Samples.wide_column
  = ([PValue "  Min: " (VInt 9007199254740993);
      PValue "  Max: " (VInt 9007199254740993);
      PLine "  Average: 9007199254740992.00"], Returned tt)
  /\ mean_to_two_decimals [9007199254740993; 9007199254740993]%Z
                          "9007199254740993.00"
  /\ ~ mean_to_two_decimals [9007199254740993; 9007199254740993]%Z
                            "9007199254740992.00".
Proof.
  split; [vm_compute; reflexivity | ]. split.
  - exists 900719925474099300%Z. split; [vm_compute; discriminate | vm_compute; reflexivity].
  - intros [h [Hh Ht]].
    change (exact_sum _) with 18014398509481986%Z in Hh.
    change (Z.of_nat _) with 2%Z in Hh.
    assert (h = 900719925474099300%Z) as -> by lia.
    vm_compute in Ht. discriminate Ht.
Qed.

(** Why NaN is set apart: nothing is below or above a NaN, so that [min]
    and [max] keep a NaN that comes first and pass over one that comes
    later; the answer depends on the order of the values. *)
Lemma min_and_max_with_nan :
  let nan := VFloat S754_nan "nan" in
  let one := VFloat (S754_finite false 4503599627370496 (-52)) "1.0" in
  py_min [nan; one] = Returned nan
  /\ py_min [one; nan] = Returned one
  /\ py_max [nan; one] = Returned nan
  /\ py_max [one; nan] = Returned one
  /\ ~ is_minimum nan [nan; one].
Proof.
  cbv zeta. repeat split; try reflexivity.
  intros [_ H]. specialize (H _ (or_intror (or_introl eq_refl))).
  simpl in H. discriminate H.
Qed.

(** ** Slices *)

(** The slices the script takes: [l[:n]], [l[-n:]] and the empty one. *)
Lemma py_slice_head {A} (n : Z) (l : list A) :
  (0 <= n)%Z -> py_slice None (Some n) l = firstn (Z.to_nat n) l.
Proof.
  intros Hn. unfold py_slice, clamp_index. cbv zeta.
  destruct (Z.ltb_spec n 0) as [H | _]; [lia | ].
  rewrite Z.sub_0_r. cbn [Z.to_nat skipn].
  destruct (Z.le_ge_cases n (Z.of_nat (List.length l))) as [H | H].
  - rewrite Z.min_l by lia. reflexivity.
  - rewrite Z.min_r by lia. rewrite Nat2Z.id.
    rewrite firstn_all. symmetry. apply firstn_all2. lia.
Qed.

Lemma py_slice_tail {A} (n : Z) (l : list A) :
  (0 < n)%Z ->
  py_slice (Some (- n)%Z) None l = skipn (List.length l - Z.to_nat n) l.
Proof.
  intros Hn. unfold py_slice, clamp_index. cbv zeta.
  destruct (Z.ltb_spec (- n) 0) as [_ | H]; [ | lia].
  assert (E : Z.to_nat (Z.max (- n + Z.of_nat (List.length l)) 0)
              = (List.length l - Z.to_nat n)%nat) by lia.
  rewrite E. apply firstn_all2. rewrite length_skipn. lia.
Qed.

Lemma py_slice_empty {A} (l : list A) : py_slice (Some 0%Z) (Some 0%Z) l = [].
Proof.
  unfold py_slice, clamp_index. cbv zeta. cbn [Z.ltb Z.compare].
  rewrite Z.sub_diag. reflexivity.
Qed.

(** The last [k] elements of a list that has them: what is left after the
    others, in their order. *)
Lemma last_elements {A} (k : nat) (l : list A) :
  (k <= List.length l)%nat ->
  List.length (skipn (List.length l - k) l) = k
  /\ l = firstn (List.length l - k) l ++ skipn (List.length l - k) l.
Proof.
  intros H. split.
  - rewrite length_skipn. lia.
  - symmetry. apply firstn_skipn.
Qed.

(** ** The column details *)

(** [min] and [max] return on values of one numeric type, NaN or not. *)
Lemma scan_returns (beats : PyVal -> PyVal -> Outcome bool) (ok : PyVal -> Prop) :
  (forall a b, ok a -> ok b -> exists r, beats a b = Returned r) ->
  forall items kept, ok kept -> (forall v, In v items -> ok v) ->
  exists r, scan beats kept items = Returned r.
Proof.
  intros Hbeats items kept Hkept Hitems.
  destruct (scan_extreme beats (fun _ _ => True) ok) with (items := items) (kept := kept)
    as [r [Hr _]]; auto.
  - intros a b Ha Hb. destruct (Hbeats a b Ha Hb) as [r Hr].
    exists r. split; [exact Hr | destruct r; exact I].
  - exists r. exact Hr.
Qed.

Lemma non_null_kinds (c : Column) :
  in_strings (col_type c) numeric_types = true ->
  arrow_column c = true ->
  (forall v, In v (non_null (col_values c)) -> ordered_int v)
  \/ (forall v, In v (non_null (col_values c)) -> any_float v).
Proof.
  intros Hty Harrow. unfold arrow_column in Harrow.
  apply andb_true_iff in Harrow. destruct Harrow as [_ Hvals].
  destruct (numeric_type_kinds _ Hty) as [Hint | [Hint Hfloat]]; rewrite Hint in Hvals.
  - left. destruct (non_null_ints _ Hvals) as [zs [E _]]. rewrite E.
    intros v Hv. apply in_map_iff in Hv. destruct Hv as [z [<- _]]. exists z. reflexivity.
  - right. rewrite Hfloat in Hvals. destruct (non_null_floats _ Hvals) as [ps E].
    rewrite E. intros v Hv. apply in_map_iff in Hv. destruct Hv as [p [<- _]].
    exists (fst p), (snd p). reflexivity.
Qed.

Lemma py_min_max_return (l : list PyVal) :
  l <> [] ->
  (forall v, In v l -> ordered_int v) \/ (forall v, In v l -> any_float v) ->
  exists lo hi, py_min l = Returned lo /\ py_max l = Returned hi.
Proof.
  intros Hne Hkind. destruct l as [ | first rest]; [contradiction | ].
  unfold py_min, py_max.
  assert (Hint : forall beats, beats = py_lt \/ beats = py_gt ->
            forall a b, ordered_int a -> ordered_int b -> exists r, beats a b = Returned r).
  { intros beats [-> | ->] a b [x ->] [y ->]; simpl; eauto. }
  assert (Hfloat : forall beats, beats = py_lt \/ beats = py_gt ->
            forall a b, any_float a -> any_float b -> exists r, beats a b = Returned r).
  { intros beats [-> | ->] a b (f & s & ->) (g & t & ->); simpl; eauto. }
  destruct Hkind as [Hk | Hk].
  - destruct (scan_returns py_lt ordered_int (Hint _ (or_introl eq_refl)) rest first)
      as [lo Hlo]; [apply Hk; left; reflexivity | intros v Hv; apply Hk; right; exact Hv | ].
    destruct (scan_returns py_gt ordered_int (Hint _ (or_intror eq_refl)) rest first)
      as [hi Hhi]; [apply Hk; left; reflexivity | intros v Hv; apply Hk; right; exact Hv | ].
    eauto.
  - destruct (scan_returns py_lt any_float (Hfloat _ (or_introl eq_refl)) rest first)
      as [lo Hlo]; [apply Hk; left; reflexivity | intros v Hv; apply Hk; right; exact Hv | ].
    destruct (scan_returns py_gt any_float (Hfloat _ (or_intror eq_refl)) rest first)
      as [hi Hhi]; [apply Hk; left; reflexivity | intros v Hv; apply Hk; right; exact Hv | ].
    eauto.
Qed.

(** The statistics of a column as the library hands it over are computed
    without an exception, and print no sample line. *)
Lemma column_stats_returns (c : Column) :
  arrow_column c = true ->
  exists stats, column_stats c = (stats, Returned tt)
                /\ existsb is_sample stats = false.
Proof.
  intros Harrow. unfold column_stats.
  destruct (in_strings (col_type c) numeric_types) eqn:Hty;
    [ | exists []; split; reflexivity].
  cbv zeta.
  destruct (non_null (col_values c)) as [ | v nn] eqn:E;
    [exists []; split; reflexivity | ].
  assert (Hne : non_null (col_values c) <> []) by (rewrite E; discriminate).
  destruct (py_min_max_return _ Hne (non_null_kinds c Hty Harrow))
    as (lo & hi & Hlo & Hhi).
  destruct (mean_of_typed c Hty Harrow Hne) as (total & avg & Hsum & Hdiv & _).
  rewrite E in Hlo, Hhi, Hsum, Hdiv. rewrite Hlo, Hhi. cbn [lift bind print].
  destruct (Nat.ltb 1 (List.length (v :: nn))).
  - rewrite Hsum, Hdiv. eexists. split; reflexivity.
  - eexists. split; reflexivity.
Qed.

(** The details of a column, line by line. *)
Lemma column_details_lines (i : nat) (col_name : string) (c : Column) :
  arrow_column c = true ->
  exists stats,
    column_stats c = (stats, Returned tt)
    /\ existsb is_sample stats = false
    /\ column_details i col_name c
       = (details_head i col_name c
            ++ (if Nat.ltb 0 (List.length (col_values c))
                then [PLine ("  Unique values: " ++ of_nat (unique_count (col_values c)))]
                     ++ stats
                     ++ [first_line (col_values c)]
                     ++ (if Nat.ltb 10 (List.length (col_values c))
                         then [last_line (col_values c)] else [])
                else []),
          Returned tt).
Proof.
  intros Harrow.
  destruct (column_stats_returns c Harrow) as [stats [Hstats Hnone]].
  exists stats. split; [exact Hstats | ]. split; [exact Hnone | ].
  unfold column_details, details_head, first_line, last_line. cbv zeta.
  rewrite py_slice_head by lia.
  change (Some (-5)%Z) with (Some (Z.opp 5)). rewrite py_slice_tail by lia.
  change (Z.to_nat 5) with 5%nat.
  destruct (Nat.ltb 0 (List.length (col_values c))); [ | reflexivity].
  rewrite Hstats.
  destruct (Nat.ltb 10 (List.length (col_values c)));
    cbn [bind print ret fst snd app]; rewrite ?app_nil_r; reflexivity.
Qed.

(** No sample line among the statistics. *)
Lemma no_sample_in_stats (stats : list Printed) (label : string) (vs : list PyVal) :
  existsb is_sample stats = false -> ~ In (PValues label vs) stats.
Proof.
  intros Hnone Hin.
  assert (H : existsb is_sample stats = true).
  { apply existsb_exists. exists (PValues label vs). split; [exact Hin | reflexivity]. }
  congruence.
Qed.

(** Where a sample line can stand among the details of a column. *)
Lemma sample_lines (i : nat) (col_name : string) (c : Column) (label : string)
  (vs : list PyVal) :
  arrow_column c = true ->
  In (PValues label vs) (fst (column_details i col_name c))
  <-> ((0 < List.length (col_values c))%nat
       /\ PValues label vs = first_line (col_values c))
      \/ ((10 < List.length (col_values c))%nat
          /\ PValues label vs = last_line (col_values c)).
Proof.
  intros Harrow.
  destruct (column_details_lines i col_name c Harrow) as (stats & _ & Hnone & ->).
  cbn [fst]. split.
  - intros H. apply in_app_or in H. destruct H as [H | H].
    { unfold details_head in H. repeat (destruct H as [H | H]; [discriminate H | ]).
      destruct H. }
    destruct (Nat.ltb_spec 0 (List.length (col_values c))) as [Hpos | _]; [ | destruct H].
    cbn [app] in H. destruct H as [H | H]; [discriminate H | ].
    apply in_app_or in H. destruct H as [H | H].
    { exfalso. exact (no_sample_in_stats stats label vs Hnone H). }
    destruct H as [H | H]; [left; auto | ].
    destruct (Nat.ltb_spec 10 (List.length (col_values c))) as [Hlong | _]; [ | destruct H].
    destruct H as [H | []]. right. auto.
  - intros [[Hpos E] | [Hlong E]]; rewrite E; apply in_or_app; right.
    + destruct (Nat.ltb_spec 0 (List.length (col_values c))) as [_ | H]; [ | lia].
      cbn [app]. right. apply in_or_app. right. left. reflexivity.
    + destruct (Nat.ltb_spec 0 (List.length (col_values c))) as [_ | H]; [ | lia].
      cbn [app]. right. apply in_or_app. right. right.
      destruct (Nat.ltb_spec 10 (List.length (col_values c))) as [_ | H]; [ | lia].
      left. reflexivity.
Qed.

(** The two labels differ. *)
Lemma first_label_is_not_last (k : nat) :
  ("  First " ++ of_nat k ++ " values: ")%string <> "  Last 5 values: ".
Proof. cbn [append]. discriminate. Qed.

(** C5: the line "Last 5 values" is printed if and only if the column holds
    more than 10 values, and it shows the final 5 values in their order. *)
Theorem last_five_values (i : nat) (col_name : string) (c : Column) :
  arrow_column c = true ->
  ((exists vs, In (PValues "  Last 5 values: " vs) (fst (column_details i col_name c)))
   <-> (10 < List.length (col_values c))%nat)
  /\ forall vs,
       In (PValues "  Last 5 values: " vs) (fst (column_details i col_name c)) ->
       List.length vs = 5%nat /\ exists before, col_values c = before ++ vs.
Proof.
  intros Harrow.
  assert (Hlast : forall vs,
    In (PValues "  Last 5 values: " vs) (fst (column_details i col_name c))
    <-> (10 < List.length (col_values c))%nat
        /\ vs = skipn (List.length (col_values c) - 5) (col_values c)).
  { intros vs. rewrite (sample_lines i col_name c _ vs Harrow).
    unfold first_line, last_line. split.
    - intros [[_ H] | [Hlong H]].
      + apply (f_equal sample_label) in H. cbn [sample_label] in H. symmetry in H.
        exfalso. exact (first_label_is_not_last _ H).
      + apply (f_equal sample_values) in H. auto.
    - intros [Hlong ->]. right. auto. }
  split.
  - split.
    + intros [vs H]. apply Hlast in H. apply H.
    + intros Hlong. eexists. apply Hlast. split; [exact Hlong | reflexivity].
  - intros vs H. apply Hlast in H. destruct H as [Hlong ->].
    destruct (last_elements 5 (col_values c)) as [Hlen Hsplit]; [lia | ].
    split; [exact Hlen | ]. eexists. exact Hsplit.
Qed.

(** The twelve-value column: its last five values are shown. *)
Lemma last_five_values_witness :
  exists vs,
    In (PValues "  Last 5 values: " vs)
       (fst (column_details 0 "n" Samples.long_column))
    /\ List.length vs = 5%nat
    /\ exists before, col_values Samples.long_column = before ++ vs.
Proof.
  destruct (last_five_values 0 "n" Samples.long_column eq_refl) as [[_ Hif] Hshape].
  destruct (Hif ltac:(simpl; lia)) as [vs Hvs].
  exists vs. split; [exact Hvs | exact (Hshape vs Hvs)].
Defined.

(** C6, as the code has it: the line of the first values is printed for
    every column that holds at least one value, showing its first 5 values,
    or all of them when there are fewer; for a column without values no
    sample line is printed. *)
Theorem first_values_shown (i : nat) (col_name : string) (c : Column) :
  arrow_column c = true ->
  (In (first_line (col_values c)) (fst (column_details i col_name c))
   <-> (0 < List.length (col_values c))%nat)
  /\ ((exists label vs, In (PValues label vs) (fst (column_details i col_name c)))
      <-> (0 < List.length (col_values c))%nat).
Proof.
  intros Harrow. split.
  - unfold first_line at 1. rewrite (sample_lines i col_name c _ _ Harrow). split.
    + intros [[H _] | [H _]]; lia.
    + intros H. left. split; [exact H | reflexivity].
  - split.
    + intros (label & vs & H). apply (sample_lines i col_name c _ _ Harrow) in H.
      destruct H as [[H _] | [H _]]; lia.
    + intros H. exists ("  First " ++ of_nat (Nat.min 5 (List.length (col_values c)))
                        ++ " values: ")%string, (firstn 5 (col_values c)).
      apply (sample_lines i col_name c _ _ Harrow). left. split; [exact H | reflexivity].
Qed.

(** The twelve-value column: its first five values are shown. *)
Lemma first_values_shown_witness :
  In (PValues "  First 5 values: " (map VInt [10; 11; 12; 13; 14]%Z))
     (fst (column_details 0 "n" Samples.long_column)).
Proof.
  apply (first_values_shown 0 "n" Samples.long_column eq_refl). simpl. lia.
Defined.

(** C6, as stated, fails: for a column without values, as every column of a
    file without rows is, no line of first values is printed. *)
Lemma first_values_missing_for_empty_column :
  column_details 0 "id" Samples.empty_column
  = (details_head 0 "id" Samples.empty_column, Returned tt)
  /\ ~ exists label vs,
         In (PValues label vs) (fst (column_details 0 "id" Samples.empty_column)).
Proof.
  split; [reflexivity | ].
  intros (label & vs & H). simpl in H.
  repeat (destruct H as [H | H]; [discriminate H | ]). exact H.
Qed.

(** ** The data preview *)

(** The frame has as many rows as the table. *)
Lemma to_pandas_length (t : Table) : List.length (to_pandas t) = tbl_num_rows t.
Proof. unfold to_pandas. rewrite length_map, length_seq. reflexivity. Qed.

(** The head and the tail of a frame that has more than twice [n] rows. *)
Lemma head_and_tail {A} (n : nat) (l : list A) :
  (2 * n <= List.length l)%nat ->
  exists middle,
    l = firstn n l ++ middle ++ skipn (List.length l - n) l
    /\ List.length (firstn n l) = n
    /\ List.length (skipn (List.length l - n) l) = n.
Proof.
  intros H. exists (firstn (List.length l - 2 * n) (skipn n l)).
  split; [ | split].
  - rewrite <- (firstn_skipn n l) at 1. f_equal.
    rewrite <- (firstn_skipn (List.length l - 2 * n) (skipn n l)) at 1. f_equal.
    rewrite skipn_skipn. f_equal. lia.
  - apply firstn_length_le. lia.
  - rewrite length_skipn. lia.
Qed.

(** [head] and [tail] as parts of the list of rows. *)
Lemma df_head_rows (n : Z) (df : DataFrame) :
  (0 <= n)%Z -> df_head n df = firstn (Z.to_nat n) df.
Proof. intros H. unfold df_head. apply py_slice_head. exact H. Qed.

Lemma df_tail_rows (n : Z) (df : DataFrame) :
  (0 <= n <= Z.of_nat (List.length df))%Z ->
  df_tail n df = skipn (List.length df - Z.to_nat n) df.
Proof.
  intros H. unfold df_tail. destruct (Z.eqb_spec n 0) as [-> | Hn].
  - rewrite py_slice_empty. change (Z.to_nat 0) with 0%nat.
    rewrite Nat.sub_0_r. symmetry. apply skipn_all.
  - apply py_slice_tail. lia.
Qed.

(** C1, as the code has it: with R rows and a preview bound M that is a
    count, so not negative, the whole frame is printed when R <= M, and
    otherwise the header, the frame of the floor(M/2) leading rows, the
    ellipsis and the frame of the floor(M/2) trailing rows.  Of a frame
    that is printed all the rows are shown if it has at most 60 rows, and
    the first five and the last five if it has more. *)
Theorem data_preview_rows (t : Table) (max_rows : Z) :
  (0 <= max_rows)%Z ->
  (forall df : DataFrame,
      frame_view df
      = if Nat.ltb 60 (List.length df)
        then CutRows (firstn 5 df) (skipn (List.length df - 5) df) (List.length df)
        else AllRows df)
  /\
  if (Z.of_nat (tbl_num_rows t) <=? max_rows)%Z
  then data_preview (to_pandas t) max_rows
       = ([PFrame (frame_view (to_pandas t))], Returned tt)
  else exists leading middle trailing,
      to_pandas t = leading ++ middle ++ trailing
      /\ Z.of_nat (List.length leading) = (max_rows / 2)%Z
      /\ Z.of_nat (List.length trailing) = (max_rows / 2)%Z
      /\ data_preview (to_pandas t) max_rows
         = ([PLine ("Showing first " ++ of_Z (max_rows / 2) ++ " and last "
                    ++ of_Z (max_rows / 2) ++ " rows:" ++ nl);
             PFrame (frame_view leading);
             PLine "...";
             PFrame (frame_view trailing)], Returned tt).
Proof.
  intros Hm. split; [exact frame_view_rows | ].
  unfold data_preview. rewrite to_pandas_length.
  destruct (Z.leb_spec (Z.of_nat (tbl_num_rows t)) max_rows) as [Hle | Hgt];
    [reflexivity | ].
  assert (Hhalf : (0 <= max_rows / 2 /\ 2 * (max_rows / 2) <= max_rows)%Z).
  { split; [apply Z.div_pos; lia | apply Z.mul_div_le; lia]. }
  pose proof (to_pandas_length t) as Hlen.
  destruct (head_and_tail (Z.to_nat (max_rows / 2)) (to_pandas t))
    as (middle & Hsplit & Hlead & Htrail); [lia | ].
  exists (firstn (Z.to_nat (max_rows / 2)) (to_pandas t)), middle,
         (skipn (List.length (to_pandas t) - Z.to_nat (max_rows / 2)) (to_pandas t)).
  split; [exact Hsplit | ]. split; [lia | ]. split; [lia | ].
  rewrite df_head_rows by lia. rewrite df_tail_rows by lia. reflexivity.
Qed.

(** The sample table of three rows under the bounds 20 and 2. *)
Lemma data_preview_rows_witness :
  data_preview (to_pandas Samples.sample_table) 20
  = ([PFrame (AllRows (to_pandas Samples.sample_table))], Returned tt)
  /\ exists leading middle trailing,
      to_pandas Samples.sample_table = leading ++ middle ++ trailing
      /\ Z.of_nat (List.length leading) = (2 / 2)%Z
      /\ Z.of_nat (List.length trailing) = (2 / 2)%Z
      /\ data_preview (to_pandas Samples.sample_table) 2
         = ([PLine ("Showing first " ++ of_Z (2 / 2) ++ " and last "
                    ++ of_Z (2 / 2) ++ " rows:" ++ nl);
             PFrame (frame_view leading);
             PLine "...";
             PFrame (frame_view trailing)], Returned tt).
Proof.
  split.
  - apply (proj2 (data_preview_rows Samples.sample_table 20 ltac:(lia))).
  - apply (proj2 (data_preview_rows Samples.sample_table 2 ltac:(lia))).
Defined.

(** C1, as stated, fails twice.  A table of 61 rows under the bound 100 has
    R <= M, and ten of its rows are shown, not the whole table.  And a
    negative bound is no count of rows: under M = -4 the table of three rows
    has R > M, and what is printed is all the rows but the last two and all
    but the first two, not floor(M/2) = -2 rows. *)
Lemma data_preview_not_as_stated :
  ((Z.of_nat (tbl_num_rows Cases.long_table) <= 100)%Z
   /\ data_preview (to_pandas Cases.long_table) 100
      = ([PFrame (CutRows [[VInt 0]; [VInt 1]; [VInt 2]; [VInt 3]; [VInt 4]]
                          [[VInt 56]; [VInt 57]; [VInt 58]; [VInt 59]; [VInt 60]]
                          61)], Returned tt))
  /\ ((-4 < Z.of_nat (tbl_num_rows Samples.sample_table))%Z
      /\ data_preview (to_pandas Samples.sample_table) (-4)
         = ([PLine ("Showing first -2 and last -2 rows:" ++ nl);
             PFrame (AllRows [[VInt 1; VStr "Alice"]]);
             PLine "...";
             PFrame (AllRows [[VInt 3; VNone]])], Returned tt)).
Proof.
  split; split; try (vm_compute; reflexivity).
  simpl. lia.
Qed.

(** ** The whole report *)

(** Looking a name up in a schema of distinct names. *)
Lemma filter_other_names (name : string) (cols : list (string * Column)) :
  ~ In name (map fst cols) ->
  filter (fun f => String.eqb (fst f) name) cols = [].
Proof.
  induction cols as [ | f cols IH]; intros H; [reflexivity | ].
  simpl in *. destruct (String.eqb_spec (fst f) name) as [E | _].
  - exfalso. apply H. left. exact E.
  - apply IH. intros Hin. apply H. right. exact Hin.
Qed.

Lemma filter_unique_name (f : string * Column) (cols : list (string * Column)) :
  NoDup (map fst cols) -> In f cols ->
  filter (fun g => String.eqb (fst g) (fst f)) cols = [f].
Proof.
  induction cols as [ | g cols IH]; intros Hnd Hin; [destruct Hin | ].
  simpl in Hnd. inversion Hnd as [ | x l Hnotin Hnd']; subst.
  destruct Hin as [-> | Hin]; simpl.
  - rewrite String.eqb_refl. rewrite (filter_other_names _ _ Hnotin). reflexivity.
  - destruct (String.eqb_spec (fst g) (fst f)) as [E | _].
    + exfalso. apply Hnotin. rewrite E. apply in_map. exact Hin.
    + apply IH; assumption.
Qed.

(** With distinct names the lookup by name finds the column. *)
Lemma table_column_found (t : Table) (f : string * Column) :
  NoDup (column_names t) -> In f (tbl_columns t) ->
  table_column t (fst f) = Returned (snd f).
Proof.
  intros Hnd Hin. unfold table_column.
  rewrite (filter_unique_name f _ Hnd Hin). reflexivity.
Qed.

(** Text concatenation has the empty text as unit and is associative. *)
Lemma append_nil_r (s : string) : (s ++ EmptyString)%string = s.
Proof. induction s as [ | c s IH]; simpl; [ | rewrite IH]; reflexivity. Qed.

Lemma append_assoc (a b c : string) : ((a ++ b) ++ c = a ++ (b ++ c))%string.
Proof. induction a as [ | x a IH]; simpl; [ | rewrite IH]; reflexivity. Qed.

(** The loop over the columns from the column numbered [start] on. *)
Lemma columns_loop_from (t : Table) (suffix : list (string * Column)) (start : nat) :
  arrow_table t ->
  (forall f, In f suffix -> In f (tbl_columns t)) ->
  for_enumerate start (map fst suffix)
    (fun i col_name =>
       bind (lift (table_column t col_name))
            (fun col => column_details i col_name col))
  = (details_from start suffix, Returned tt).
Proof.
  intros [Hnd Hcols]. revert start.
  induction suffix as [ | f rest IH]; intros start Hin; [reflexivity | ].
  cbn [map for_enumerate details_from].
  assert (Hf : In f (tbl_columns t)) by (apply Hin; left; reflexivity).
  rewrite (table_column_found t f Hnd Hf).
  destruct (column_details_lines start (fst f) (snd f) (proj1 (Hcols f Hf)))
    as (stats & _ & _ & Hd).
  rewrite IH by (intros g Hg; apply Hin; right; exact Hg).
  cbn [lift bind]. rewrite Hd. cbn [fst]. rewrite app_nil_l. reflexivity.
Qed.

(** The column details of a well-formed table: those of every column, in
    the order of the schema. *)
Lemma columns_loop_details (t : Table) :
  arrow_table t ->
  columns_loop t = (details_from 0 (tbl_columns t), Returned tt).
Proof.
  intros H. unfold columns_loop, column_names.
  apply (columns_loop_from t (tbl_columns t) 0 H). auto.
Qed.

(** The three loops of the template generation. *)
Lemma column_assertions_loop (t : Table) (suffix : list (string * Column))
  (start : nat) (template : string) :
  NoDup (column_names t) ->
  (forall f, In f suffix -> In f (tbl_columns t)) ->
  fold_enumerate start (map fst suffix)
    (fun template i col_name =>
       and_then (table_column t col_name) (fun col =>
       let java_type := python_to_java_type (col_type col) in
       Returned (template ++ column_assertion i col_name)%string))
    template
  = Returned (template ++ column_assertions_from start (map fst suffix))%string.
Proof.
  intros Hnd. revert start template.
  induction suffix as [ | f rest IH]; intros start template Hin.
  - simpl. rewrite append_nil_r. reflexivity.
  - cbn [map fold_enumerate column_assertions_from].
    rewrite (table_column_found t f Hnd) by (apply Hin; left; reflexivity).
    cbn [and_then]. rewrite IH by (intros g Hg; apply Hin; right; exact Hg).
    rewrite append_assoc. reflexivity.
Qed.

Lemma values_collected (t : Table) (suffix : list (string * Column)) :
  NoDup (column_names t) ->
  (forall f, In f suffix -> In f (tbl_columns t)) ->
  collect (fun col_name =>
             and_then (table_column t col_name)
                      (fun col => Returned (col_values col)))
          (map fst suffix)
  = Returned (map (fun f => col_values (snd f)) suffix).
Proof.
  intros Hnd. induction suffix as [ | f rest IH]; intros Hin; [reflexivity | ].
  cbn [map collect].
  rewrite (table_column_found t f Hnd) by (apply Hin; left; reflexivity).
  cbn [and_then]. rewrite IH by (intros g Hg; apply Hin; right; exact Hg).
  reflexivity.
Qed.

Lemma value_assertions_loop (cols before suffix : list (string * Column))
  (template : string) :
  cols = before ++ suffix ->
  (forall f, In f suffix -> col_values (snd f) <> []) ->
  fold_enumerate (List.length before) (map fst suffix)
    (fun template i (col_name : string) =>
       and_then (py_index (map (fun f => col_values (snd f)) cols) i) (fun column =>
       and_then (py_index column 0) (fun val =>
       Returned (template ++ value_assertion i val)%string)))
    template
  = Returned (template ++ value_assertions_from (List.length before) suffix)%string.
Proof.
  revert before template.
  induction suffix as [ | f rest IH]; intros before template Hcols Hne.
  - simpl. rewrite append_nil_r. reflexivity.
  - cbn [map fold_enumerate value_assertions_from].
    assert (Hnth : nth_error (map (fun f => col_values (snd f)) cols)
                             (List.length before) = Some (col_values (snd f))).
    { rewrite Hcols, map_app, nth_error_app2 by (rewrite length_map; lia).
      rewrite length_map, Nat.sub_diag. reflexivity. }
    unfold py_index at 1. rewrite Hnth. cbn [and_then].
    assert (Hf : col_values (snd f) <> []) by (apply Hne; left; reflexivity).
    destruct (col_values (snd f)) as [ | v vs] eqn:E; [contradiction | ].
    cbn [py_index nth_error and_then nth].
    specialize (IH (before ++ [f]) (template ++ value_assertion (List.length before) v)%string).
    rewrite length_app, Nat.add_1_r in IH. rewrite IH.
    + rewrite append_assoc. reflexivity.
    + rewrite <- app_assoc. exact Hcols.
    + intros g Hg. apply Hne. right. exact Hg.
Qed.

(** The template of a well-formed table: the head, an assertion per column
    name, then, only when there is a row, an assertion per value of the
    first row, and the foot. *)
Lemma generate_junit_template_text (file_path : string) (t : Table) :
  arrow_table t ->
  generate_junit_template file_path t
  = Returned
      (template_head (test_name_of (last_part (split "/" file_path)))
                     (last_part (split "/" file_path))
                     (tbl_num_rows t) (List.length (column_names t))
       ++ column_assertions_from 0 (column_names t)
       ++ (if Nat.ltb 0 (tbl_num_rows t)
           then first_row_head ++ value_assertions_from 0 (tbl_columns t)
           else EmptyString)
       ++ template_foot)%string.
Proof.
  intros [Hnd Hcols]. unfold generate_junit_template. cbv zeta.
  unfold column_names at 2 3 4.
  rewrite (column_assertions_loop t (tbl_columns t) 0 _ Hnd) by auto.
  cbn [and_then].
  rewrite (values_collected t (tbl_columns t) Hnd) by auto.
  cbn [and_then].
  destruct (Nat.ltb_spec 0 (tbl_num_rows t)) as [Hrows | Hrows].
  - rewrite (value_assertions_loop (tbl_columns t) [] (tbl_columns t)).
    + cbn [and_then List.length]. rewrite !append_assoc. reflexivity.
    + reflexivity.
    + intros f Hf E. destruct (Hcols f Hf) as [_ Hlen].
      rewrite E in Hlen. simpl in Hlen. lia.
  - cbn [and_then]. rewrite !append_assoc. reflexivity.
Qed.

(** The row-group lines and the preview are printed without an exception. *)
Lemma row_groups_loop_returns (groups : list RowGroup) (start : nat) :
  exists out, for_enumerate start groups row_group_details = (out, Returned tt).
Proof.
  revert start. induction groups as [ | rg rest IH]; intros start.
  - exists []. reflexivity.
  - destruct (IH (S start)) as [out Hout].
    cbn [for_enumerate]. rewrite Hout. eexists. reflexivity.
Qed.

Lemma data_preview_returns (df : DataFrame) (max_rows : Z) :
  exists out, data_preview df max_rows = (out, Returned tt).
Proof.
  unfold data_preview. destruct (Z.leb _ max_rows); eexists; reflexivity.
Qed.


(** * Further properties of the script *)

(** ** A complete run *)

(** The statistics and the details of a well-typed column are the lines
    spelled out. *)
Lemma column_stats_lines (c : Column) :
  arrow_column c = true -> column_stats c = (stats_lines c, Returned tt).
Proof.
  intros Harrow. unfold column_stats, stats_lines.
  destruct (in_strings (col_type c) numeric_types) eqn:Hty; [ | reflexivity].
  cbv zeta.
  destruct (non_null (col_values c)) as [ | v nn] eqn:E; [reflexivity | ].
  assert (Hne : non_null (col_values c) <> []) by (rewrite E; discriminate).
  destruct (py_min_max_return _ Hne (non_null_kinds c Hty Harrow))
    as (lo & hi & Hlo & Hhi).
  destruct (mean_of_typed c Hty Harrow Hne) as (total & avg & Hsum & Hdiv & _).
  rewrite E in Hlo, Hhi, Hsum, Hdiv. rewrite Hlo, Hhi. cbn [lift bind print].
  destruct (Nat.ltb 1 (List.length (v :: nn))).
  - rewrite Hsum. cbn [and_then lift bind print]. rewrite Hdiv. reflexivity.
  - reflexivity.
Qed.

Lemma column_details_spelled_out (i : nat) (col_name : string) (c : Column) :
  arrow_column c = true ->
  column_details i col_name c = (column_lines i col_name c, Returned tt).
Proof.
  intros Harrow.
  destruct (column_details_lines i col_name c Harrow) as (stats & Hstats & _ & ->).
  rewrite (column_stats_lines c Harrow) in Hstats. injection Hstats as <-.
  reflexivity.
Qed.

Lemma details_spelled_out (t : Table) (cols : list (string * Column)) (start : nat) :
  arrow_table t ->
  (forall f, In f cols -> In f (tbl_columns t)) ->
  details_from start cols = column_lines_from start cols.
Proof.
  intros [_ Hcols]. revert start.
  induction cols as [ | f rest IH]; intros start Hin; [reflexivity | ].
  cbn [details_from column_lines_from].
  rewrite (column_details_spelled_out start (fst f) (snd f))
    by (apply Hcols, Hin; left; reflexivity).
  rewrite IH by (intros g Hg; apply Hin; right; exact Hg).
  reflexivity.
Qed.

(** X1: on a file that opens and holds a well-formed table, [inspect_parquet]
    returns, and what it has printed is the whole report, line by line: the
    opening, the schema, the metadata, the four lines of every row group,
    the details of every column in the order of the schema, the preview
    that the bound asks for, the text of the test template and the closing
    banner. *)
Theorem inspect_parquet_report (w : World) (file_path : string) (max_rows : Z)
  (pf : ParquetFile) (t : Table) :
  pq_ParquetFile w file_path = Returned pf ->
  pq_read_table w file_path = Returned t ->
  arrow_table t ->
  inspect_parquet w file_path max_rows
  = (report_of file_path pf t
       (row_group_lines 0 (row_groups (metadata pf)))
       (column_lines_from 0 (tbl_columns t))
       (preview_lines (to_pandas t) max_rows)
       (template_text file_path t),
     Returned tt).
Proof.
  intros Hpf Ht Hok.
  unfold inspect_parquet. cbv zeta. rewrite Hpf, Ht. run_step.
  change (for_enumerate 0 (column_names t) _) with (columns_loop t).
  rewrite row_group_details_lines, data_preview_lines.
  rewrite (columns_loop_details t Hok).
  rewrite (details_spelled_out t (tbl_columns t) 0 Hok) by auto.
  rewrite (generate_junit_template_text file_path t Hok). run_step.
  unfold report_of, report_opening, template_text. cbn [app].
  rewrite <- ?app_assoc. reflexivity.
Qed.

(** The sample file. *)
Lemma inspect_parquet_report_witness :
  inspect_parquet Samples.sample_world "sample_data.parquet" 20
  = (report_of "sample_data.parquet" Samples.sample_file Samples.sample_table
       (row_group_lines 0 (row_groups (metadata Samples.sample_file)))
       (column_lines_from 0 (tbl_columns Samples.sample_table))
       (preview_lines (to_pandas Samples.sample_table) 20)
       (template_text "sample_data.parquet" Samples.sample_table),
     Returned tt).
Proof.
  apply (inspect_parquet_report Samples.sample_world "sample_data.parquet" 20
           Samples.sample_file Samples.sample_table).
  - reflexivity.
  - reflexivity.
  - split.
    + repeat constructor; simpl; intuition discriminate.
    + intros f [<- | [<- | []]]; split; reflexivity.
Defined.

(** ** Where a [FileNotFoundError] can come from *)

(** If one of the two calls that open the file raises, the three opening
    lines are all that is printed and the exception goes on to the caller. *)
Lemma inspect_parquet_open_failure (w : World) (file_path : string) (max_rows : Z)
  (e : PyExc) :
  pq_ParquetFile w file_path = Raised e
  \/ (exists pf, pq_ParquetFile w file_path = Returned pf
                 /\ pq_read_table w file_path = Raised e) ->
  inspect_parquet w file_path max_rows = (report_opening file_path, Raised e).
Proof.
  intros [H | [pf [Hpf Ht]]]; unfold inspect_parquet.
  - rewrite H. reflexivity.
  - rewrite Hpf, Ht. reflexivity.
Qed.

(** Sequencing keeps a computation free of [FileNotFoundError]. *)
Lemma and_then_plain {A B} (o : Outcome A) (k : A -> Outcome B) :
  plain_failure o -> (forall a, plain_failure (k a)) -> plain_failure (and_then o k).
Proof. destruct o as [a | e]; simpl; auto. Qed.

Lemma bind_plain {A B} (m : Run A) (k : A -> Run B) :
  plain_failure (snd m) -> (forall a, plain_failure (snd (k a))) ->
  plain_failure (snd (bind m k)).
Proof.
  destruct m as [out [a | e]]; simpl; [ | auto].
  intros _ H. specialize (H a). destruct (k a). exact H.
Qed.

Lemma for_enumerate_plain {A} (body : nat -> A -> Run unit) (xs : list A) :
  (forall i x, plain_failure (snd (body i x))) ->
  forall start, plain_failure (snd (for_enumerate start xs body)).
Proof.
  intros H. induction xs as [ | x xs IH]; intros start; [exact I | ].
  cbn [for_enumerate]. apply bind_plain; [apply H | intros _; apply IH].
Qed.

Lemma fold_enumerate_plain {A T} (step : T -> nat -> A -> Outcome T) (xs : list A) :
  (forall acc i x, plain_failure (step acc i x)) ->
  forall start acc, plain_failure (fold_enumerate start xs step acc).
Proof.
  intros H. induction xs as [ | x xs IH]; intros start acc; [exact I | ].
  cbn [fold_enumerate]. apply and_then_plain; [apply H | intros a; apply IH].
Qed.

Lemma collect_plain {A B} (f : A -> Outcome B) (xs : list A) :
  (forall x, plain_failure (f x)) -> plain_failure (collect f xs).
Proof.
  intros H. induction xs as [ | x xs IH]; [exact I | ].
  cbn [collect]. apply and_then_plain; [apply H | intros y].
  apply and_then_plain; [exact IH | intros ys; exact I].
Qed.

(** The steps of the report raise no [FileNotFoundError]. *)
Lemma table_column_plain (t : Table) (name : string) :
  plain_failure (table_column t name).
Proof.
  unfold table_column. destruct (filter _ _) as [ | f [ | g l]]; exact I.
Qed.

Lemma py_index_plain {A} (l : list A) (i : nat) : plain_failure (py_index l i).
Proof. unfold py_index. destruct (nth_error l i); exact I. Qed.

Lemma scan_plain (beats : PyVal -> PyVal -> Outcome bool) :
  (forall a b, plain_failure (beats a b)) ->
  forall items kept, plain_failure (scan beats kept items).
Proof.
  intros H items. induction items as [ | item rest IH]; intros kept; [exact I | ].
  cbn [scan]. apply and_then_plain; [apply H | intros b; apply IH].
Qed.

Lemma py_lt_plain (a b : PyVal) : plain_failure (py_lt a b).
Proof. destruct a, b; exact I. Qed.

Lemma py_gt_plain (a b : PyVal) : plain_failure (py_gt a b).
Proof. destruct a, b; exact I. Qed.

Lemma float_of_int_plain (z : Z) : plain_failure (float_of_int z).
Proof. unfold float_of_int. destruct (PyFloat.of_int z); exact I. Qed.

Lemma py_add_plain (acc : PyNum) (v : PyVal) : plain_failure (py_add acc v).
Proof.
  destruct acc, v; try exact I; cbn [py_add];
    (apply and_then_plain; [apply float_of_int_plain | intros; exact I]).
Qed.

Lemma sum_from_plain (l : list PyVal) (acc : PyNum) : plain_failure (sum_from acc l).
Proof.
  revert acc. induction l as [ | v l IH]; intros acc; [exact I | ].
  cbn [sum_from]. apply and_then_plain; [apply py_add_plain | intros a; apply IH].
Qed.

Lemma py_div_len_plain (total : PyNum) (n : nat) : plain_failure (py_div_len total n).
Proof.
  destruct total; cbn [py_div_len].
  - destruct (PyFloat.int_true_div _ _); exact I.
  - apply and_then_plain; [apply float_of_int_plain | intros; exact I].
Qed.

Lemma column_stats_plain (c : Column) : plain_failure (snd (column_stats c)).
Proof.
  unfold column_stats. destruct (in_strings _ _); [ | exact I]. cbv zeta.
  destruct (non_null (col_values c)) as [ | v nn]; [exact I | ].
  apply bind_plain.
  { apply scan_plain. apply py_lt_plain. }
  intros lo. apply bind_plain; [exact I | intros _].
  apply bind_plain.
  { apply scan_plain. apply py_gt_plain. }
  intros hi. apply bind_plain; [exact I | intros _].
  destruct (Nat.ltb _ _); [ | exact I].
  apply bind_plain; [apply sum_from_plain | intros total].
  apply bind_plain; [apply py_div_len_plain | intros avg; exact I].
Qed.

Lemma column_details_plain (i : nat) (col_name : string) (c : Column) :
  plain_failure (snd (column_details i col_name c)).
Proof.
  unfold column_details. cbv zeta.
  repeat (apply bind_plain; [exact I | intros _]).
  destruct (Nat.ltb 0 _); [ | exact I].
  apply bind_plain; [exact I | intros _].
  apply bind_plain; [apply column_stats_plain | intros _].
  apply bind_plain; [exact I | intros _].
  destruct (Nat.ltb 10 _); exact I.
Qed.

Lemma columns_loop_plain (t : Table) : plain_failure (snd (columns_loop t)).
Proof.
  unfold columns_loop. apply for_enumerate_plain. intros i x.
  apply bind_plain; [apply table_column_plain | intros c; apply column_details_plain].
Qed.

Lemma generate_junit_template_plain (file_path : string) (t : Table) :
  plain_failure (generate_junit_template file_path t).
Proof.
  unfold generate_junit_template. cbv zeta.
  apply and_then_plain.
  { apply fold_enumerate_plain. intros acc i x.
    apply and_then_plain; [apply table_column_plain | intros; exact I]. }
  intros template. apply and_then_plain.
  { apply collect_plain. intros x.
    apply and_then_plain; [apply table_column_plain | intros; exact I]. }
  intros values. apply and_then_plain; [ | intros; exact I].
  destruct (Nat.ltb 0 _); [ | exact I].
  apply fold_enumerate_plain. intros acc i x.
  apply and_then_plain; [apply py_index_plain | intros column].
  apply and_then_plain; [apply py_index_plain | intros; exact I].
Qed.

(** An inspection that ends in a [FileNotFoundError] has stopped at one of
    the two calls that open the file. *)
Lemma file_not_found_comes_from_opening (w : World) (file_path : string)
  (max_rows : Z) (out : list Printed) (msg : string) :
  inspect_parquet w file_path max_rows = (out, Raised (FileNotFoundError msg)) ->
  out = report_opening file_path
  /\ (pq_ParquetFile w file_path = Raised (FileNotFoundError msg)
      \/ (exists pf, pq_ParquetFile w file_path = Returned pf)
         /\ pq_read_table w file_path = Raised (FileNotFoundError msg)).
Proof.
  unfold inspect_parquet. cbv zeta.
  destruct (pq_ParquetFile w file_path) as [pf | e] eqn:Hpf.
  2:{ run_step. intros H. injection H as <- ->. split; [reflexivity | left; reflexivity]. }
  destruct (pq_read_table w file_path) as [t | e] eqn:Ht.
  2:{ run_step. intros H. injection H as <- ->.
      split; [reflexivity | right; split; [eauto | reflexivity]]. }
  run_step.
  change (for_enumerate 0 (column_names t) _) with (columns_loop t).
  destruct (row_groups_loop_returns (row_groups (metadata pf)) 0) as [groups ->].
  run_step.
  pose proof (columns_loop_plain t) as Hc.
  destruct (columns_loop t) as [cols [[] | [m | m]]]; run_step;
    [ | destruct Hc | intros H; discriminate H].
  destruct (data_preview_returns (to_pandas t) max_rows) as [preview ->].
  run_step.
  pose proof (generate_junit_template_plain file_path t) as Hg.
  destruct (generate_junit_template file_path t) as [template | [m | m]]; run_step;
    [intros H; discriminate H | destruct Hg | intros H; discriminate H].
Qed.

(** X2: [inspect_parquet] ends in a [FileNotFoundError] exactly when
    [pq.ParquetFile] raises it, or [pq.ParquetFile] returns and
    [pq.read_table] raises it; no later step of the report raises one.  The
    three opening lines are then all that has been printed. *)
Theorem file_not_found_only_from_opening (w : World) (file_path : string)
  (max_rows : Z) (msg : string) :
  (snd (inspect_parquet w file_path max_rows) = Raised (FileNotFoundError msg)
   <-> (pq_ParquetFile w file_path = Raised (FileNotFoundError msg)
        \/ ((exists pf, pq_ParquetFile w file_path = Returned pf)
            /\ pq_read_table w file_path = Raised (FileNotFoundError msg))))
  /\ (snd (inspect_parquet w file_path max_rows) = Raised (FileNotFoundError msg) ->
      fst (inspect_parquet w file_path max_rows) = report_opening file_path).
Proof.
  assert (H : snd (inspect_parquet w file_path max_rows) = Raised (FileNotFoundError msg) ->
              fst (inspect_parquet w file_path max_rows) = report_opening file_path
              /\ (pq_ParquetFile w file_path = Raised (FileNotFoundError msg)
                  \/ ((exists pf, pq_ParquetFile w file_path = Returned pf)
                      /\ pq_read_table w file_path = Raised (FileNotFoundError msg)))).
  { intros Hsnd.
    destruct (inspect_parquet w file_path max_rows) as [out r] eqn:Hrun.
    cbn [snd] in Hsnd. subst r. cbn [fst].
    exact (file_not_found_comes_from_opening w file_path max_rows out msg Hrun). }
  split; [split | ].
  - intros Hsnd. exact (proj2 (H Hsnd)).
  - intros [Hpf | [[pf Hpf] Ht]].
    + rewrite (inspect_parquet_open_failure w file_path max_rows _ (or_introl Hpf)).
      reflexivity.
    + rewrite (inspect_parquet_open_failure w file_path max_rows (FileNotFoundError msg)).
      * reflexivity.
      * right. exists pf. split; assumption.
  - intros Hsnd. exact (proj1 (H Hsnd)).
Qed.

(** ** Column names that are not all different *)

(** The fields a lookup by name finds are as many as the occurrences of the
    name in the schema. *)
Lemma lookup_count (name : string) (cols : list (string * Column)) :
  List.length (filter (fun f => String.eqb (fst f) name) cols)
  = count_occ string_dec (map fst cols) name.
Proof.
  induction cols as [ | f cols IH]; [reflexivity | ].
  cbn [filter map count_occ].
  destruct (String.eqb_spec (fst f) name) as [E | N];
    destruct (string_dec (fst f) name) as [E' | N']; try contradiction.
  - cbn [List.length]. rewrite IH. reflexivity.
  - exact IH.
Qed.

(** The lookup succeeds on a name that occurs once and raises on a name that
    occurs more often. *)
Lemma table_column_by_count (t : Table) (name : string) :
  In name (column_names t) ->
  if Nat.ltb 1 (count_occ string_dec (column_names t) name)
  then exists msg, table_column t name = Raised (PyException msg)
  else exists c, table_column t name = Returned c.
Proof.
  intros Hin. apply (count_occ_In string_dec) in Hin.
  unfold column_names in *. rewrite <- lookup_count in *.
  unfold table_column.
  destruct (filter _ (tbl_columns t)) as [ | f [ | g l]]; simpl in *.
  - lia.
  - eauto.
  - eauto.
Qed.

(** Among names that are not all different, one occurs twice. *)
Lemma repeated_name (names : list string) :
  ~ NoDup names ->
  exists name, In name names /\ (1 < count_occ string_dec names name)%nat.
Proof.
  induction names as [ | x names IH]; intros H.
  - exfalso. apply H. constructor.
  - destruct (in_dec string_dec x names) as [Hin | Hnot].
    + exists x. split; [left; reflexivity | ].
      apply (count_occ_In string_dec) in Hin.
      rewrite count_occ_cons_eq by reflexivity. lia.
    + destruct IH as [name [Hname Hcount]].
      { intros Hnd. apply H. constructor; assumption. }
      exists name. split; [right; exact Hname | ].
      cbn [count_occ]. destruct (string_dec x name); lia.
Qed.

(** A loop that looks every name up raises at the first repeated name. *)
Lemma fold_enumerate_lookup_raises {T} (t : Table)
  (k : T -> nat -> string -> Column -> Outcome T) (names : list string) :
  (forall name, In name names -> In name (column_names t)) ->
  (exists name, In name names
                /\ (1 < count_occ string_dec (column_names t) name)%nat) ->
  (forall acc i name c, exists acc', k acc i name c = Returned acc') ->
  forall start acc,
  exists name msg,
    In name names
    /\ (1 < count_occ string_dec (column_names t) name)%nat
    /\ table_column t name = Raised (PyException msg)
    /\ fold_enumerate start names
         (fun acc i name => and_then (table_column t name) (k acc i name)) acc
       = Raised (PyException msg).
Proof.
  intros Hsub Hdup Hk.
  induction names as [ | x names IH]; intros start acc.
  - destruct Hdup as [name [[] _]].
  - cbn [fold_enumerate].
    pose proof (table_column_by_count t x (Hsub x (or_introl eq_refl))) as Hx.
    destruct (Nat.ltb_spec 1 (count_occ string_dec (column_names t) x)) as [Hmany | Hone].
    + destruct Hx as [msg Hx]. exists x, msg. rewrite Hx.
      split; [left; reflexivity | ]. split; [exact Hmany | ]. split; reflexivity.
    + destruct Hx as [c Hx]. rewrite Hx. cbn [and_then].
      destruct (Hk acc start x c) as [acc' ->]. cbn [and_then].
      destruct IH with (start := S start) (acc := acc')
        as (name & msg & Hin & Hcount & Hraise & Hfold).
      * intros name Hname. apply Hsub. right. exact Hname.
      * destruct Hdup as [name [[<- | Hname] Hcount]]; [lia | eauto].
      * exists name, msg. split; [right; exact Hin | ]. split; [exact Hcount | ].
        split; [exact Hraise | exact Hfold].
Qed.

(** X4: [generate_junit_template] returns no template for a table in which
    two columns bear the same name: it raises the exception of the lookup
    of the first repeated name. *)
Theorem generate_junit_template_duplicate_names (file_path : string) (t : Table) :
  ~ NoDup (column_names t) ->
  exists name msg,
    In name (column_names t)
    /\ (1 < count_occ string_dec (column_names t) name)%nat
    /\ table_column t name = Raised (PyException msg)
    /\ generate_junit_template file_path t = Raised (PyException msg).
Proof.
  intros Hdup. unfold generate_junit_template. cbv zeta.
  destruct (fold_enumerate_lookup_raises t
              (fun template i col_name col =>
                 let java_type := python_to_java_type (col_type col) in
                 Returned (template ++ column_assertion i col_name)%string)
              (column_names t))
    with (start := 0%nat)
         (acc := template_head (test_name_of (last_part (split "/" file_path)))
                   (last_part (split "/" file_path)) (tbl_num_rows t)
                   (List.length (column_names t)))
    as (name & msg & Hin & Hcount & Hraise & Hfold).
  - auto.
  - apply repeated_name. exact Hdup.
  - intros acc i name c. eexists. reflexivity.
  - exists name, msg. split; [exact Hin | ]. split; [exact Hcount | ].
    split; [exact Hraise | ]. cbv beta zeta in Hfold. rewrite Hfold. reflexivity.
Qed.

(** The same table. *)
Lemma generate_junit_template_duplicate_names_witness :
  exists name msg,
    In name (column_names Cases.twice_id)
    /\ (1 < count_occ string_dec (column_names Cases.twice_id) name)%nat
    /\ table_column Cases.twice_id name = Raised (PyException msg)
    /\ generate_junit_template "twice.parquet" Cases.twice_id
       = Raised (PyException msg).
Proof.
  apply (generate_junit_template_duplicate_names "twice.parquet" Cases.twice_id).
  intros H. inversion H as [ | x l Hnot _]. apply Hnot. left. reflexivity.
Defined.

(** ** The text of the template *)

(** X5: for a table whose column names differ and, if it has a row, whose
    columns all have a first value, the template is the head, carrying the
    test name, the file name, the row count and the column count, then one
    assertion per column name, then, only when the table has a row, the
    first-row section with one assertion per column, and the foot. *)
Theorem junit_template_shape (file_path : string) (t : Table) :
  NoDup (column_names t) ->
  ((0 < tbl_num_rows t)%nat ->
   forall f, In f (tbl_columns t) -> col_values (snd f) <> []) ->
  generate_junit_template file_path t
  = Returned
      (template_head (test_name_of (last_part (split "/" file_path)))
                     (last_part (split "/" file_path))
                     (tbl_num_rows t) (List.length (column_names t))
       ++ column_assertions_from 0 (column_names t)
       ++ (if Nat.ltb 0 (tbl_num_rows t)
           then first_row_head ++ value_assertions_from 0 (tbl_columns t)
           else EmptyString)
       ++ template_foot)%string.
Proof.
  intros Hnd Hfirst. unfold generate_junit_template. cbv zeta.
  unfold column_names at 2 3 4.
  rewrite (column_assertions_loop t (tbl_columns t) 0 _ Hnd) by auto.
  cbn [and_then].
  rewrite (values_collected t (tbl_columns t) Hnd) by auto.
  cbn [and_then].
  destruct (Nat.ltb_spec 0 (tbl_num_rows t)) as [Hrows | Hrows].
  - rewrite (value_assertions_loop (tbl_columns t) [] (tbl_columns t)).
    + cbn [and_then List.length]. rewrite !append_assoc. reflexivity.
    + reflexivity.
    + exact (Hfirst Hrows).
  - cbn [and_then]. rewrite !append_assoc. reflexivity.
Qed.

(** A table without rows, and the sample table. *)
Lemma junit_template_shape_witness :
  generate_junit_template "no_rows.parquet" Cases.no_rows
  = Returned
      (template_head "NoRows" "no_rows.parquet" 0 2
       ++ column_assertion 0 "id" ++ column_assertion 1 "name"
       ++ template_foot)%string
  /\ generate_junit_template "sample_data.parquet" Samples.sample_table
     = Returned
         (template_head "SampleData" "sample_data.parquet" 3 2
          ++ column_assertion 0 "id" ++ column_assertion 1 "name"
          ++ first_row_head
          ++ value_assertion 0 (VInt 1) ++ value_assertion 1 (VStr "Alice")
          ++ template_foot)%string.
Proof.
  split.
  - rewrite (junit_template_shape "no_rows.parquet" Cases.no_rows).
    + reflexivity.
    + repeat constructor; simpl; intuition discriminate.
    + simpl. lia.
  - rewrite (junit_template_shape "sample_data.parquet" Samples.sample_table).
    + reflexivity.
    + repeat constructor; simpl; intuition discriminate.
    + intros _ f [<- | [<- | []]]; discriminate.
Defined.

(** X6: the template depends on the path only through the file name, the
    part after the last slash: a file gets the same template whatever the
    directory it lies in. *)
Theorem template_ignores_directory (dir name : string) (t : Table) :
  contains "/" name = false ->
  generate_junit_template (dir ++ "/" ++ name) t = generate_junit_template name t.
Proof.
  intros H. unfold generate_junit_template. cbv zeta.
  rewrite (file_name_of_path dir name H).
  assert (E : last_part (split "/" name) = name).
  { unfold last_part. rewrite (split_without_sep _ _ H). reflexivity. }
  rewrite E. reflexivity.
Qed.

(** The sample file in a directory of test data. *)
Lemma template_ignores_directory_witness :
  generate_junit_template ("src/test/data" ++ "/" ++ "sample_data.parquet")
                          Samples.sample_table
  = generate_junit_template "sample_data.parquet" Samples.sample_table.
Proof.
  apply (template_ignores_directory "src/test/data" "sample_data.parquet"
           Samples.sample_table).
  reflexivity.
Defined.

(** *** The name of the test method *)

(** Tests on all the characters of a text. *)
Lemma all_chars_app (p : ascii -> bool) (a b : string) :
  all_chars p (a ++ b) = andb (all_chars p a) (all_chars p b).
Proof.
  induction a as [ | c a IH]; [reflexivity | ].
  cbn [append all_chars]. rewrite IH. apply andb_assoc.
Qed.

Lemma all_chars_weaken (p q : ascii -> bool) (s : string) :
  (forall c, p c = true -> q c = true) -> all_chars p s = true -> all_chars q s = true.
Proof.
  intros H. induction s as [ | c s IH]; [reflexivity | ].
  cbn [all_chars]. rewrite !andb_true_iff. intros [Hc Hs]. auto.
Qed.

Lemma all_chars_occurrence (p : ascii -> bool) (c : ascii) (s : string) :
  all_chars p s = true -> Occurs (String c EmptyString) s -> p c = true.
Proof.
  intros H (pre & post & ->). rewrite all_chars_app in H.
  apply andb_true_iff in H. destruct H as [_ H].
  cbn [append all_chars] in H. apply andb_true_iff in H. tauto.
Qed.

(** The pieces [split] returns hold no separator. *)
Lemma split_pieces (sep : ascii) (s : string) :
  Forall (fun piece => all_chars (fun c => negb (Ascii.eqb c sep)) piece = true)
         (split sep s).
Proof.
  induction s as [ | c s IH]; cbn [split].
  - constructor; [reflexivity | constructor].
  - destruct (Ascii.eqb c sep) eqn:E.
    + constructor; [reflexivity | exact IH].
    + destruct (split sep s) as [ | piece pieces].
      * constructor; [cbn [all_chars]; rewrite E; reflexivity | constructor].
      * inversion IH as [ | x l Hpiece Hpieces]; subst.
        constructor; [cbn [all_chars]; rewrite E; exact Hpiece | exact Hpieces].
Qed.

(** Changing the case of a letter makes no underscore. *)
Lemma lower_char_underscore (c : ascii) :
  not_underscore c = true -> not_underscore (lower_char c) = true.
Proof.
  destruct c as [[] [] [] [] [] [] [] []]; intros H; try reflexivity; discriminate H.
Qed.

Lemma upper_char_underscore (c : ascii) :
  not_underscore c = true -> not_underscore (upper_char c) = true.
Proof.
  destruct c as [[] [] [] [] [] [] [] []]; intros H; try reflexivity; discriminate H.
Qed.

Lemma lower_underscore (s : string) :
  all_chars not_underscore s = true -> all_chars not_underscore (lower s) = true.
Proof.
  induction s as [ | c s IH]; [reflexivity | ].
  cbn [lower all_chars]. rewrite !andb_true_iff. intros [Hc Hs].
  split; [apply lower_char_underscore; exact Hc | apply IH; exact Hs].
Qed.

Lemma capitalize_underscore (s : string) :
  all_chars not_underscore s = true -> all_chars not_underscore (capitalize s) = true.
Proof.
  destruct s as [ | c s]; [reflexivity | ].
  cbn [capitalize all_chars]. rewrite !andb_true_iff. intros [Hc Hs].
  split; [apply upper_char_underscore; exact Hc | apply lower_underscore; exact Hs].
Qed.

Lemma join_underscore (parts : list string) :
  Forall (fun piece => all_chars not_underscore piece = true) parts ->
  all_chars not_underscore (join EmptyString parts) = true.
Proof.
  induction 1 as [ | p parts Hp _ IH]; [reflexivity | ].
  cbn [join]. destruct parts as [ | q parts]; [exact Hp | ].
  cbn [append]. rewrite all_chars_app, Hp. exact IH.
Qed.

(** X7: the name of the test method, made of the capitalized pieces of the
    file name between its underscores, holds no underscore, whatever the
    file name. *)
Theorem test_name_has_no_underscore (file_name : string) :
  ~ Occurs "_" (test_name_of file_name).
Proof.
  intros H.
  assert (Hall : all_chars not_underscore (test_name_of file_name) = true).
  { unfold test_name_of. apply join_underscore.
    apply Forall_map.
    eapply Forall_impl; [ | apply split_pieces].
    intros piece Hp. apply capitalize_underscore. exact Hp. }
  pose proof (all_chars_occurrence _ _ _ Hall H) as E. discriminate E.
Qed.

(** ** Columns without statistics *)

(** X8: for a column whose type is not one of int32, int64, float, double,
    and for a column of any type that holds nulls only, no Min, Max or
    Average line is printed and nothing is raised, whatever the values: the
    details are the four opening lines and, if the column is not empty, the
    count of unique values and the sample lines. *)
Theorem column_without_statistics (i : nat) (col_name : string) (c : Column) :
  in_strings (col_type c) numeric_types = false \/ non_null (col_values c) = [] ->
  column_stats c = ([], Returned tt)
  /\ column_details i col_name c
     = (details_head i col_name c
          ++ (if Nat.ltb 0 (List.length (col_values c))
              then [PLine ("  Unique values: " ++ of_nat (unique_count (col_values c)));
                    first_line (col_values c)]
                   ++ (if Nat.ltb 10 (List.length (col_values c))
                       then [last_line (col_values c)] else [])
              else []),
        Returned tt).
Proof.
  intros H.
  assert (Hstats : column_stats c = ([], Returned tt)).
  { unfold column_stats. destruct H as [-> | H]; [reflexivity | ].
    rewrite H. destruct (in_strings _ _); reflexivity. }
  split; [exact Hstats | ].
  unfold column_details, details_head, first_line, last_line. cbv zeta.
  rewrite py_slice_head by lia.
  change (Some (-5)%Z) with (Some (Z.opp 5)). rewrite py_slice_tail by lia.
  change (Z.to_nat 5) with 5%nat.
  rewrite Hstats.
  destruct (Nat.ltb 0 (List.length (col_values c))); [ | reflexivity].
  destruct (Nat.ltb 10 (List.length (col_values c))); reflexivity.
Qed.

(** An int64 column of three nulls, and a column of strings. *)
Lemma column_without_statistics_witness :
  (column_stats Cases.null_column = ([], Returned tt)
   /\ column_details 0 "id" Cases.null_column
      = (details_head 0 "id" Cases.null_column
           ++ [PLine "  Unique values: 0"; first_line [VNone; VNone; VNone]],
         Returned tt))
  /\ (column_stats Cases.text_column = ([], Returned tt)
      /\ column_details 1 "name" Cases.text_column
         = (details_head 1 "name" Cases.text_column
              ++ [PLine "  Unique values: 1";
                  first_line [VStr "Alice"; VNone; VStr "Alice"]],
            Returned tt)).
Proof.
  split.
  - apply (column_without_statistics 0 "id" Cases.null_column). right. reflexivity.
  - apply (column_without_statistics 1 "name" Cases.text_column). left. reflexivity.
Defined.

(** ** The counts of a column *)

Lemma null_and_non_null (l : list PyVal) :
  (List.length (filter is_none l) + List.length (non_null l) = List.length l)%nat.
Proof.
  unfold non_null. induction l as [ | v l IH]; [reflexivity | ].
  cbn [filter]. destruct (is_none v); cbn [negb List.length]; lia.
Qed.

Lemma nodup_length_le {A} (dec : forall x y : A, {x = y} + {x <> y}) (l : list A) :
  (List.length (nodup dec l) <= List.length l)%nat.
Proof.
  induction l as [ | x l IH]; [reflexivity | ].
  cbn [nodup]. destruct (in_dec dec x l); cbn [List.length]; lia.
Qed.

(** X9: the counts printed for a column fit together: the null count and
    the number of non-null values add up to the length, the count of unique
    values is at most the length less the null count, and it is 0 exactly
    when every value is null. *)
Theorem unique_count_bounds (c : Column) :
  (col_null_count c + List.length (non_null (col_values c)) = col_length c)%nat
  /\ (unique_count (col_values c) + col_null_count c <= col_length c)%nat
  /\ (unique_count (col_values c) = 0%nat <-> non_null (col_values c) = []).
Proof.
  unfold col_null_count, col_length, unique_count.
  pose proof (null_and_non_null (col_values c)) as Hsum.
  pose proof (nodup_length_le string_dec (map py_str (non_null (col_values c)))) as Hle.
  rewrite length_map in Hle.
  split; [exact Hsum | ]. split; [lia | ].
  split.
  - intros H. destruct (non_null (col_values c)) as [ | v nn]; [reflexivity | ].
    exfalso. apply length_zero_iff_nil in H.
    assert (Hin : In (py_str v) (nodup string_dec (map py_str (v :: nn)))).
    { apply nodup_In. left. reflexivity. }
    rewrite H in Hin. destruct Hin.
  - intros ->. reflexivity.
Qed.

(** The text of an [int] tells which [int] it is. *)
Lemma to_int_proper (z : Z) :
  Z.to_int z <> Decimal.Pos Decimal.Nil /\ Z.to_int z <> Decimal.Neg Decimal.Nil.
Proof.
  destruct z as [ | p | p]; simpl; split; try discriminate;
    intros H; injection H as H;
    apply (f_equal Pos.of_uint) in H;
    rewrite DecimalPos.Unsigned.of_to in H; discriminate H.
Qed.

Lemma of_Z_injective (x y : Z) : of_Z x = of_Z y -> x = y.
Proof.
  unfold of_Z. intros H.
  apply (f_equal NilZero.int_of_string) in H.
  destruct (to_int_proper x) as [Hx1 Hx2]. destruct (to_int_proper y) as [Hy1 Hy2].
  rewrite !NilZero.isi in H by assumption.
  injection H as H. apply (f_equal Z.of_int) in H.
  rewrite !DecimalZ.of_to in H. exact H.
Qed.

(** Dropping repetitions before or after a one-to-one renaming. *)
Lemma nodup_map_injective {A B} (decA : forall x y : A, {x = y} + {x <> y})
  (decB : forall x y : B, {x = y} + {x <> y}) (f : A -> B) (l : list A) :
  (forall x y, f x = f y -> x = y) ->
  nodup decB (map f l) = map f (nodup decA l).
Proof.
  intros Hinj. induction l as [ | x l IH]; [reflexivity | ].
  cbn [map nodup].
  destruct (in_dec decB (f x) (map f l)) as [Hin | Hnot];
    destruct (in_dec decA x l) as [Hin' | Hnot'].
  - exact IH.
  - exfalso. apply in_map_iff in Hin. destruct Hin as [y [E Hy]].
    apply Hinj in E. subst y. contradiction.
  - exfalso. apply Hnot. apply in_map. exact Hin'.
  - cbn [map]. rewrite IH. reflexivity.
Qed.

Lemma non_null_int_values (values : list PyVal) :
  forallb int_or_none values = true ->
  non_null values = map VInt (int_values values).
Proof.
  unfold non_null, int_values.
  induction values as [ | v l IH]; intros H; [reflexivity | ].
  cbn [forallb] in H. apply andb_true_iff in H. destruct H as [Hv Hl].
  destruct v; try discriminate Hv; cbn [filter flat_map is_none negb app map];
    rewrite (IH Hl); reflexivity.
Qed.

(** X10: in a column of [int]s and nulls, the count of unique values,
    though taken over the texts of the values, is the number of different
    [int]s in the column: no two [int]s have the same text. *)
Theorem unique_count_of_ints (values : list PyVal) :
  forallb int_or_none values = true ->
  unique_count values = List.length (nodup Z.eq_dec (int_values values)).
Proof.
  intros H. unfold unique_count. rewrite (non_null_int_values values H).
  rewrite map_map. cbn [py_str].
  rewrite (nodup_map_injective Z.eq_dec string_dec of_Z _ of_Z_injective).
  apply length_map.
Qed.

(** Six values, two of them different [int]s. *)
Lemma unique_count_of_ints_witness :
  unique_count [VInt 7; VNone; VInt 3; VInt 7; VInt 3; VInt 7] = 2%nat.
Proof.
  apply (unique_count_of_ints [VInt 7; VNone; VInt 3; VInt 7; VInt 3; VInt 7]).
  reflexivity.
Defined.

(** ** A NaN at the head of a column *)

(** Nothing beats a NaN that [min] or [max] holds. *)
Lemma scan_keeps_nan (beats : PyVal -> PyVal -> Outcome bool) (f : spec_float)
  (shown : string) (items : list PyVal) :
  (forall g s, beats (VFloat g s) (VFloat f shown) = Returned false) ->
  (forall v, In v items -> any_float v) ->
  scan beats (VFloat f shown) items = Returned (VFloat f shown).
Proof.
  intros Hbeats. induction items as [ | item rest IH]; intros Hitems; [reflexivity | ].
  cbn [scan]. destruct (Hitems item (or_introl eq_refl)) as (g & s & ->).
  rewrite Hbeats. cbn [and_then]. apply IH.
  intros v Hv. apply Hitems. right. exact Hv.
Qed.

Lemma nothing_below_nan (f g : spec_float) :
  PyFloat.is_nan f = true -> PyFloat.ltb g f = false /\ PyFloat.ltb f g = false.
Proof.
  destruct f; try discriminate. intros _.
  unfold PyFloat.ltb, SFltb. destruct g as [ | [] | | [] m e]; split; reflexivity.
Qed.

(** A sum that has met a NaN is a NaN. *)
Lemma fold_add_nan (gs : list spec_float) :
  fold_left PyFloat.add gs S754_nan = S754_nan.
Proof. induction gs as [ | g gs IH]; [reflexivity | exact IH]. Qed.

(** X11: in a numeric column whose first non-null value is a NaN, both the
    Min line and the Max line show that NaN, whatever the other values
    are, and the Average line, printed when there are other non-null
    values, shows [nan]. *)
Theorem nan_first_is_min_and_max (c : Column) (f : spec_float) (shown : string)
  (rest : list PyVal) :
  in_strings (col_type c) numeric_types = true ->
  arrow_column c = true ->
  non_null (col_values c) = VFloat f shown :: rest ->
  PyFloat.is_nan f = true ->
  column_stats c
  = ([PValue "  Min: " (VFloat f shown); PValue "  Max: " (VFloat f shown)]
       ++ match rest with
          | [] => []
          | _ :: _ => [PLine "  Average: nan"]
          end,
     Returned tt).
Proof.
  intros Hty Harrow E Hnan.
  destruct f; try discriminate Hnan.
  assert (Hne : non_null (col_values c) <> []) by (rewrite E; discriminate).
  assert (Hfloats : forall v, In v (non_null (col_values c)) -> any_float v).
  { destruct (non_null_kinds c Hty Harrow) as [Hint | Hfl]; [ | exact Hfl].
    exfalso. destruct (Hint (VFloat S754_nan shown)) as [z Hz]; [ | discriminate Hz].
    rewrite E. left. reflexivity. }
  destruct (mean_of_typed c Hty Harrow Hne) as (total & avg & Hsum & Hdiv & Havg).
  unfold column_stats. rewrite Hty. cbv zeta.
  rewrite E in *. unfold py_min, py_max.
  rewrite !scan_keeps_nan.
  - cbn [lift bind print ret app]. destruct rest as [ | v more]; [reflexivity | ].
    change (Nat.ltb 1 (List.length (VFloat S754_nan shown :: v :: more))) with true.
    cbv iota. rewrite Hsum, Hdiv. cbn [lift bind print ret app].
    destruct Havg as [(zs & Hzs & _) | (ps & d & Hps & Hd & ->)].
    { destruct zs; discriminate Hzs. }
    destruct ps as [ | [f0 s0] ps]; [discriminate Hps | ].
    cbn [map fst snd] in Hps. injection Hps as <- _ _.
    cbn [map fst fold_left].
    change (PyFloat.add (S754_zero false) S754_nan) with S754_nan.
    rewrite fold_add_nan. reflexivity.
  - intros g s. cbn [py_gt]. destruct (nothing_below_nan S754_nan g Hnan) as [_ ->].
    reflexivity.
  - intros v Hv. apply Hfloats. right. exact Hv.
  - intros g s. cbn [py_lt]. destruct (nothing_below_nan S754_nan g Hnan) as [-> _].
    reflexivity.
  - intros v Hv. apply Hfloats. right. exact Hv.
Qed.

(** A column of doubles: a null, a NaN, 1.0 and -2.0. *)
Lemma nan_first_is_min_and_max_witness :
  column_stats Cases.nan_column
  = ([PValue "  Min: " (VFloat S754_nan "nan"); PValue "  Max: " (VFloat S754_nan "nan");
      PLine "  Average: nan"], Returned tt).
Proof.
  apply (nan_first_is_min_and_max Cases.nan_column S754_nan "nan"
           [VFloat (S754_finite false 4503599627370496 (-52)) "1.0";
            VFloat (S754_finite true 4503599627370496 (-51)) "-2.0"]);
    reflexivity.
Defined.

(** ** The preview under a negative bound *)

(** [l[:n]] for a negative [n], and [l[n:]] for a positive one. *)
Lemma py_slice_all_but_last {A} (n : Z) (l : list A) :
  (n < 0)%Z ->
  py_slice None (Some n) l = firstn (List.length l - Z.to_nat (- n)) l.
Proof.
  intros Hn. unfold py_slice, clamp_index. cbv zeta.
  destruct (Z.ltb_spec n 0) as [_ | H]; [ | lia].
  rewrite Z.sub_0_r. cbn [Z.to_nat skipn]. f_equal. lia.
Qed.

Lemma py_slice_all_but_first {A} (n : Z) (l : list A) :
  (0 < n)%Z -> py_slice (Some n) None l = skipn (Z.to_nat n) l.
Proof.
  intros Hn. unfold py_slice, clamp_index. cbv zeta.
  destruct (Z.ltb_spec n 0) as [H | _]; [lia | ].
  destruct (Z.le_ge_cases n (Z.of_nat (List.length l))) as [H | H].
  - rewrite Z.min_l by lia. apply firstn_all2. rewrite length_skipn. lia.
  - rewrite Z.min_r by lia. rewrite Nat2Z.id.
    rewrite skipn_all. rewrite skipn_all2 by lia. destruct (Z.to_nat _); reflexivity.
Qed.

(** X13: under a negative bound [max_rows] the preview never prints the
    whole table: with [k] the number [-(max_rows // 2)], it prints the
    header, the frame of all the rows but the last [k], the ellipsis, and
    the frame of all the rows but the first [k]; each of the two frames is
    shown with all its rows if it has at most 60, and with its first five
    and last five rows if it has more. *)
Theorem data_preview_below_zero (t : Table) (max_rows : Z) :
  (max_rows < 0)%Z ->
  let k := Z.to_nat (- (max_rows / 2)) in
  data_preview (to_pandas t) max_rows
  = ([PLine ("Showing first " ++ of_Z (max_rows / 2) ++ " and last "
             ++ of_Z (max_rows / 2) ++ " rows:" ++ nl);
      PFrame (shown_rows (firstn (tbl_num_rows t - k) (to_pandas t)));
      PLine "...";
      PFrame (shown_rows (skipn k (to_pandas t)))], Returned tt).
Proof.
  intros Hm k. unfold data_preview.
  assert (Hhalf : (max_rows / 2 < 0)%Z) by (apply Z.div_lt_upper_bound; lia).
  destruct (Z.leb_spec (Z.of_nat (List.length (to_pandas t))) max_rows) as [H | _]; [lia | ].
  rewrite !frame_view_rows.
  unfold df_head, df_tail.
  destruct (Z.eqb_spec (max_rows / 2) 0) as [H | _]; [lia | ].
  rewrite py_slice_all_but_last by lia.
  rewrite py_slice_all_but_first by lia.
  rewrite to_pandas_length. reflexivity.
Qed.

(** The sample table of three rows under the bound -3. *)
Lemma data_preview_below_zero_witness :
  data_preview (to_pandas Samples.sample_table) (-3)
  = ([PLine ("Showing first -2 and last -2 rows:" ++ nl);
      PFrame (AllRows [[VInt 1; VStr "Alice"]]);
      PLine "...";
      PFrame (AllRows [[VInt 3; VNone]])], Returned tt).
Proof.
  apply (data_preview_below_zero Samples.sample_table (-3)). lia.
Defined.

(** ** The type lookup *)

Lemma lower_char_idempotent (c : ascii) : lower_char (lower_char c) = lower_char c.
Proof.
  destruct c as [[] [] [] [] [] [] [] []]; reflexivity.
Qed.

Lemma lower_idempotent (s : string) : lower (lower s) = lower s.
Proof.
  induction s as [ | c s IH]; [reflexivity | ].
  cbn [lower]. rewrite lower_char_idempotent, IH. reflexivity.
Qed.

(** X14: [python_to_java_type] does not tell upper case from lower case:
    two type names that differ only in the case of their letters get the
    same Java type, and a name gets the Java type of its lower-cased
    form. *)
Theorem python_to_java_type_ignores_case (a b : string) :
  lower a = lower b ->
  python_to_java_type a = python_to_java_type b
  /\ python_to_java_type (lower a) = python_to_java_type a.
Proof.
  assert (H : forall x y, lower x = lower y ->
                          python_to_java_type x = python_to_java_type y).
  { intros x y E. unfold python_to_java_type.
    induction type_map as [ | [key value] items IH]; [reflexivity | ].
    cbn [first_hit]. rewrite E, IH. reflexivity. }
  intros E. split; [exact (H a b E) | ].
  apply H. apply lower_idempotent.
Qed.

(** Two spellings of int64. *)
Lemma python_to_java_type_ignores_case_witness :
  python_to_java_type "INT64" = python_to_java_type "Int64"
  /\ python_to_java_type (lower "INT64") = python_to_java_type "INT64".
Proof.
  apply (python_to_java_type_ignores_case "INT64" "Int64"). reflexivity.
Defined.

(** X15: whatever the type name, [python_to_java_type] returns one of
    seven names: Integer, Long, Float, Double, String, Boolean or Object. *)
Theorem python_to_java_type_range (pyarrow_type : string) :
  In (python_to_java_type pyarrow_type)
     ["Integer"; "Long"; "Float"; "Double"; "String"; "Boolean"; "Object"].
Proof.
  unfold python_to_java_type, type_map. cbn [first_hit].
  repeat match goal with
         | |- context [if ?b then _ else _] => destruct b
         end; cbn [In]; auto 10.
Qed.

(** ** [format_value] on [int]s *)

(** The text of an [int]: digits, after a minus sign if it is negative. *)
Lemma digits_of_uint (d : Decimal.uint) :
  all_chars is_digit (NilEmpty.string_of_uint d) = true.
Proof. induction d; cbn [NilEmpty.string_of_uint all_chars]; auto. Qed.

Lemma digits_of_uint_zero (d : Decimal.uint) :
  all_chars is_digit (NilZero.string_of_uint d) = true.
Proof. destruct d; try apply digits_of_uint. reflexivity. Qed.

Lemma of_Z_digits (z : Z) :
  exists body, all_chars is_digit body = true
               /\ of_Z z = ((if (z <? 0)%Z then "-" else EmptyString) ++ body)%string
               /\ body <> EmptyString.
Proof.
  assert (Hne : forall p, NilZero.string_of_uint (Pos.to_uint p) <> EmptyString).
  { intros p. destruct (Pos.to_uint p); discriminate. }
  unfold of_Z. destruct z as [ | p | p]; cbn [Z.to_int NilZero.string_of_int Z.ltb Z.compare].
  - exists "0". repeat split. discriminate.
  - exists (NilZero.string_of_uint (Pos.to_uint p)).
    split; [apply digits_of_uint_zero | ]. split; [reflexivity | apply Hne].
  - exists (NilZero.string_of_uint (Pos.to_uint p)).
    split; [apply digits_of_uint_zero | ]. split; [reflexivity | apply Hne].
Qed.

Lemma last_char_passes (p : ascii -> bool) (body : string) (c : ascii) :
  all_chars p (body ++ String c EmptyString) = true -> p c = true.
Proof.
  rewrite all_chars_app. cbn [all_chars]. rewrite !andb_true_iff. tauto.
Qed.

(** X16: the literal [format_value] makes of an [int] ends in [L] if and
    only if the [int] is above 2147483647; every other [int], those below
    -2147483648 too, is written without the suffix. *)
Theorem format_value_long_suffix (z : Z) :
  (exists body, format_value (VInt z) = (body ++ "L")%string)
  <-> (2147483647 < z)%Z.
Proof.
  cbn [format_value]. destruct (Z.gtb_spec z 2147483647) as [Hbig | Hsmall].
  - split; [intros _; exact Hbig | intros _; eexists; reflexivity].
  - split; [ | lia]. intros [body E]. exfalso.
    destruct (of_Z_digits z) as (digits & Hd & Hz & _).
    assert (H : all_chars (fun c => orb (is_digit c) (Ascii.eqb c "-")) (of_Z z) = true).
    { rewrite Hz, all_chars_app. apply andb_true_iff. split.
      - destruct (z <? 0)%Z; reflexivity.
      - apply (all_chars_weaken is_digit); [ | exact Hd].
        intros c ->. reflexivity. }
    rewrite E in H. apply last_char_passes in H. discriminate H.
Qed.

(** ** The bound of the preview on the command line *)

(** Digits are no blanks, no signs and no underscores. *)
Lemma digit_is_plain (c : ascii) :
  is_digit c = true ->
  is_space c = false /\ Ascii.eqb c "_" = false
  /\ forall rest, split_sign (String c rest) = (false, String c rest).
Proof.
  destruct c as [[] [] [] [] [] [] [] []]; intros H; try discriminate H;
    repeat split.
Qed.

(** Scanning the digits of a number gives the number, counts the digits and
    leaves nothing. *)
Lemma scan_digits_acc (d : Decimal.uint) (acc : positive) (n : nat) :
  scan_digits (Zpos acc) n false (NilEmpty.string_of_uint d)
  = Some (Zpos (Pos.of_uint_acc d acc),
          (n + String.length (NilEmpty.string_of_uint d))%nat, EmptyString).
Proof.
  revert acc n. induction d; intros acc n;
    cbn [NilEmpty.string_of_uint scan_digits Pos.of_uint_acc String.length];
    [rewrite Nat.add_0_r; reflexivity | ..];
    match goal with
    | |- context [Ascii.eqb ?c "_"] => change (Ascii.eqb c "_") with false
    end; cbv iota;
    match goal with
    | |- context [digit_of ?c] =>
        let v := eval vm_compute in (digit_of c) in change (digit_of c) with v
    end; cbv iota;
    rewrite Nat.add_succ_r; rewrite <- (IHd _ (S n)); f_equal; lia.
Qed.

Lemma scan_digits_zero (d : Decimal.uint) (n : nat) :
  scan_digits 0 n false (NilEmpty.string_of_uint d)
  = Some (Z.of_N (Pos.of_uint d),
          (n + String.length (NilEmpty.string_of_uint d))%nat, EmptyString).
Proof.
  revert n. induction d; intros n;
    cbn [NilEmpty.string_of_uint scan_digits Pos.of_uint String.length];
    [rewrite Nat.add_0_r; reflexivity | ..];
    match goal with
    | |- context [Ascii.eqb ?c "_"] => change (Ascii.eqb c "_") with false
    end; cbv iota;
    match goal with
    | |- context [digit_of ?c] =>
        let v := eval vm_compute in (digit_of c) in change (digit_of c) with v
    end; cbv iota; rewrite Nat.add_succ_r.
  - apply IHd.
  - apply (scan_digits_acc d 1).
  - apply (scan_digits_acc d 2).
  - apply (scan_digits_acc d 3).
  - apply (scan_digits_acc d 4).
  - apply (scan_digits_acc d 5).
  - apply (scan_digits_acc d 6).
  - apply (scan_digits_acc d 7).
  - apply (scan_digits_acc d 8).
  - apply (scan_digits_acc d 9).
Qed.

Lemma scan_digits_to_uint (p : positive) :
  scan_digits 0 0 false (NilZero.string_of_uint (Pos.to_uint p))
  = Some (Zpos p, String.length (NilZero.string_of_uint (Pos.to_uint p)), EmptyString).
Proof.
  assert (Hne : Pos.to_uint p <> Decimal.Nil).
  { intros E. apply (f_equal Pos.of_uint) in E.
    rewrite DecimalPos.Unsigned.of_to in E. discriminate E. }
  assert (E : NilZero.string_of_uint (Pos.to_uint p)
              = NilEmpty.string_of_uint (Pos.to_uint p)).
  { destruct (Pos.to_uint p); [contradiction | reflexivity ..]. }
  rewrite E, scan_digits_zero.
  rewrite DecimalPos.Unsigned.of_to. reflexivity.
Qed.

(** In a text of digits there are as many digits as characters. *)
Lemma digit_count_digits (s : string) :
  all_chars is_digit s = true -> digit_count s = String.length s.
Proof.
  induction s as [ | c s IH]; [reflexivity | ].
  cbn [all_chars digit_count String.length]. rewrite andb_true_iff. intros [-> Hs].
  rewrite (IH Hs). reflexivity.
Qed.

(** [int] reads a text of at most 4300 digits, signed or not. *)
Lemma py_int_digits (negative : bool) (body : string) (value : Z) :
  body <> EmptyString ->
  all_chars is_digit body = true ->
  scan_digits 0 0 false body = Some (value, String.length body, EmptyString) ->
  (String.length body <= max_str_digits)%nat ->
  py_int ((if negative then "-" else EmptyString) ++ body)
  = Returned (if negative then (- value)%Z else value).
Proof.
  intros Hne Hdigits Hscan Hmax.
  destruct body as [ | c rest]; [contradiction | ].
  assert (Hc : is_digit c = true).
  { cbn [all_chars] in Hdigits. apply andb_true_iff in Hdigits. tauto. }
  destruct (digit_is_plain c Hc) as (Hspace & Hunder & Hsign).
  assert (Hsplit : split_sign (lstrip ((if negative then "-" else EmptyString)
                                       ++ String c rest))
                   = (negative, String c rest)).
  { destruct negative; cbn [append lstrip].
    - reflexivity.
    - rewrite Hspace. apply Hsign. }
  unfold py_int. cbv zeta. rewrite Hsplit. cbn [fst snd starts_with].
  rewrite Ascii.eqb_sym, Hunder. cbn [andb]. rewrite Hscan.
  destruct (Nat.ltb_spec max_str_digits (String.length (String c rest))) as [H | _];
    [lia | ].
  reflexivity.
Qed.

(** [int] reads the text of an [int] of at most 4300 digits back as that
    [int]. *)
Lemma py_int_of_Z (z : Z) :
  (digit_count (of_Z z) <= max_str_digits)%nat -> py_int (of_Z z) = Returned z.
Proof.
  intros Hmax.
  assert (Hone : forall (negative : bool) (p : positive),
            (digit_count ((if negative then "-" else EmptyString)
                          ++ NilZero.string_of_uint (Pos.to_uint p))
             <= max_str_digits)%nat ->
            py_int ((if negative then "-" else EmptyString)
                    ++ NilZero.string_of_uint (Pos.to_uint p))
            = Returned (if negative then Zneg p else Zpos p)).
  { intros negative p Hp.
    assert (Hd : all_chars is_digit (NilZero.string_of_uint (Pos.to_uint p)) = true)
      by apply digits_of_uint_zero.
    assert (Hlen : (String.length (NilZero.string_of_uint (Pos.to_uint p))
                    <= max_str_digits)%nat).
    { rewrite <- (digit_count_digits _ Hd).
      destruct negative; cbn [append digit_count] in Hp; exact Hp. }
    rewrite (py_int_digits negative _ (Zpos p)).
    - destruct negative; reflexivity.
    - destruct (Pos.to_uint p); discriminate.
    - exact Hd.
    - apply scan_digits_to_uint.
    - exact Hlen. }
  unfold of_Z in *. destruct z as [ | p | p];
    cbn [Z.to_int NilZero.string_of_int] in *.
  - vm_compute. reflexivity.
  - apply (Hone false p). exact Hmax.
  - apply (Hone true p). exact Hmax.
Qed.

(** X17: called with a path and, as second argument, the decimal text of
    an integer [z] of at most 4300 digits, the program inspects the file
    under the bound [z]: it ends as [inspect_parquet] on that path and
    that bound ends, with status 0 after a return, and with an error line
    and status 1 after an exception. *)
Theorem main_reads_max_rows (w : World) (prog path : string) (z : Z) :
  (digit_count (of_Z z) <= max_str_digits)%nat ->
  main w [prog; path; of_Z z]
  = match inspect_parquet w path z with
    | (out, Returned _) => (out, 0%Z)
    | (out, Raised (FileNotFoundError _)) =>
        (out ++ [PLine ("Error: File not found: " ++ path)], 1%Z)
    | (out, Raised (PyException msg)) =>
        (out ++ [PLine ("Error inspecting file: " ++ msg);
                 PTraceback (PyException msg)], 1%Z)
    end.
Proof.
  intros Hmax. unfold main. cbn [List.length Nat.ltb Nat.leb argv_at nth].
  rewrite (py_int_of_Z z Hmax). reflexivity.
Qed.

(** The sample file under the bound 2. *)
Lemma main_reads_max_rows_witness :
  main Samples.sample_world ["pyarrow_inspect.py"; "sample_data.parquet"; of_Z 2]
  = (fst (inspect_parquet Samples.sample_world "sample_data.parquet" 2), 0%Z).
Proof.
  rewrite (main_reads_max_rows Samples.sample_world
             "pyarrow_inspect.py" "sample_data.parquet" 2).
  - reflexivity.
  - vm_compute. lia.
Defined.

(** What [int] reads holds nothing but digits, signs, underscores and
    blanks. *)
Lemma lstrip_numeral (s : string) :
  all_chars numeral_char (lstrip s) = true -> all_chars numeral_char s = true.
Proof.
  induction s as [ | c s IH]; [reflexivity | ].
  cbn [lstrip]. destruct (is_space c) eqn:E; [ | auto].
  intros H. cbn [all_chars]. rewrite (IH H).
  unfold numeral_char. rewrite E, orb_true_r. reflexivity.
Qed.

Lemma blank_numeral (s : string) :
  lstrip s = EmptyString -> all_chars numeral_char s = true.
Proof.
  intros H. apply lstrip_numeral. rewrite H. reflexivity.
Qed.

Lemma split_sign_numeral (s : string) :
  all_chars numeral_char (snd (split_sign s)) = true ->
  all_chars numeral_char s = true.
Proof.
  destruct s as [ | c rest]; [reflexivity | ].
  destruct c as [[] [] [] [] [] [] [] []]; cbn [split_sign snd]; auto;
    intros H; cbn [all_chars]; rewrite H; reflexivity.
Qed.

Lemma scan_digits_numeral (s : string) (value : Z) (digits : nat) (b : bool)
  (value' : Z) (digits' : nat) (rest : string) :
  scan_digits value digits b s = Some (value', digits', rest) ->
  all_chars numeral_char rest = true -> all_chars numeral_char s = true.
Proof.
  revert value digits b. induction s as [ | c s IH]; intros value digits b;
    [reflexivity | ].
  cbn [scan_digits all_chars].
  destruct (Ascii.eqb c "_") eqn:Eu.
  - destruct b; [discriminate | ]. intros H Hrest.
    rewrite (IH _ _ _ H Hrest).
    unfold numeral_char. rewrite Eu, !orb_true_r. reflexivity.
  - destruct (digit_of c) as [d | ] eqn:Ed.
    + intros H Hrest. rewrite (IH _ _ _ H Hrest).
      unfold numeral_char, is_digit. rewrite Ed. reflexivity.
    + destruct b; [discriminate | ]. intros H Hrest.
      injection H as _ _ <-. exact Hrest.
Qed.

Lemma py_int_returns_numeral (s : string) (z : Z) :
  py_int s = Returned z -> all_chars numeral_char s = true.
Proof.
  unfold py_int. cbv zeta.
  destruct (starts_with "_" (snd (split_sign (lstrip s)))); [discriminate | ].
  destruct (scan_digits 0 0 false (snd (split_sign (lstrip s))))
    as [[[value digits] rest] | ] eqn:Hscan; [ | discriminate].
  destruct (Nat.ltb max_str_digits digits); [discriminate | ].
  destruct (Nat.eqb digits 0); [discriminate | ].
  destruct (lstrip rest) eqn:Hrest; [ | discriminate].
  intros _. apply lstrip_numeral, split_sign_numeral.
  apply (scan_digits_numeral _ _ _ _ _ _ _ Hscan).
  apply blank_numeral. exact Hrest.
Qed.

(** X18: when the second argument is an ASCII text that holds a character
    other than a digit, a sign, an underscore or a blank, the conversion
    to [int] raises before the inspection is called and outside the [try]:
    the run ends with the trace of that exception and status 1, and
    nothing else is printed, neither the opening of the report nor an
    error line. *)
Theorem main_rejects_max_rows (w : World) (argv : list string) :
  (2 < List.length argv)%nat ->
  ascii_text (argv_at argv 2) = true ->
  all_chars numeral_char (argv_at argv 2) = false ->
  exists e, py_int (argv_at argv 2) = Raised e
            /\ main w argv = ([PTraceback e], 1%Z).
Proof.
  intros Hlen _ Hbad.
  destruct (py_int (argv_at argv 2)) as [z | e] eqn:He.
  { apply py_int_returns_numeral in He. congruence. }
  exists e. split; [reflexivity | ].
  unfold main.
  destruct (Nat.ltb_spec (List.length argv) 2) as [H | _]; [lia | ].
  destruct (Nat.ltb_spec 2 (List.length argv)) as [_ | H]; [ | lia].
  rewrite He. reflexivity.
Qed.

(** The bound written as a word. *)
Lemma main_rejects_max_rows_witness :
  exists e, py_int (argv_at ["pyarrow_inspect.py"; "sample_data.parquet"; "ten"] 2)
            = Raised e
            /\ main Samples.sample_world
                 ["pyarrow_inspect.py"; "sample_data.parquet"; "ten"]
               = ([PTraceback e], 1%Z).
Proof.
  apply (main_rejects_max_rows Samples.sample_world
           ["pyarrow_inspect.py"; "sample_data.parquet"; "ten"]).
  - simpl. lia.
  - reflexivity.
  - reflexivity.
Defined.
